(** * Booking ledger, capacity accounting and rating aggregation

    A shallow embedding of the booking and rating services of the tourism
    backend:

    - [app/services/booking_service.py]: [create_booking],
      [update_booking_status];
    - [app/services/tour_package_service.py]: [update_tour_package];
    - [app/services/rating_service.py]: [create_rating],
      [update_package_rating];
    - [app/models/booking.py], [app/models/tour_package.py],
      [app/models/rating.py]: the documents and the [from_mongo] converters;
    - further on, run without interruption: [get_booking],
      [list_user_bookings], [get_tour_package], [delete_tour_package], the
      routes [create_new_booking], [update_booking_status_endpoint] and
      [create_new_rating] of [app/routes], and [validate_data_integrity] of
      [fix_backend_issues.py].

    Modelling decisions.

    - The three MongoDB collections are part of an explicit [World].
      [tour_packages] is only ever addressed by [_id], whose index is unique,
      so it is a finite map; [bookings] and [ratings] are also searched by
      field queries, so they are lists of [(_id, document)] in natural
      (insertion) order.
    - A service coroutine is a [prog]: a tree whose nodes are the awaited
      driver calls.  [run] executes a coroutine without interruption;
      [interleave] lets the event loop switch between two coroutines at
      their [await] points.
    - An [ObjectId] is the 96-bit number it holds; [ObjectId_of_str] is the
      constructor [ObjectId(s)] of a 24-digit hexadecimal string and
      [ObjectId_str] is [str(oid)].  Fresh identifiers come from a counter of
      the world, random draws from a tape of the world.  [bytes.fromhex]
      passes over blanks between two pairs of digits, so [ObjectId(s)] also
      takes strings of 24 characters that hold fewer than 24 digits; such
      identifiers are outside the model, which refuses them, and what is
      stated of refused identifiers is stated of [not_an_ObjectId] ones.
    - Integers are unbounded; the driver encodes those that fit 8 bytes
      ([int64]) and raises on the others.
    - Python [float]s ([price], [total_price], [average_rating]) are exact
      rationals; the rounding of IEEE arithmetic is not modelled, and
      [round1] breaks a tie of the exact value where [round] sees the
      nearest double.
    - Document fields that none of the modelled functions reads or branches
      on (dates, contact data, descriptions, ...) are left out. *)

From Stdlib Require Import Ascii String QArith Qround Qabs Lqa.
From stdpp Require Import base decidable option list gmap strings pretty.

Local Open Scope string_scope.
Local Open Scope list_scope.
Local Open Scope Z_scope.

(** ** Identifiers *)

Definition ObjectId := N.

(** The value of one hexadecimal digit, in either case, as [bytes.fromhex]
    reads it. *)
Definition hex_value (c : ascii) : option N :=
  let n := N_of_ascii c in
  if ((48 <=? n) && (n <=? 57))%N then Some (n - 48)%N
  else if ((97 <=? n) && (n <=? 102))%N then Some (n - 87)%N
  else if ((65 <=? n) && (n <=? 70))%N then Some (n - 55)%N
  else None.

Fixpoint fromhex (s : string) (acc : N) : option N :=
  match s with
  | EmptyString => Some acc
  | String c s' =>
      match hex_value c with
      | Some d => fromhex s' (16 * acc + d)%N
      | None => None
      end
  end.

(** [ObjectId(s)]: [None] stands for [bson.errors.InvalidId].  A string with
    blanks is refused here (see the modelling decisions above). *)
Definition ObjectId_of_str (s : string) : option ObjectId :=
  if Nat.eqb (String.length s) 24 then fromhex s 0%N else None.

Definition hex_char (d : N) : ascii :=
  if (d <? 10)%N then ascii_of_N (48 + d) else ascii_of_N (87 + d).

Fixpoint tohex (digits : nat) (v : N) (acc : string) : string :=
  match digits with
  | O => acc
  | S k => tohex k (v / 16)%N (String (hex_char (v mod 16)%N) acc)
  end.

(** [str(oid)]: 24 lower-case hexadecimal digits. *)
Definition ObjectId_str (o : ObjectId) : string := tohex 24 o "".

(** A foreign key as BSON stores it: an ObjectId or a string.  The two never
    compare equal in a query, whatever the string says. *)
Inductive bson_id :=
| IdOid (o : ObjectId)
| IdStr (s : string).

#[global] Instance bson_id_eq_dec : EqDecision bson_id.
Proof. solve_decision. Defined.

(** ** Enumerations *)

Inductive BookingStatus := PENDING | CONFIRMED | CANCELLED | COMPLETED.

#[global] Instance BookingStatus_eq_dec : EqDecision BookingStatus.
Proof. solve_decision. Defined.

Definition BookingStatus_value (s : BookingStatus) : string :=
  match s with
  | PENDING => "pending"
  | CONFIRMED => "confirmed"
  | CANCELLED => "cancelled"
  | COMPLETED => "completed"
  end.

Inductive PackageStatus := ACTIVE | INACTIVE.

#[global] Instance PackageStatus_eq_dec : EqDecision PackageStatus.
Proof. solve_decision. Defined.

(** ** Documents *)

Module TourPackage.
Record doc := {
    name : string;
    price : Q;
    max_participants : Z;
    current_participants : Z;
    status : PackageStatus;
    average_rating : Q;
    total_ratings : Z;
    (* not a field of the model class; [update_package_rating] writes it *)
    rating_count : option Z;
  }.

Definition inc_current_participants (n : Z) (p : doc) : doc :=
    {| name := name p; price := price p;
       max_participants := max_participants p;
       current_participants := current_participants p + n;
       status := status p; average_rating := average_rating p;
       total_ratings := total_ratings p; rating_count := rating_count p |}.

Definition set_rating (avg : Q) (count : Z) (p : doc) : doc :=
    {| name := name p; price := price p;
       max_participants := max_participants p;
       current_participants := current_participants p;
       status := status p; average_rating := avg;
       total_ratings := total_ratings p; rating_count := Some count |}.

  (** Equality of two documents as the server compares them: numbers by
      value. *)
Definition eqb (p q : doc) : bool :=
    bool_decide (name p = name q) && Qeq_bool (price p) (price q)
    && bool_decide (max_participants p = max_participants q)
    && bool_decide (current_participants p = current_participants q)
    && bool_decide (status p = status q)
    && Qeq_bool (average_rating p) (average_rating q)
    && bool_decide (total_ratings p = total_ratings q)
    && bool_decide (rating_count p = rating_count q).
End TourPackage.

(** [TourPackageUpdate]: [None] is a field the request left unset
    ([dict(exclude_unset=True)] drops it). *)
Module TourPackageUpdate.
Record t := {
    name : option string;
    price : option Q;
    max_participants : option Z;
    current_participants : option Z;
    status : option PackageStatus;
    average_rating : option Q;
    total_ratings : option Z;
  }.

  (** [len(update_data) == 0] *)
Definition is_empty (u : t) : bool :=
    match name u, price u, max_participants u, current_participants u,
          status u, average_rating u, total_ratings u with
    | None, None, None, None, None, None, None => true
    | _, _, _, _, _, _, _ => false
    end.

  (** [{"$set": update_data}] *)
Definition apply (u : t) (p : TourPackage.doc) : TourPackage.doc :=
    {| TourPackage.name := default (TourPackage.name p) (name u);
       TourPackage.price := default (TourPackage.price p) (price u);
       TourPackage.max_participants :=
         default (TourPackage.max_participants p) (max_participants u);
       TourPackage.current_participants :=
         default (TourPackage.current_participants p) (current_participants u);
       TourPackage.status := default (TourPackage.status p) (status u);
       TourPackage.average_rating :=
         default (TourPackage.average_rating p) (average_rating u);
       TourPackage.total_ratings :=
         default (TourPackage.total_ratings p) (total_ratings u);
       TourPackage.rating_count := TourPackage.rating_count p |}.
End TourPackageUpdate.

Module Booking.
Record doc := {
    tour_package_id : bson_id;
    tourist_id : bson_id;
    number_of_people : Z;
    total_price : Q;
    status : BookingStatus;
    booking_reference : string;
  }.

Definition set_status (s : BookingStatus) (b : doc) : doc :=
    {| tour_package_id := tour_package_id b; tourist_id := tourist_id b;
       number_of_people := number_of_people b; total_price := total_price b;
       status := s; booking_reference := booking_reference b |}.
End Booking.

(** [BookingCreate], the request body of a booking. *)
Module BookingCreate.
Record t := {
    tour_package_id : string;
    number_of_people : Z;
  }.
End BookingCreate.

(** [BookingInDB], what the booking functions return. *)
Module BookingInDB.
Record t := {
    id : string;
    tour_package_id : string;
    tourist_id : string;
    number_of_people : Z;
    total_price : Q;
    status : BookingStatus;
    booking_reference : string;
  }.

Definition str_of_id (v : bson_id) : string :=
    match v with
    | IdOid o => ObjectId_str o
    | IdStr s => s
    end.

Definition build (i : ObjectId) (b : Booking.doc) : t :=
    {| id := ObjectId_str i;
       tour_package_id := str_of_id (Booking.tour_package_id b);
       tourist_id := str_of_id (Booking.tourist_id b);
       number_of_people := Booking.number_of_people b;
       total_price := Booking.total_price b;
       status := Booking.status b;
       booking_reference := Booking.booking_reference b |}.

Definition from_mongo (data : option (ObjectId * Booking.doc)) : option t :=
    match data with
    | None => None
    | Some (i, b) => Some (build i b)
    end.
End BookingInDB.

(** [RatingCreate] and the stored rating have the same fields. *)
Module Rating.
Record doc := {
    tour_package_id : string;
    tourist_id : string;
    rating : Z;
    review : option string;
    booking_id : option string;
  }.

Definition set_booking_id (v : option string) (r : doc) : doc :=
    {| tour_package_id := tour_package_id r; tourist_id := tourist_id r;
       rating := rating r; review := review r; booking_id := v |}.
End Rating.

(** ** The world: collections, identifier generator, random tape *)

Record World := {
  tour_packages : gmap ObjectId TourPackage.doc;
  bookings : list (ObjectId * Booking.doc);
  ratings : list (ObjectId * Rating.doc);
  next_oid : N;
  rng : list nat;
}.

Definition with_tour_packages (m : gmap ObjectId TourPackage.doc) (w : World) :=
  {| tour_packages := m; bookings := bookings w; ratings := ratings w;
     next_oid := next_oid w; rng := rng w |}.

Definition with_bookings (l : list (ObjectId * Booking.doc)) (w : World) :=
  {| tour_packages := tour_packages w; bookings := l; ratings := ratings w;
     next_oid := next_oid w; rng := rng w |}.

Definition with_ratings (l : list (ObjectId * Rating.doc)) (w : World) :=
  {| tour_packages := tour_packages w; bookings := bookings w; ratings := l;
     next_oid := next_oid w; rng := rng w |}.

Definition with_next_oid (n : N) (w : World) :=
  {| tour_packages := tour_packages w; bookings := bookings w;
     ratings := ratings w; next_oid := n; rng := rng w |}.

Definition with_rng (t : list nat) (w : World) :=
  {| tour_packages := tour_packages w; bookings := bookings w;
     ratings := ratings w; next_oid := next_oid w; rng := t |}.

(** ** Exceptions *)

Inductive exn :=
| HTTPException (status_code : Z) (detail : string)
| InvalidId            (* bson.errors.InvalidId, where the code lets it escape *)
| DuplicateKeyError    (* pymongo: an [_id] that is already stored *)
| AttributeError       (* an attribute asked of an object that has none such *)
| TypeError.           (* [await] of what is not awaitable *)

(** ** The driver calls a coroutine awaits *)

(** [find_one] returns the first document, in natural order, that the query
    accepts. *)
Definition find_one {D} (query : ObjectId * D → bool) (c : list (ObjectId * D))
  : option (ObjectId * D) := List.find query c.

(** [{"_id": i}] *)
Definition by_id {D} (i : ObjectId) : ObjectId * D → bool :=
  λ d, bool_decide (d.1 = i).

(** [update_one(query, ...)]: the first document the query accepts is
    replaced by its image under [f]. *)
Fixpoint update_one {D} (query : ObjectId * D → bool) (f : D → D)
    (c : list (ObjectId * D)) : list (ObjectId * D) :=
  match c with
  | [] => []
  | d :: c' =>
      if query d then (d.1, f d.2) :: c' else d :: update_one query f c'
  end.

(** [insert_one]: the driver draws the next identifier; the server refuses
    it when the collection holds it already. *)
Definition insert_one {D} (i : ObjectId) (d : D) (c : list (ObjectId * D))
  : option (list (ObjectId * D)) :=
  match find_one (by_id i) c with
  | Some _ => None
  | None => Some (c ++ [(i, d)])
  end.

(** [population[floor(random() * len(population))]] for one draw [r] of the
    tape. *)
Definition choice (population : string) (r : nat) : ascii :=
  default "000"%char
    (String.get (r mod String.length population)%nat population).

(** [''.join(random.choices(population, k=k))]; an exhausted tape draws 0. *)
Fixpoint random_choices (population : string) (k : nat) (tape : list nat)
  : string * list nat :=
  match k with
  | O => ("", tape)
  | S k' =>
      let r := hd 0%nat tape in
      let '(s, tape') := random_choices population k' (tl tape) in
      (String (choice population r) s, tape')
  end.

(** Python's [round(x, 1)] on an exact value: to the nearest tenth, a tie
    to the even one.  (On a binary float a value printed as a tie is rarely
    one exactly; the theorems below do not depend on the direction in which
    ties are resolved.) *)
Definition round1 (x : Q) : Q :=
  let t := (x * 10)%Q in
  let f := Qfloor t in
  let z := match (t - inject_Z f ?= 1 # 2)%Q with
           | Lt => f
           | Gt => f + 1
           | Eq => if Z.even f then f else f + 1
           end in
  (z # 10)%Q.

Definition sum_ratings (rs : list (ObjectId * Rating.doc)) : Z :=
  foldr (λ r acc, Rating.rating r.2 + acc) 0 rs.

(** The pipeline [$match tour_package_id] then [$group] with [$avg] of
    [rating] and [$sum 1]: no row when nothing matches. *)
Definition aggregate_ratings (package_id : string)
    (c : list (ObjectId * Rating.doc)) : option (Q * Z) :=
  let rs :=
    List.filter (λ r, bool_decide (Rating.tour_package_id r.2 = package_id)) c in
  match rs with
  | [] => None
  | _ :: _ =>
      Some ((inject_Z (sum_ratings rs) / inject_Z (Z.of_nat (length rs)))%Q,
            Z.of_nat (length rs))
  end.

Inductive op : Type → Type :=
| tour_packages_find_one (i : ObjectId) : op (option TourPackage.doc)
| tour_packages_inc_current_participants (i : ObjectId) (n : Z) : op unit
| tour_packages_set (i : ObjectId) (u : TourPackageUpdate.t) : op Z
| tour_packages_set_rating (i : ObjectId) (avg : Q) (count : Z) : op unit
| bookings_insert_one (b : Booking.doc) : op ObjectId
| bookings_find_one (query : ObjectId * Booking.doc → bool)
    : op (option (ObjectId * Booking.doc))
| bookings_set_status (i : ObjectId) (s : BookingStatus) : op Z
| ratings_insert_one (r : Rating.doc) : op ObjectId
| ratings_find_one (query : ObjectId * Rating.doc → bool)
    : op (option (ObjectId * Rating.doc))
| ratings_aggregate (package_id : string) : op (option (Q * Z))
| random_choices_op (population : string) (k : nat) : op string.

(** The effect of one call on the world, and what it returns or raises.
    The two [Z] results are the [modified_count] of the update.
    [random.choices] is not awaited in the source; as a call of its own it
    only gives the event loop more places to switch, and it touches nothing
    but the tape. *)
Definition exec {X} (o : op X) (w : World) : (exn + X) * World :=
  match o in op X return (exn + X) * World with
  | tour_packages_find_one i => (inr (tour_packages w !! i), w)
  | tour_packages_inc_current_participants i n =>
      (inr tt,
       with_tour_packages
         (alter (TourPackage.inc_current_participants n) i (tour_packages w)) w)
  | tour_packages_set i u =>
      match tour_packages w !! i with
      | None => (inr 0, w)
      | Some p =>
          let p' := TourPackageUpdate.apply u p in
          if TourPackage.eqb p p' then (inr 0, w)
          else (inr 1, with_tour_packages (<[i := p']> (tour_packages w)) w)
      end
  | tour_packages_set_rating i avg count =>
      (inr tt,
       with_tour_packages
         (alter (TourPackage.set_rating avg count) i (tour_packages w)) w)
  | bookings_insert_one b =>
      let i := next_oid w in
      let w1 := with_next_oid (i + 1)%N w in
      match insert_one i b (bookings w) with
      | None => (inl DuplicateKeyError, w1)
      | Some c => (inr i, with_bookings c w1)
      end
  | bookings_find_one query => (inr (find_one query (bookings w)), w)
  | bookings_set_status i s =>
      match find_one (by_id i) (bookings w) with
      | None => (inr 0, w)
      | Some (_, b) =>
          if bool_decide (Booking.status b = s) then (inr 0, w)
          else (inr 1,
                with_bookings
                  (update_one (by_id i) (Booking.set_status s) (bookings w)) w)
      end
  | ratings_insert_one r =>
      let i := next_oid w in
      let w1 := with_next_oid (i + 1)%N w in
      match insert_one i r (ratings w) with
      | None => (inl DuplicateKeyError, w1)
      | Some c => (inr i, with_ratings c w1)
      end
  | ratings_find_one query => (inr (find_one query (ratings w)), w)
  | ratings_aggregate package_id =>
      (inr (aggregate_ratings package_id (ratings w)), w)
  | random_choices_op population k =>
      let '(s, tape) := random_choices population k (rng w) in
      (inr s, with_rng tape w)
  end.

(** ** Coroutines *)

Inductive prog (A : Type) : Type :=
| Return (a : A)
| Raise (e : exn)
| Await {X : Type} (o : op X) (k : X → prog A).

Arguments Return {A} a.
Arguments Raise {A} e.
Arguments Await {A X} o k.

Notation "x <~ o ;; k" := (Await o (λ x, k))
  (at level 100, o at next level, right associativity,
   format "'[v' x  <~  o  ;;  '/' k ']'").

Fixpoint prog_bind {A B} (p : prog A) (f : A → prog B) : prog B :=
  match p with
  | Return a => f a
  | Raise e => Raise e
  | Await o k => Await o (λ x, prog_bind (k x) f)
  end.

(** A coroutine run to its end with no other coroutine in between. *)
Fixpoint run {A} (p : prog A) (w : World) : (exn + A) * World :=
  match p with
  | Return a => (inr a, w)
  | Raise e => (inl e, w)
  | Await o k =>
      match exec o w with
      | (inl e, w') => (inl e, w')
      | (inr x, w') => run (k x) w'
      end
  end.

(** One turn of the event loop for a coroutine: up to and including its
    next awaited call. *)
Definition step {A} (p : prog A) (w : World) : prog A * World :=
  match p with
  | Await o k =>
      match exec o w with
      | (inl e, w') => (Raise e, w')
      | (inr x, w') => (k x, w')
      end
  | _ => (p, w)
  end.

(** Two coroutines on one event loop; the schedule says whose turn it is
    ([true]: the first). *)
Fixpoint interleave {A B} (schedule : list bool) (p : prog A) (q : prog B)
    (w : World) : prog A * prog B * World :=
  match schedule with
  | [] => (p, q, w)
  | true :: s => let '(p', w') := step p w in interleave s p' q w'
  | false :: s => let '(q', w') := step q w in interleave s p q' w'
  end.

Definition returned {A} (p : prog A) : bool :=
  match p with Return _ => true | _ => false end.

(** ** The errors of the specification, as the services raise them *)

Definition HTTP_400_BAD_REQUEST : Z := 400.
Definition HTTP_404_NOT_FOUND : Z := 404.

Definition NotFound_package : exn :=
  HTTPException HTTP_404_NOT_FOUND "Tour package not found".

Definition NotFound_booking : exn :=
  HTTPException HTTP_404_NOT_FOUND "Booking not found".

Definition PackageInactive : exn :=
  HTTPException HTTP_400_BAD_REQUEST
    "This tour package is not currently available".

Definition InsufficientCapacity (available_slots : Z) : exn :=
  HTTPException HTTP_400_BAD_REQUEST
    ("Only " +:+ pretty available_slots +:+ " slots available").

Definition InvalidTransition (current_status new_status : BookingStatus) : exn :=
  HTTPException HTTP_400_BAD_REQUEST
    ("Cannot transition from " +:+ BookingStatus_value current_status
     +:+ " to " +:+ BookingStatus_value new_status).

Definition NotEligible : exn :=
  HTTPException HTTP_400_BAD_REQUEST
    "You can only rate packages you've completed".

Definition DuplicateRating : exn :=
  HTTPException HTTP_400_BAD_REQUEST "You've already rated this package".

(** ** booking_service.py *)

Definition ascii_uppercase : string := "ABCDEFGHIJKLMNOPQRSTUVWXYZ".
Definition digits : string := "0123456789".

Definition create_booking (booking : BookingCreate.t) (tourist_id : string)
  : prog (option BookingInDB.t) :=
  match ObjectId_of_str tourist_id,
        ObjectId_of_str (BookingCreate.tour_package_id booking) with
  | Some tourist_object_id, Some package_object_id =>
      package_doc <~ tour_packages_find_one package_object_id ;;
      match package_doc with
      | None => Raise NotFound_package
      | Some package =>
          if negb (bool_decide (TourPackage.status package = ACTIVE))
          then Raise PackageInactive
          else
            let available_slots :=
              TourPackage.max_participants package
              - TourPackage.current_participants package in
            if available_slots <? BookingCreate.number_of_people booking
            then Raise (InsufficientCapacity available_slots)
            else
              let total_price :=
                (TourPackage.price package
                 * inject_Z (BookingCreate.number_of_people booking))%Q in
              booking_reference <~
                random_choices_op (ascii_uppercase +:+ digits) 8 ;;
              inserted_id <~
                bookings_insert_one
                  {| Booking.tour_package_id := IdOid package_object_id;
                     Booking.tourist_id := IdOid tourist_object_id;
                     Booking.number_of_people :=
                       BookingCreate.number_of_people booking;
                     Booking.total_price := total_price;
                     Booking.status := PENDING;
                     Booking.booking_reference := booking_reference |} ;;
              created_booking <~ bookings_find_one (by_id inserted_id) ;;
              _ <~ tour_packages_inc_current_participants package_object_id
                     (BookingCreate.number_of_people booking) ;;
              Return (BookingInDB.from_mongo created_booking)
      end
  | _, _ => Raise (HTTPException HTTP_400_BAD_REQUEST
                     "Invalid identifier provided")
  end.

Definition valid_transitions (current_status : BookingStatus)
  : list BookingStatus :=
  match current_status with
  | PENDING => [CONFIRMED; CANCELLED]
  | CONFIRMED => [COMPLETED; CANCELLED]
  | CANCELLED => []
  | COMPLETED => []
  end.

(** The package a booking points at, as the cancellation branch resolves it:
    an ObjectId is taken as it is, anything else goes through
    [ObjectId(...)]. *)
Definition package_of (b : Booking.doc) : option ObjectId :=
  match Booking.tour_package_id b with
  | IdOid o => Some o
  | IdStr s => ObjectId_of_str s
  end.

(** The [if new_status_value == "cancelled"] block. *)
Definition release_slots (new_status : BookingStatus) (booking : Booking.doc)
  : prog unit :=
  if bool_decide (new_status = CANCELLED) then
    match package_of booking with
    | None => Raise InvalidId
    | Some package_object_id =>
        _ <~ tour_packages_inc_current_participants package_object_id
               (- Booking.number_of_people booking) ;;
        Return tt
    end
  else Return tt.

Definition update_booking_status (booking_id : string)
    (new_status : BookingStatus) : prog (option BookingInDB.t) :=
  match ObjectId_of_str booking_id with
  | None => Raise (HTTPException HTTP_400_BAD_REQUEST
                     "Invalid booking identifier")
  | Some booking_object_id =>
      found <~ bookings_find_one (by_id booking_object_id) ;;
      match found with
      | None => Raise NotFound_booking
      | Some (_, booking) =>
          let current_status := Booking.status booking in
          if negb (bool_decide (new_status ∈ valid_transitions current_status))
          then Raise (InvalidTransition current_status new_status)
          else
            modified_count <~
              bookings_set_status booking_object_id new_status ;;
            if modified_count =? 0
            then Raise (HTTPException HTTP_404_NOT_FOUND
                          "Booking not found or no changes made")
            else
              prog_bind (release_slots new_status booking) (λ _,
                updated_booking <~
                  bookings_find_one (by_id booking_object_id) ;;
                Return (BookingInDB.from_mongo updated_booking))
      end
  end.

(** ** tour_package_service.py *)

Definition update_tour_package (package_id : string)
    (package_update : TourPackageUpdate.t)
  : prog (option (string * TourPackage.doc)) :=
  if TourPackageUpdate.is_empty package_update
  then Raise (HTTPException HTTP_400_BAD_REQUEST "No data provided for update")
  else
    match ObjectId_of_str package_id with
    | None => Raise InvalidId
    | Some package_object_id =>
        modified_count <~
          tour_packages_set package_object_id package_update ;;
        if modified_count =? 0
        then Raise (HTTPException HTTP_404_NOT_FOUND
                      "Tour package not found or no changes made")
        else
          updated_package <~ tour_packages_find_one package_object_id ;;
          Return ((λ p, (ObjectId_str package_object_id, p))
                    <$> updated_package)
    end.

(** ** rating_service.py *)

Definition update_package_rating (package_id : string) : prog unit :=
  match ObjectId_of_str package_id with
  | None => Return tt
  | Some package_object_id =>
      result <~ ratings_aggregate package_id ;;
      match result with
      | Some (average_rating, count) =>
          let avg_rating := round1 average_rating in
          _ <~ tour_packages_set_rating package_object_id avg_rating count ;;
          Return tt
      | None =>
          _ <~ tour_packages_set_rating package_object_id 0%Q 0 ;;
          Return tt
      end
  end.

(** Python truth of an optional string: [None] and [""] are false. *)
Definition truthy (s : option string) : bool :=
  match s with
  | Some (String _ _) => true
  | _ => false
  end.

(** [booking_query]: the package as an ObjectId, the tourist as the string of
    the request, the status ["completed"], and the [_id] when the request
    names a booking. *)
Definition booking_query (package_object_id : ObjectId) (tourist_id : string)
    (booking_object_id : option ObjectId) : ObjectId * Booking.doc → bool :=
  λ d,
    bool_decide (Booking.tour_package_id d.2 = IdOid package_object_id)
    && bool_decide (Booking.tourist_id d.2 = IdStr tourist_id)
    && bool_decide (Booking.status d.2 = COMPLETED)
    && match booking_object_id with
       | Some i => bool_decide (d.1 = i)
       | None => true
       end.

Definition rating_query (package_id tourist_id : string)
  : ObjectId * Rating.doc → bool :=
  λ d,
    bool_decide (Rating.tour_package_id d.2 = package_id)
    && bool_decide (Rating.tourist_id d.2 = tourist_id).

(** What follows the construction of [booking_query]. *)
Definition create_rating_with (rating : Rating.doc)
    (query : ObjectId * Booking.doc → bool)
  : prog (option (string * Rating.doc)) :=
  booking <~ bookings_find_one query ;;
  match booking with
  | None => Raise NotEligible
  | Some (booking_oid, _) =>
      existing_rating <~
        ratings_find_one
          (rating_query (Rating.tour_package_id rating)
             (Rating.tourist_id rating)) ;;
      match existing_rating with
      | Some _ => Raise DuplicateRating
      | None =>
          if negb ((1 <=? Rating.rating rating) && (Rating.rating rating <=? 5))
          then Raise (HTTPException HTTP_400_BAD_REQUEST
                        "Rating must be between 1 and 5")
          else
            let rating_payload :=
              Rating.set_booking_id
                (if truthy (Rating.booking_id rating)
                 then Rating.booking_id rating
                 else Some (ObjectId_str booking_oid))
                rating in
            inserted_id <~ ratings_insert_one rating_payload ;;
            created_rating <~ ratings_find_one (by_id inserted_id) ;;
            prog_bind (update_package_rating (Rating.tour_package_id rating))
              (λ _, Return ((λ d : ObjectId * Rating.doc,
                               (ObjectId_str d.1, d.2)) <$> created_rating))
      end
  end.

Definition create_rating (rating : Rating.doc)
  : prog (option (string * Rating.doc)) :=
  match ObjectId_of_str (Rating.tour_package_id rating) with
  | None => Raise (HTTPException HTTP_400_BAD_REQUEST
                     "Invalid tour package identifier provided")
  | Some package_object_id =>
      if truthy (Rating.booking_id rating) then
        match ObjectId_of_str (default "" (Rating.booking_id rating)) with
        | None => Raise (HTTPException HTTP_400_BAD_REQUEST
                           "Invalid booking identifier provided")
        | Some booking_object_id =>
            create_rating_with rating
              (booking_query package_object_id (Rating.tourist_id rating)
                 (Some booking_object_id))
        end
      else
        create_rating_with rating
          (booking_query package_object_id (Rating.tourist_id rating) None)
  end.

(** ** Requests and their sequential service *)

Inductive request :=
| CreateBooking (booking : BookingCreate.t) (tourist_id : string)
| UpdateBookingStatus (booking_id : string) (new_status : BookingStatus)
| UpdateTourPackage (package_id : string) (u : TourPackageUpdate.t)
| CreateRating (rating : Rating.doc).

(** The world a request leaves behind, whether it returned or raised. *)
Definition serve (r : request) (w : World) : World :=
  match r with
  | CreateBooking booking tourist_id =>
      (run (create_booking booking tourist_id) w).2
  | UpdateBookingStatus booking_id new_status =>
      (run (update_booking_status booking_id new_status) w).2
  | UpdateTourPackage package_id u => (run (update_tour_package package_id u) w).2
  | CreateRating rating => (run (create_rating rating) w).2
  end.

Definition serve_all (rs : list request) (w : World) : World :=
  foldl (λ w r, serve r w) w rs.

Definition succeeded {A} (r : exn + A) : bool :=
  match r with inr _ => true | inl _ => false end.

(** ** Vocabulary of the properties *)

(** The capacity invariant of the package catalog. *)
Definition capacity_invariant (w : World) : Prop :=
  map_Forall
    (λ _ p, 0 ≤ TourPackage.current_participants p
              ≤ TourPackage.max_participants p)
    (tour_packages w).

(** A booking holds slots of package [i] while it points at [i] and is not
    cancelled. *)
Definition holds_slots (i : ObjectId) (d : ObjectId * Booking.doc) : bool :=
  bool_decide (package_of d.2 = Some i)
  && negb (bool_decide (Booking.status d.2 = CANCELLED)).

Definition booked_people (i : ObjectId) (c : list (ObjectId * Booking.doc)) : Z :=
  foldr (λ d acc, Booking.number_of_people d.2 + acc) 0
    (List.filter (holds_slots i) c).

(** The counters account for the bookings: no booking is for a negative
    number of people, and every package counts at least the people of the
    bookings that hold its slots and at most its ceiling. *)
Definition accounted (w : World) : Prop :=
  Forall (λ d, 0 ≤ Booking.number_of_people d.2) (bookings w)
  ∧ map_Forall
      (λ i p, booked_people i (bookings w)
                ≤ TourPackage.current_participants p
                ≤ TourPackage.max_participants p)
      (tour_packages w).

(** Requests that go through the capacity accounting: a booking for a
    number of people that is not negative, any status change, any rating,
    and a package update that does not write either counter itself. *)
Definition keeps_counters (r : request) : Prop :=
  match r with
  | CreateBooking booking _ => 0 ≤ BookingCreate.number_of_people booking
  | UpdateTourPackage _ u =>
      TourPackageUpdate.max_participants u = None
      ∧ TourPackageUpdate.current_participants u = None
  | UpdateBookingStatus _ _ | CreateRating _ => True
  end.

(** The transition table of the specification. *)
Definition transition_table : list (BookingStatus * BookingStatus) :=
  [(PENDING, CONFIRMED); (PENDING, CANCELLED);
   (CONFIRMED, COMPLETED); (CONFIRMED, CANCELLED)].

(** The document [create_booking] inserts. *)
Definition new_booking (booking : BookingCreate.t)
    (tourist package : ObjectId) (p : TourPackage.doc) (reference : string)
  : Booking.doc :=
  {| Booking.tour_package_id := IdOid package;
     Booking.tourist_id := IdOid tourist;
     Booking.number_of_people := BookingCreate.number_of_people booking;
     Booking.total_price :=
       (TourPackage.price p
        * inject_Z (BookingCreate.number_of_people booking))%Q;
     Booking.status := PENDING;
     Booking.booking_reference := reference |}.

(** What [update_package_rating] writes for the ratings stored under a
    package identifier. *)
Definition package_rating (package_id : string)
    (c : list (ObjectId * Rating.doc)) : Q * Z :=
  match aggregate_ratings package_id c with
  | Some (average_rating, count) => (round1 average_rating, count)
  | None => (0%Q, 0)
  end.

(** The document [create_rating] inserts. *)
Definition rating_payload (rating : Rating.doc) (booking_oid : ObjectId)
  : Rating.doc :=
  Rating.set_booking_id
    (if truthy (Rating.booking_id rating) then Rating.booking_id rating
     else Some (ObjectId_str booking_oid)) rating.

(** The rating values stored under a package identifier, and their
    arithmetic mean. *)
Definition rating_values (package_id : string)
    (c : list (ObjectId * Rating.doc)) : list Z :=
  (λ d, Rating.rating d.2)
    <$> List.filter
          (λ d, bool_decide (Rating.tour_package_id d.2 = package_id)) c.

Definition mean (l : list Z) : Q :=
  (inject_Z (foldr Z.add 0%Z l) / inject_Z (Z.of_nat (length l)))%Q.

(** The identifiers of a rating request are well formed: the package
    identifier parses, and so does the booking identifier when one is
    given. *)
Definition well_formed_ids (rating : Rating.doc) : Prop :=
  is_Some (ObjectId_of_str (Rating.tour_package_id rating))
  ∧ (truthy (Rating.booking_id rating) = true →
     is_Some (ObjectId_of_str (default "" (Rating.booking_id rating)))).

(** A completed booking of the package by the tourist, as the eligibility
    query of [create_rating] recognises one. *)
Definition completed_booking_of (package : ObjectId) (tourist_id : string)
    (d : ObjectId * Booking.doc) : Prop :=
  Booking.tour_package_id d.2 = IdOid package
  ∧ Booking.tourist_id d.2 = IdStr tourist_id
  ∧ Booking.status d.2 = COMPLETED.

(** The booking is the one the request names, when it names one. *)
Definition named_by (rating : Rating.doc) (d : ObjectId * Booking.doc)
  : Prop :=
  truthy (Rating.booking_id rating) = true →
  ObjectId_of_str (default "" (Rating.booking_id rating)) = Some d.1.

(** The query [create_rating] sends for a well-formed request. *)
Definition eligibility_query (rating : Rating.doc)
  : ObjectId * Booking.doc → bool :=
  booking_query
    (default 0%N (ObjectId_of_str (Rating.tour_package_id rating)))
    (Rating.tourist_id rating)
    (if truthy (Rating.booking_id rating)
     then ObjectId_of_str (default "" (Rating.booking_id rating))
     else None).

(** A stored rating of the package by the tourist, as the duplicate check
    of [create_rating] recognises one. *)
Definition rating_by (package_id tourist_id : string)
    (d : ObjectId * Rating.doc) : Prop :=
  Rating.tour_package_id d.2 = package_id ∧ Rating.tourist_id d.2 = tourist_id.

(** Every booking holds its tourist and its package as ObjectIds. *)
Definition foreign_keys_are_ObjectIds (w : World) : Prop :=
  Forall (λ d, ∃ tourist package,
            Booking.tourist_id d.2 = IdOid tourist
            ∧ Booking.tour_package_id d.2 = IdOid package)
    (bookings w).

(** The price column of the ledger. *)
Definition prices (w : World) : list (ObjectId * Q) :=
  (λ d, (d.1, Booking.total_price d.2)) <$> bookings w.

(** ** Example data *)

Module Example.
Definition package_id : string := "64a000000000000000000001".
Definition package_oid : ObjectId := 31141929113272847540431093761%N.
Definition alice : string := "64a0000000000000000000a1".
Definition alice_oid : ObjectId := 31141929113272847540431093921%N.
Definition bob : string := "64a0000000000000000000b0".

Definition package (price : Q) (max_participants current_participants : Z)
  : TourPackage.doc :=
  {| TourPackage.name := "Hunza Valley";
     TourPackage.price := price;
     TourPackage.max_participants := max_participants;
     TourPackage.current_participants := current_participants;
     TourPackage.status := ACTIVE;
     TourPackage.average_rating := 0;
     TourPackage.total_ratings := 0;
     TourPackage.rating_count := None |}.

(** One active package and nothing else. *)
Definition world (p : TourPackage.doc) (tape : list nat) : World :=
  {| tour_packages := {[ package_oid := p ]};
     bookings := []; ratings := [];
     next_oid := 1; rng := tape |}.

Definition book (n : Z) : BookingCreate.t :=
  {| BookingCreate.tour_package_id := package_id;
     BookingCreate.number_of_people := n |}.

(** The identifier the first insertion into [world] receives. *)
Definition first_id : string := "000000000000000000000001".


Definition set_price (v : Q) : TourPackageUpdate.t :=
  {| TourPackageUpdate.name := None; TourPackageUpdate.price := Some v;
     TourPackageUpdate.max_participants := None;
     TourPackageUpdate.current_participants := None;
     TourPackageUpdate.status := None;
     TourPackageUpdate.average_rating := None;
     TourPackageUpdate.total_ratings := None |}.

Definition set_max_participants (v : Z) : TourPackageUpdate.t :=
  {| TourPackageUpdate.name := None; TourPackageUpdate.price := None;
     TourPackageUpdate.max_participants := Some v;
     TourPackageUpdate.current_participants := None;
     TourPackageUpdate.status := None;
     TourPackageUpdate.average_rating := None;
     TourPackageUpdate.total_ratings := None |}.

Definition set_current_participants (v : Z) : TourPackageUpdate.t :=
  {| TourPackageUpdate.name := None; TourPackageUpdate.price := None;
     TourPackageUpdate.max_participants := None;
     TourPackageUpdate.current_participants := Some v;
     TourPackageUpdate.status := None;
     TourPackageUpdate.average_rating := None;
     TourPackageUpdate.total_ratings := None |}.

Definition rate (tourist_id : string) (value : Z) : Rating.doc :=
  {| Rating.tour_package_id := package_id; Rating.tourist_id := tourist_id;
     Rating.rating := value; Rating.review := None;
     Rating.booking_id := None |}.

(** A ledger as a deployment that stores tourist identifiers as strings
    would hold it: a completed booking by [bob], and two earlier ratings of
    the package. *)
Definition rated_world : World :=
  {| tour_packages := {[ package_oid := package 100 10 2 ]};
     bookings :=
       [(1%N, {| Booking.tour_package_id := IdOid package_oid;
                 Booking.tourist_id := IdStr bob;
                 Booking.number_of_people := 2;
                 Booking.total_price := 200;
                 Booking.status := COMPLETED;
                 Booking.booking_reference := "K3X9PLQ2" |})];
     ratings := [(2%N, rate "carol" 1); (3%N, rate "dave" 1)];
     next_oid := 4; rng := [] |}.

(** Sixteen draws of the generator: [TRIP2024], twice. *)
Definition tape : list nat :=
  [19; 17; 8; 15; 28; 26; 28; 30; 19; 17; 8; 15; 28; 26; 28; 30]%nat.

(** A package of 10 slots at 100, nothing booked. *)
Definition fresh : World := world (package 100 10 0) tape.

(** The booking of 4 people that [alice] makes first in [fresh]. *)
Definition first_booking : Booking.doc :=
  new_booking (book 4) alice_oid package_oid (package 100 10 0) "TRIP2024".

Definition booked : World := serve (CreateBooking (book 4) alice) fresh.

(** [rated_world] after [bob] rated the package 2. *)
Definition rated : World := serve (CreateRating (rate bob 2)) rated_world.

(** The first coroutine awaits its read of the package, the second one
    reads the package too, then each runs to its end. *)
Definition oversell_schedule : list bool :=
  [true; false; true; true; true; true; false; false; false; false].
End Example.

(** ** Services that are run without interruption

    The remaining functions are written in state-passing style: a
    computation takes the world and gives back what it returns or raises
    together with the world it leaves.  [run p] and [exec o] are such
    computations, so these functions call the coroutines above as they
    are. *)

Definition M (A : Type) : Type := World → (exn + A) * World.

Definition ret {A} (a : A) : M A := λ w, (inr a, w).

Definition raise {A} (e : exn) : M A := λ w, (inl e, w).

Definition bind {A B} (m : M A) (f : A → M B) : M B :=
  λ w, match m w with
       | (inl e, w') => (inl e, w')
       | (inr a, w') => f a w'
       end.

Notation "x <-- m ;; k" := (bind m (λ x, k))
  (at level 100, m at next level, right associativity,
   format "'[v' x  <--  m  ;;  '/' k ']'").

(** [try: m except Exception as e: handler(e)] *)
Definition try_except {A} (m : M A) (handler : exn → M A) : M A :=
  λ w, match m w with
       | (inl e, w') => handler e w'
       | (inr a, w') => (inr a, w')
       end.

(** [find(query).to_list(None)]: every document the query accepts, in
    natural order. *)
Definition bookings_find (query : ObjectId * Booking.doc → bool)
  : M (list (ObjectId * Booking.doc)) :=
  λ w, (inr (List.filter query (bookings w)), w).

(** [count_documents(query)] *)
Definition bookings_count_documents (query : ObjectId * Booking.doc → bool)
  : M Z :=
  λ w, (inr (Z.of_nat (length (List.filter query (bookings w)))), w).

(** [delete_one({"_id": i})], with its [deleted_count]. *)
Definition tour_packages_delete_one (i : ObjectId) : M Z :=
  λ w, match tour_packages w !! i with
       | None => (inr 0, w)
       | Some _ => (inr 1, with_tour_packages (delete i (tour_packages w)) w)
       end.

Definition HTTP_403_FORBIDDEN : Z := 403.
Definition HTTP_500_INTERNAL_SERVER_ERROR : Z := 500.

(** *** booking_service.py, continued *)

(** [ObjectId(booking_id)] is outside any [try]: [InvalidId] escapes. *)
Definition get_booking (booking_id : string) : M (option BookingInDB.t) :=
  match ObjectId_of_str booking_id with
  | None => raise InvalidId
  | Some booking_object_id =>
      booking <-- exec (bookings_find_one (by_id booking_object_id)) ;;
      match booking with
      | None => raise NotFound_booking
      | Some d => ret (BookingInDB.from_mongo (Some d))
      end
  end.

(** [query = {"tourist_id": tourist_object_id}], with ["status"] when a
    status is given. *)
Definition user_bookings_query (tourist_object_id : ObjectId)
    (status : option BookingStatus) : ObjectId * Booking.doc → bool :=
  λ d,
    bool_decide (Booking.tourist_id d.2 = IdOid tourist_object_id)
    && match status with
       | Some s => bool_decide (Booking.status d.2 = s)
       | None => true
       end.

(** The parameter [status] hides the module [status] of fastapi inside the
    function, so the handler of [InvalidId], which builds its
    [HTTPException] from [status.HTTP_400_BAD_REQUEST], raises
    [AttributeError] instead. *)
Definition list_user_bookings (user_id : string)
    (status : option BookingStatus) : M (list BookingInDB.t) :=
  match ObjectId_of_str user_id with
  | None => raise AttributeError
  | Some tourist_object_id =>
      bookings <-- bookings_find
                     (user_bookings_query tourist_object_id status) ;;
      ret ((λ d, BookingInDB.build d.1 d.2) <$> bookings)
  end.

(** *** tour_package_service.py, continued *)

(** The lookup of the owning company in [get_tour_package] only adds the key
    [company_name], which the model class drops, and swallows its own
    errors; it does not show in the result. *)
Definition get_tour_package (package_id : string)
  : M (string * TourPackage.doc) :=
  match ObjectId_of_str package_id with
  | None => raise InvalidId
  | Some package_object_id =>
      package <-- exec (tour_packages_find_one package_object_id) ;;
      match package with
      | None => raise NotFound_package
      | Some p => ret (ObjectId_str package_object_id, p)
      end
  end.

(** [{"tour_package_id": package_id, "status": {"$in": ["pending",
    "confirmed"]}}]: the package identifier goes into the query as the
    string it is. *)
Definition active_bookings_query (package_id : string)
  : ObjectId * Booking.doc → bool :=
  λ d,
    bool_decide (Booking.tour_package_id d.2 = IdStr package_id)
    && bool_decide (Booking.status d.2 ∈ [PENDING; CONFIRMED]).

Definition delete_tour_package (package_id : string) : M bool :=
  active_bookings <--
    bookings_count_documents (active_bookings_query package_id) ;;
  if 0 <? active_bookings
  then raise (HTTPException HTTP_400_BAD_REQUEST
                "Cannot delete package with active bookings")
  else
    match ObjectId_of_str package_id with
    | None => raise InvalidId
    | Some package_object_id =>
        deleted_count <-- tour_packages_delete_one package_object_id ;;
        if deleted_count =? 0
        then raise NotFound_package
        else ret true
    end.

(** *** routes/bookings.py and routes/ratings.py *)

Inductive UserRole := TOURIST | TRAVEL_COMPANY | ADMIN.

#[global] Instance UserRole_eq_dec : EqDecision UserRole.
Proof. solve_decision. Defined.

(** [UserInDB], as far as the routes read it; [id] is a string already. *)
Module UserInDB.
Record t := {
  id : string;
  role : UserRole;
}.
End UserInDB.

(** [POST /bookings/].  Whatever [create_booking] raises is caught and
    raised again as a 500 whose detail quotes [str(e)]; [str] is what the
    exception classes of the libraries print.  A [None] result would fail
    at [result.id] inside the same [try]. *)
Definition create_new_booking (str : exn → string)
    (booking : BookingCreate.t) (current_user : UserInDB.t)
  : M BookingInDB.t :=
  if negb (bool_decide (UserInDB.role current_user = TOURIST))
  then raise (HTTPException HTTP_403_FORBIDDEN
                "Only tourists can create bookings")
  else
    try_except
      (result <-- run (create_booking booking (UserInDB.id current_user)) ;;
       match result with
       | Some r => ret r
       | None =>
           raise (HTTPException HTTP_500_INTERNAL_SERVER_ERROR
                    ("Failed to create booking: "
                     +:+ "'NoneType' object has no attribute 'id'"))
       end)
      (λ e, raise (HTTPException HTTP_500_INTERNAL_SERVER_ERROR
                     ("Failed to create booking: " +:+ str e))).

(** The authorization block of [PUT /bookings/{booking_id}/status].
    [travel_company_id] gives, for the [id] of a package as
    [get_tour_package] returns it, the [travel_company_id] of that package:
    a field the package documents of this model do not carry. *)
Definition authorize_status_update
    (travel_company_id : string → option string)
    (booking : BookingInDB.t) (new_status : BookingStatus)
    (current_user : UserInDB.t) : M unit :=
  match UserInDB.role current_user with
  | TOURIST =>
      if negb (bool_decide (BookingInDB.tourist_id booking
                            = UserInDB.id current_user))
         || negb (bool_decide (new_status = CANCELLED))
      then raise (HTTPException HTTP_403_FORBIDDEN
                    "Not authorized to perform this action")
      else ret tt
  | TRAVEL_COMPANY =>
      package <-- get_tour_package (BookingInDB.tour_package_id booking) ;;
      if negb (bool_decide (travel_company_id package.1
                            = Some (UserInDB.id current_user)))
      then raise (HTTPException HTTP_403_FORBIDDEN
                    "Not authorized to modify this booking")
      else if negb (bool_decide
                      (new_status ∈ [CONFIRMED; CANCELLED; COMPLETED]))
      then raise (HTTPException HTTP_403_FORBIDDEN
                    "Travel companies can only confirm, complete, or cancel bookings")
      else ret tt
  | ADMIN => ret tt
  end.

Definition update_booking_status_endpoint
    (travel_company_id : string → option string)
    (booking_id : string) (new_status : BookingStatus)
    (current_user : UserInDB.t) : M (option BookingInDB.t) :=
  found <-- get_booking booking_id ;;
  match found with
  | None => raise NotFound_booking
  | Some booking =>
      _ <-- authorize_status_update travel_company_id booking new_status
              current_user ;;
      run (update_booking_status booking_id new_status)
  end.

(** [POST /ratings/] *)
Definition create_new_rating (rating : Rating.doc) (current_user : UserInDB.t)
  : M (option (string * Rating.doc)) :=
  if negb (bool_decide (UserInDB.role current_user = TOURIST))
  then raise (HTTPException HTTP_403_FORBIDDEN
                "Only tourists can create ratings")
  else if negb (bool_decide (Rating.tourist_id rating
                             = UserInDB.id current_user))
  then raise (HTTPException HTTP_403_FORBIDDEN
                "You can only create ratings for yourself")
  else run (create_rating rating).

(** *** fix_backend_issues.py *)

Definition set_current_participants (v : Z) (p : TourPackage.doc)
  : TourPackage.doc :=
  {| TourPackage.name := TourPackage.name p;
     TourPackage.price := TourPackage.price p;
     TourPackage.max_participants := TourPackage.max_participants p;
     TourPackage.current_participants := v;
     TourPackage.status := TourPackage.status p;
     TourPackage.average_rating := TourPackage.average_rating p;
     TourPackage.total_ratings := TourPackage.total_ratings p;
     TourPackage.rating_count := TourPackage.rating_count p |}.

(** The pipeline [$match {tour_package_id: package["_id"], status: {$in:
    ["confirmed", "pending"]}}] then [$group] with [$sum] of
    [number_of_people]; no row counts as 0. *)
Definition actual_participants (i : ObjectId)
    (c : list (ObjectId * Booking.doc)) : Z :=
  foldr (λ d acc, Booking.number_of_people d.2 + acc) 0
    (List.filter
       (λ d, bool_decide (Booking.tour_package_id d.2 = IdOid i)
             && bool_decide (Booking.status d.2 ∈ [CONFIRMED; PENDING]))
       c).

(** [validate_data_integrity].  Its first loop, over the bookings, only
    reads and logs.  The second loop visits every package of the snapshot
    once and rewrites the counter of the ones whose count differs; each
    update is on the package's own [_id], so the loop is a map over the
    collection.  The function ends on [await client.close()]: the method
    closes the client and returns [None], which cannot be awaited, so once
    the writes are done the call raises [TypeError].  The script opens the
    database [tourist_app] of the local server; the world is that
    database. *)
Definition validate_data_integrity : M unit :=
  λ w,
    (inl TypeError,
     with_tour_packages
       (map_imap
          (λ i p,
             let actual_count := actual_participants i (bookings w) in
             let current_count := TourPackage.current_participants p in
             Some (if bool_decide (actual_count ≠ current_count)
                   then set_current_participants actual_count p
                   else p))
          (tour_packages w)) w).

(** ** More vocabulary *)

(** The rating values lie between 1 and 5. *)
Definition ratings_in_range (w : World) : Prop :=
  Forall (λ d, 1 ≤ Rating.rating d.2 ≤ 5) (ratings w).

(** No tourist has two ratings stored under the same package identifier. *)
Definition one_rating_each (w : World) : Prop :=
  NoDup ((λ d, (Rating.tour_package_id d.2, Rating.tourist_id d.2))
           <$> ratings w).

(** An ObjectId fits its 12 bytes. *)
Definition twelve_bytes (o : ObjectId) : Prop := (o < 2 ^ 96)%N.

(** The characters [bytes.fromhex] passes over between two pairs of digits:
    tab, line feed, vertical tab, form feed, carriage return and space. *)
Definition ascii_whitespace (c : ascii) : bool :=
  bool_decide (N_of_ascii c ∈ [9; 10; 11; 12; 13; 32]%N).

(** The string holds a character that [bytes.fromhex] neither reads as a
    digit nor passes over. *)
Fixpoint has_stray_character (s : string) : bool :=
  match s with
  | EmptyString => false
  | String c s' =>
      (bool_decide (hex_value c = None) && negb (ascii_whitespace c))
      || has_stray_character s'
  end.

(** Strings that [ObjectId(s)] refuses with [InvalidId] wherever they hold
    blanks: the ones that are not 24 characters long, and the ones
    [bytes.fromhex] fails on at a character that is neither digit nor
    blank. *)
Definition not_an_ObjectId (s : string) : Prop :=
  String.length s ≠ 24%nat ∨ has_stray_character s = true.

(** An integer the driver can encode: BSON has 8 bytes for it. *)
Definition int64 (z : Z) : Prop := - 2 ^ 63 ≤ z < 2 ^ 63.

(** What a request may do to a stored booking: nothing, or move its status
    along the transition table. *)
Inductive advances : Booking.doc → Booking.doc → Prop :=
| advances_refl b : advances b b
| advances_step b s b' :
    s ∈ valid_transitions (Booking.status b) →
    advances (Booking.set_status s b) b' →
    advances b b'.

(** ** More example data *)

Module Sample.
Definition tourist (id : string) : UserInDB.t :=
  {| UserInDB.id := id; UserInDB.role := TOURIST |}.
Definition company (id : string) : UserInDB.t :=
  {| UserInDB.id := id; UserInDB.role := TRAVEL_COMPANY |}.
Definition admin (id : string) : UserInDB.t :=
  {| UserInDB.id := id; UserInDB.role := ADMIN |}.

(** Starlette's rendering of an [HTTPException]. *)
Definition str (e : exn) : string :=
  match e with
  | HTTPException status_code detail => pretty status_code +:+ ": " +:+ detail
  | InvalidId => "InvalidId"
  | DuplicateKeyError => "DuplicateKeyError"
  | AttributeError => "AttributeError"
  | TypeError => "TypeError"
  end.

Definition owner : string := "64a0000000000000000000c0".

(** [Example.package_id] with its letter in upper case: the same
    ObjectId, another string. *)
Definition package_id_upper : string := "64A000000000000000000001".

(** A rating of the package under that spelling. *)
Definition rate_upper (tourist_id : string) (value : Z) : Rating.doc :=
  {| Rating.tour_package_id := package_id_upper;
     Rating.tourist_id := tourist_id;
     Rating.rating := value; Rating.review := None;
     Rating.booking_id := None |}.

(** A rating of the package that names a booking. *)
Definition rate_naming (booking_id tourist_id : string) (value : Z)
  : Rating.doc :=
  {| Rating.tour_package_id := Example.package_id;
     Rating.tourist_id := tourist_id;
     Rating.rating := value; Rating.review := None;
     Rating.booking_id := Some booking_id |}.

(** A rating under an identifier that is no ObjectId. *)
Definition rate_malformed (tourist_id : string) (value : Z) : Rating.doc :=
  {| Rating.tour_package_id := "abc"; Rating.tourist_id := tourist_id;
     Rating.rating := value; Rating.review := None;
     Rating.booking_id := None |}.

(** 24 characters, the last of them no hexadecimal digit. *)
Definition not_hexadecimal : string := "64a00000000000000000000g".
Definition owned_by (company_id : string) : string → option string :=
  λ _, Some company_id.

Definition set_status (s : PackageStatus) : TourPackageUpdate.t :=
  {| TourPackageUpdate.name := None; TourPackageUpdate.price := None;
     TourPackageUpdate.max_participants := None;
     TourPackageUpdate.current_participants := None;
     TourPackageUpdate.status := Some s;
     TourPackageUpdate.average_rating := None;
     TourPackageUpdate.total_ratings := None |}.
(** [Example.booked] with the first booking cancelled. *)
Definition cancelled : World :=
  serve (UpdateBookingStatus Example.first_id CANCELLED) Example.booked.

(** [Example.booked] after the package was deleted. *)
Definition deleted : World :=
  (delete_tour_package Example.package_id Example.booked).2.

(** A ledger whose booking holds the package identifier as a string. *)
Definition legacy : World :=
  {| tour_packages := {[ Example.package_oid := Example.package 100 10 2 ]};
     bookings :=
       [(1%N, {| Booking.tour_package_id := IdStr Example.package_id;
                 Booking.tourist_id := IdStr Example.bob;
                 Booking.number_of_people := 2;
                 Booking.total_price := 200;
                 Booking.status := PENDING;
                 Booking.booking_reference := "K3X9PLQ2" |})];
     ratings := []; next_oid := 2; rng := [] |}.

(** A package whose counter has drifted from its bookings. *)
Definition drifted : World :=
  {| tour_packages := {[ Example.package_oid := Example.package 100 10 9 ]};
     bookings := bookings Example.booked;
     ratings := []; next_oid := 2; rng := [] |}.

Definition missing_id : string := "000000000000000000000063".
End Sample.

(** * Properties *)

(** ** Collections *)

Section collections.
Context {D : Type}.
Implicit Types (c : list (ObjectId * D)) (d : ObjectId * D) (f : D → D).

Lemma find_one_by_id_fst i c d : find_one (by_id i) c = Some d → d.1 = i.
Proof.
  unfold find_one. intros H. apply find_some in H as [_ H].
  unfold by_id in H. by apply bool_decide_eq_true in H.
Qed.

Lemma find_one_elem_of (q : ObjectId * D → bool) c d :
  find_one q c = Some d → d ∈ c ∧ q d = true.
Proof.
  unfold find_one. intros H. apply find_some in H as [H1 H2].
  split; [by apply list_elem_of_In | done].
Qed.

Lemma find_one_None (q : ObjectId * D → bool) c :
  find_one q c = None ↔ ∀ d, d ∈ c → q d = false.
Proof.
  unfold find_one. split.
  - intros H d Hd. apply list_elem_of_In in Hd. by eapply find_none in H.
  - intros H. induction c as [|d c IH]; [done|]. cbn [List.find].
    rewrite (H d) by left. apply IH. intros d' Hd'. apply H. by right.
Qed.

Lemma find_one_app (q : ObjectId * D → bool) c1 c2 :
  find_one q (c1 ++ c2)
  = match find_one q c1 with Some d => Some d | None => find_one q c2 end.
Proof.
  unfold find_one. induction c1 as [|d c1 IH]; [done|].
  cbn [app List.find]. by destruct (q d).
Qed.

(** Reading a document back after an update: the document with [_id = j]
    is the updated one exactly when the update addressed [j]. *)
Lemma find_one_update_one i j f c :
  find_one (by_id j) (update_one (by_id i) f c)
  = (λ d, (d.1, if bool_decide (i = j) then f d.2 else d.2))
      <$> find_one (by_id j) c.
Proof.
  unfold find_one, by_id.
  induction c as [|[k x] c IH]; [done|].
  cbn [update_one List.find fst snd].
  repeat (case_bool_decide;
          cbn [List.find fst snd fmap option_fmap option_map]);
    subst; try congruence; by destruct (find _ c) as [[]|].
Qed.

Lemma find_one_insert_one i (x : D) c c' :
  insert_one i x c = Some c' →
  c' = c ++ [(i, x)] ∧ find_one (by_id i) c = None
  ∧ find_one (by_id i) c' = Some (i, x).
Proof.
  unfold insert_one. destruct (find_one (by_id i) c) eqn:E; [done|].
  intros [= <-]. split_and!; [done..|].
  rewrite find_one_app, E. unfold find_one, by_id. cbn.
  by rewrite bool_decide_eq_true_2.
Qed.

Lemma update_one_length (q : ObjectId * D → bool) f c :
  length (update_one q f c) = length c.
Proof.
  induction c as [|d c IH]; [done|]. cbn [update_one].
  destruct (q d); cbn [length]; congruence.
Qed.
End collections.

(** ** Sequential semantics of the services *)

Lemma run_bind {A B} (p : prog A) (f : A → prog B) w :
  run (prog_bind p f) w
  = match run p w with
    | (inl e, w') => (inl e, w')
    | (inr a, w') => run (f a) w'
    end.
Proof.
  revert w. induction p as [a|e|X o k IH]; intros w;
    cbn [prog_bind run]; [done..|].
  destruct (exec o w) as [[e|x] w']; [done|]. apply IH.
Qed.

(** A coroutine that is given every turn runs as [run] says. *)
Lemma interleave_alone {A B} (p : prog A) (q : prog B) w schedule :
  Forall (λ b, b = true) schedule →
  let '(p', q', w') := interleave schedule p q w in
  q' = q ∧ run p' w' = run p w.
Proof.
  intros Hs. revert p w. induction Hs as [|b s -> _ IH]; intros p w; [done|].
  cbn [interleave]. destruct (step p w) as [p1 w1] eqn:Hstep.
  specialize (IH p1 w1). destruct (interleave s p1 q w1) as [[p' q'] w'].
  destruct IH as [-> ->]. split; [done|].
  destruct p as [a|e|X o k]; cbn [step run] in *; try by inversion Hstep.
  destruct (exec o w) as [[e|x] w2]; by inversion Hstep.
Qed.

Lemma run_create_booking booking tourist_id w :
  run (create_booking booking tourist_id) w
  = match ObjectId_of_str tourist_id,
          ObjectId_of_str (BookingCreate.tour_package_id booking) with
    | Some t, Some i =>
        match tour_packages w !! i with
        | None => (inl NotFound_package, w)
        | Some p =>
            if bool_decide (TourPackage.status p = ACTIVE) then
              let available :=
                TourPackage.max_participants p
                - TourPackage.current_participants p in
              let n := BookingCreate.number_of_people booking in
              if available <? n then (inl (InsufficientCapacity available), w)
              else
                let reference :=
                  random_choices (ascii_uppercase +:+ digits) 8 (rng w) in
                let b := new_booking booking t i p reference.1 in
                match insert_one (next_oid w) b (bookings w) with
                | None =>
                    (inl DuplicateKeyError,
                     {| tour_packages := tour_packages w;
                        bookings := bookings w; ratings := ratings w;
                        next_oid := next_oid w + 1; rng := reference.2 |})
                | Some c =>
                    (inr (Some (BookingInDB.build (next_oid w) b)),
                     {| tour_packages :=
                          alter (TourPackage.inc_current_participants n) i
                            (tour_packages w);
                        bookings := c; ratings := ratings w;
                        next_oid := next_oid w + 1; rng := reference.2 |})
                end
            else (inl PackageInactive, w)
        end
    | _, _ => (inl (HTTPException HTTP_400_BAD_REQUEST
                      "Invalid identifier provided"), w)
    end.
Proof.
  unfold create_booking.
  destruct (ObjectId_of_str tourist_id) as [t|]; [|done].
  destruct (ObjectId_of_str _) as [i|]; [|done].
  cbn [run exec]. destruct (tour_packages w !! i) as [p|]; [|done].
  case_bool_decide; cbn [negb run]; [|done].
  destruct (_ <? _); [done|]. cbn [run exec].
  destruct (random_choices _ 8 (rng w)) as [reference tape].
  cbn [run exec fst snd bookings with_rng with_next_oid next_oid].
  fold (new_booking booking t i p reference).
  destruct (insert_one _ _ _) as [c|] eqn:Hins; [|done].
  apply find_one_insert_one in Hins as (_ & _ & Hfind).
  cbn [run exec with_bookings bookings]. by rewrite Hfind.
Qed.

Lemma valid_transitions_irrefl s : s ∉ valid_transitions s.
Proof.
  intros H. destruct s; cbn in H;
    repeat (apply elem_of_cons in H as [H|H]; [done|]);
    by apply elem_of_nil in H.
Qed.

Lemma run_update_booking_status booking_id new_status w :
  run (update_booking_status booking_id new_status) w
  = match ObjectId_of_str booking_id with
    | None => (inl (HTTPException HTTP_400_BAD_REQUEST
                      "Invalid booking identifier"), w)
    | Some i =>
        match find_one (by_id i) (bookings w) with
        | None => (inl NotFound_booking, w)
        | Some (_, b) =>
            if bool_decide (new_status ∈ valid_transitions (Booking.status b))
            then
              let w1 :=
                with_bookings
                  (update_one (by_id i) (Booking.set_status new_status)
                     (bookings w)) w in
              let result :=
                Some (BookingInDB.build i (Booking.set_status new_status b)) in
              if bool_decide (new_status = CANCELLED) then
                match package_of b with
                | None => (inl InvalidId, w1)
                | Some p =>
                    (inr result,
                     with_tour_packages
                       (alter
                          (TourPackage.inc_current_participants
                             (- Booking.number_of_people b))
                          p (tour_packages w)) w1)
                end
              else (inr result, w1)
            else (inl (InvalidTransition (Booking.status b) new_status), w)
        end
    end.
Proof.
  unfold update_booking_status.
  destruct (ObjectId_of_str booking_id) as [i|]; [|done].
  cbn [run exec].
  destruct (find_one (by_id i) (bookings w)) as [[i' b]|] eqn:Hf; [|done].
  assert (i' = i) as -> by apply (find_one_by_id_fst _ _ _ Hf).
  case_bool_decide as Hv; cbn [negb run exec]; [|done].
  rewrite Hf. rewrite bool_decide_eq_false_2; last first.
  { intros <-. by apply valid_transitions_irrefl in Hv. }
  cbn [Z.eqb]. rewrite run_bind. unfold release_slots.
  assert (Hfind : find_one (by_id i)
                    (update_one (by_id i) (Booking.set_status new_status)
                       (bookings w))
                  = Some (i, Booking.set_status new_status b)).
  { rewrite find_one_update_one, Hf. cbn. by rewrite bool_decide_eq_true_2. }
  case_bool_decide.
  - destruct (package_of b) as [p|]; [|done].
    cbn [run exec with_tour_packages with_bookings bookings].
    by rewrite Hfind.
  - cbn [run exec with_tour_packages with_bookings bookings]. by rewrite Hfind.
Qed.

Lemma run_update_tour_package package_id u w :
  run (update_tour_package package_id u) w
  = if TourPackageUpdate.is_empty u
    then (inl (HTTPException HTTP_400_BAD_REQUEST
                 "No data provided for update"), w)
    else
      match ObjectId_of_str package_id with
      | None => (inl InvalidId, w)
      | Some i =>
          let not_modified :=
            (inl (HTTPException HTTP_404_NOT_FOUND
                    "Tour package not found or no changes made"), w) in
          match tour_packages w !! i with
          | None => not_modified
          | Some p =>
              let p' := TourPackageUpdate.apply u p in
              if TourPackage.eqb p p' then not_modified
              else (inr (Some (ObjectId_str i, p')),
                    with_tour_packages (<[i := p']> (tour_packages w)) w)
          end
      end.
Proof.
  unfold update_tour_package. destruct (TourPackageUpdate.is_empty u); [done|].
  destruct (ObjectId_of_str package_id) as [i|]; [|done].
  cbn [run exec]. destruct (tour_packages w !! i) as [p|]; [|done].
  destruct (TourPackage.eqb _ _); [done|].
  cbn [run exec Z.eqb with_tour_packages tour_packages].
  by rewrite lookup_insert_eq.
Qed.

Lemma run_update_package_rating package_id w :
  run (update_package_rating package_id) w
  = match ObjectId_of_str package_id with
    | None => (inr tt, w)
    | Some i =>
        let r := package_rating package_id (ratings w) in
        (inr tt,
         with_tour_packages
           (alter (TourPackage.set_rating r.1 r.2) i (tour_packages w)) w)
    end.
Proof.
  unfold update_package_rating, package_rating.
  destruct (ObjectId_of_str package_id) as [i|]; [|done].
  cbn [run exec]. by destruct (aggregate_ratings _ _) as [[a c]|].
Qed.

Lemma run_create_rating_with rating query w :
  run (create_rating_with rating query) w
  = match find_one query (bookings w) with
    | None => (inl NotEligible, w)
    | Some (booking_oid, _) =>
        match find_one
                (rating_query (Rating.tour_package_id rating)
                   (Rating.tourist_id rating)) (ratings w) with
        | Some _ => (inl DuplicateRating, w)
        | None =>
            if (1 <=? Rating.rating rating) && (Rating.rating rating <=? 5)
            then
              let d := rating_payload rating booking_oid in
              match insert_one (next_oid w) d (ratings w) with
              | None =>
                  (inl DuplicateKeyError, with_next_oid (next_oid w + 1) w)
              | Some c =>
                  let r := package_rating (Rating.tour_package_id rating) c in
                  (inr (Some (ObjectId_str (next_oid w), d)),
                   {| tour_packages :=
                        match ObjectId_of_str (Rating.tour_package_id rating)
                        with
                        | Some i =>
                            alter (TourPackage.set_rating r.1 r.2) i
                              (tour_packages w)
                        | None => tour_packages w
                        end;
                      bookings := bookings w; ratings := c;
                      next_oid := next_oid w + 1; rng := rng w |})
              end
            else (inl (HTTPException HTTP_400_BAD_REQUEST
                         "Rating must be between 1 and 5"), w)
        end
    end.
Proof.
  unfold create_rating_with. cbn [run exec].
  destruct (find_one query (bookings w)) as [[booking_oid b]|]; [|done].
  cbn [run exec]. destruct (find_one (rating_query _ _) _); [done|].
  destruct (_ && _); cbn [negb run exec]; [|done].
  fold (rating_payload rating booking_oid).
  destruct (insert_one _ _ _) as [c|] eqn:Hins; [|done].
  apply find_one_insert_one in Hins as (_ & _ & Hfind).
  cbn [run exec with_ratings with_next_oid ratings]. rewrite Hfind.
  rewrite run_bind, run_update_package_rating.
  destruct (ObjectId_of_str _); reflexivity.
Qed.

(** For a request with well-formed identifiers, [create_rating] is
    [create_rating_with] on [eligibility_query]. *)
Lemma create_rating_well_formed rating :
  well_formed_ids rating →
  create_rating rating = create_rating_with rating (eligibility_query rating).
Proof.
  intros [[p Hp] Hb]. unfold create_rating, eligibility_query. rewrite Hp.
  destruct (truthy _); [|done].
  destruct Hb as [i ->]; done.
Qed.

(** ** Shape of a successful request *)

Lemma create_booking_succeeded booking tourist_id w r w' :
  run (create_booking booking tourist_id) w = (inr r, w') →
  ∃ t i p,
    ObjectId_of_str tourist_id = Some t
    ∧ ObjectId_of_str (BookingCreate.tour_package_id booking) = Some i
    ∧ tour_packages w !! i = Some p
    ∧ TourPackage.status p = ACTIVE
    ∧ BookingCreate.number_of_people booking
      ≤ TourPackage.max_participants p - TourPackage.current_participants p
    ∧ let b := new_booking booking t i p
                 (random_choices (ascii_uppercase +:+ digits) 8 (rng w)).1 in
      r = Some (BookingInDB.build (next_oid w) b)
      ∧ bookings w' = bookings w ++ [(next_oid w, b)]
      ∧ tour_packages w'
        = alter (TourPackage.inc_current_participants
                   (BookingCreate.number_of_people booking)) i
            (tour_packages w).
Proof.
  rewrite run_create_booking.
  destruct (ObjectId_of_str tourist_id) as [t|]; [|done].
  destruct (ObjectId_of_str _) as [i|]; [|done].
  destruct (tour_packages w !! i) as [p|] eqn:Hp; [|done].
  case_bool_decide; [|done]. cbn zeta.
  destruct (_ <? _) eqn:Hlt; [done|]. apply Z.ltb_ge in Hlt.
  destruct (insert_one _ _ _) as [c|] eqn:Hins; [|done].
  apply find_one_insert_one in Hins as (-> & _ & _).
  intros H'. injection H' as <- <-. by eexists t, i, p.
Qed.

Lemma create_rating_bookings rating w :
  bookings (run (create_rating rating) w).2 = bookings w.
Proof.
  assert (H : ∀ q, bookings (run (create_rating_with rating q) w).2 = bookings w).
  { intros q. rewrite run_create_rating_with.
    destruct (find_one q _) as [[]|]; [|done].
    destruct (find_one _ (ratings w)); [done|].
    destruct (_ && _); [|done]. cbn zeta.
    by destruct (insert_one _ _ _). }
  unfold create_rating. destruct (ObjectId_of_str _); [|done].
  destruct (truthy _); [|done]. by destruct (ObjectId_of_str _).
Qed.

Lemma sum_ratings_values rs :
  sum_ratings rs = foldr Z.add 0 ((λ d, Rating.rating d.2) <$> rs).
Proof. induction rs as [|r rs IH]; [done|]. cbn. by rewrite <- IH. Qed.

Lemma package_rating_mean package_id c :
  rating_values package_id c ≠ [] →
  package_rating package_id c
  = (round1 (mean (rating_values package_id c)),
     Z.of_nat (length (rating_values package_id c))).
Proof.
  unfold package_rating, aggregate_ratings, rating_values, mean.
  destruct (List.filter _ c) as [|r rs] eqn:E; [done|]. intros _.
  by rewrite sum_ratings_values, length_fmap.
Qed.

Lemma create_rating_succeeded rating w r w' :
  run (create_rating rating) w = (inr r, w') →
  ∃ i booking_oid,
    ObjectId_of_str (Rating.tour_package_id rating) = Some i
    ∧ 1 ≤ Rating.rating rating ≤ 5
    ∧ let d := rating_payload rating booking_oid in
      let stored := package_rating (Rating.tour_package_id rating) (ratings w') in
      r = Some (ObjectId_str (next_oid w), d)
      ∧ ratings w' = ratings w ++ [(next_oid w, d)]
      ∧ bookings w' = bookings w
      ∧ tour_packages w'
        = alter (TourPackage.set_rating stored.1 stored.2) i (tour_packages w).
Proof.
  assert (H : ∀ q i, ObjectId_of_str (Rating.tour_package_id rating) = Some i →
    run (create_rating_with rating q) w = (inr r, w') →
    ∃ booking_oid,
      1 ≤ Rating.rating rating ≤ 5
      ∧ let d := rating_payload rating booking_oid in
      let stored := package_rating (Rating.tour_package_id rating) (ratings w') in
      r = Some (ObjectId_str (next_oid w), d)
      ∧ ratings w' = ratings w ++ [(next_oid w, d)]
      ∧ bookings w' = bookings w
      ∧ tour_packages w'
        = alter (TourPackage.set_rating stored.1 stored.2) i (tour_packages w)).
  { intros q i Hi. rewrite run_create_rating_with, Hi.
    destruct (find_one q _) as [[booking_oid b]|]; [|done].
    destruct (find_one _ (ratings w)); [done|].
    destruct (_ && _) eqn:Hr; [|done]. cbn zeta.
    destruct (insert_one _ _ _) as [c|] eqn:Hins; [|done].
    apply find_one_insert_one in Hins as (-> & _ & _).
    intros H'. injection H' as <- <-. exists booking_oid. split; [lia|done]. }
  unfold create_rating.
  destruct (ObjectId_of_str (Rating.tour_package_id rating)) as [i|] eqn:Hi; [|done].
  destruct (truthy _).
  - destruct (ObjectId_of_str (default "" _)); [|done].
    intros Hrun. destruct (H _ i eq_refl Hrun) as (oid & ?). by exists i, oid.
  - intros Hrun. destruct (H _ i eq_refl Hrun) as (oid & ?). by exists i, oid.
Qed.

(** ** Status transitions *)

Lemma valid_transitions_table current_status new_status :
  new_status ∈ valid_transitions current_status
  ↔ (current_status, new_status) ∈ transition_table.
Proof.
  unfold transition_table.
  destruct current_status, new_status; cbn; split; intros H;
    repeat (apply elem_of_cons in H as [H|H]; [try discriminate H|]);
    try (by apply elem_of_nil in H); set_solver.
Qed.

(** C3.  For a stored booking (whose package reference is an identifier in
    good form, as every booking written by [create_booking] is) and every
    requested status:
    - when the pair (current, requested) is in the transition table, the
      call succeeds and the stored status becomes the requested one;
    - when it is not, the call fails with [InvalidTransition], whose detail
      names the current and the requested status, and changes nothing;
    - so the call succeeds exactly when the pair is in the table;
    - [cancelled] and [completed] have no outgoing pair. *)
Theorem update_booking_status_follows_table w booking_id i d new_status :
  ObjectId_of_str booking_id = Some i →
  find_one (by_id i) (bookings w) = Some d →
  is_Some (package_of d.2) →
  let current_status := Booking.status d.2 in
  let outcome := run (update_booking_status booking_id new_status) w in
  let updated := Booking.set_status new_status d.2 in
  ((current_status, new_status) ∈ transition_table →
     outcome.1 = inr (Some (BookingInDB.build i updated))
     ∧ find_one (by_id i) (bookings outcome.2) = Some (i, updated))
  ∧ ((current_status, new_status) ∉ transition_table →
     outcome = (inl (InvalidTransition current_status new_status), w))
  ∧ (succeeded outcome.1 = true
     ↔ (current_status, new_status) ∈ transition_table)
  ∧ (current_status = CANCELLED ∨ current_status = COMPLETED →
     (current_status, new_status) ∉ transition_table).
Proof.
  intros Hid Hf [p Hp] current_status outcome updated. subst updated.
  assert (Hd : d.1 = i) by apply (find_one_by_id_fst _ _ _ Hf).
  destruct d as [i' b]. cbn [fst snd] in *. subst i'.
  assert (Hfind : find_one (by_id i)
                    (update_one (by_id i) (Booking.set_status new_status)
                       (bookings w))
                  = Some (i, Booking.set_status new_status b)).
  { rewrite find_one_update_one, Hf. cbn. by rewrite bool_decide_eq_true_2. }
  assert (Hyes : (current_status, new_status) ∈ transition_table →
     outcome.1 = inr (Some (BookingInDB.build i (Booking.set_status new_status b)))
     ∧ find_one (by_id i) (bookings outcome.2) = Some (i, Booking.set_status new_status b)).
  { intros Hin%valid_transitions_table. subst outcome.
    rewrite run_update_booking_status, Hid, Hf.
    rewrite bool_decide_eq_true_2 by done. cbn zeta. rewrite Hp.
    by case_bool_decide. }
  assert (Hno : (current_status, new_status) ∉ transition_table →
     outcome = (inl (InvalidTransition current_status new_status), w)).
  { intros Hin. subst outcome. rewrite run_update_booking_status, Hid, Hf.
    rewrite bool_decide_eq_false_2; [done|]. by rewrite valid_transitions_table. }
  split_and!; [done..| |].
  - destruct (decide ((current_status, new_status) ∈ transition_table)) as [Hin|Hin].
    + destruct (Hyes Hin) as [-> _]. done.
    + rewrite (Hno Hin). done.
  - unfold transition_table. intros [E | E] H; rewrite E in H;
      repeat (apply elem_of_cons in H as [H|H]; [discriminate H|]);
      by apply elem_of_nil in H.
Qed.

Lemma update_booking_status_follows_table_witness :
  find_one (by_id 1%N) (bookings Example.booked) = Some (1%N, Example.first_booking)
  ∧ (run (update_booking_status Example.first_id CONFIRMED) Example.booked).1
    = inr (Some (BookingInDB.build 1%N
                   (Booking.set_status CONFIRMED Example.first_booking)))
  ∧ run (update_booking_status Example.first_id COMPLETED) Example.booked
    = (inl (InvalidTransition PENDING COMPLETED), Example.booked).
Proof.
  assert (H1 : ObjectId_of_str Example.first_id = Some 1%N)
    by (vm_compute; reflexivity).
  assert (H2 : find_one (by_id 1%N) (bookings Example.booked)
               = Some (1%N, Example.first_booking)) by (vm_compute; reflexivity).
  assert (H3 : is_Some (package_of (1%N, Example.first_booking).2))
    by (eexists; reflexivity).
  pose proof (update_booking_status_follows_table Example.booked Example.first_id
                1%N (1%N, Example.first_booking) CONFIRMED H1 H2 H3) as (Hyes & _).
  pose proof (update_booking_status_follows_table Example.booked Example.first_id
                1%N (1%N, Example.first_booking) COMPLETED H1 H2 H3) as (_ & Hno & _).
  split_and!; [exact H2| |].
  - apply Hyes. left.
  - apply Hno. unfold transition_table. cbn.
    intros H. repeat (apply elem_of_cons in H as [H|H]; [discriminate H|]).
    by apply elem_of_nil in H.
Defined.

(** ** Capacity released by a cancellation *)

Lemma lookup_inc_current_participants (m : gmap ObjectId TourPackage.doc) i j n :
  alter (TourPackage.inc_current_participants n) i m !! j
  = (if bool_decide (i = j) then TourPackage.inc_current_participants n else id)
      <$> m !! j.
Proof.
  case_bool_decide as E.
  - subst. by rewrite lookup_alter_eq.
  - rewrite lookup_alter_ne by done. by destruct (m !! j).
Qed.

Lemma update_booking_status_keeps_packages w booking_id new_status :
  new_status ≠ CANCELLED →
  tour_packages (run (update_booking_status booking_id new_status) w).2
  = tour_packages w.
Proof.
  intros Hnew. rewrite run_update_booking_status.
  destruct (ObjectId_of_str booking_id); [|done].
  destruct (find_one _ _) as [[]|]; [|done].
  cbn zeta. rewrite (bool_decide_eq_false_2 (new_status = CANCELLED)) by done.
  by destruct (bool_decide _).
Qed.

(** C4.  Cancelling a [pending] or [confirmed] booking succeeds, lowers the
    [current_participants] of its package by exactly the booking's
    [number_of_people] and leaves every other package as it was; a second
    cancellation fails with [InvalidTransition] and changes nothing; and a
    request for any status other than [cancelled] never changes the package
    collection, whatever the booking and the world. *)
Theorem cancellation_releases_slots w booking_id i d p pkg :
  ObjectId_of_str booking_id = Some i →
  find_one (by_id i) (bookings w) = Some d →
  package_of d.2 = Some p →
  tour_packages w !! p = Some pkg →
  Booking.status d.2 = PENDING ∨ Booking.status d.2 = CONFIRMED →
  let outcome := run (update_booking_status booking_id CANCELLED) w in
  succeeded outcome.1 = true
  ∧ TourPackage.current_participants <$> tour_packages outcome.2 !! p
    = Some (TourPackage.current_participants pkg - Booking.number_of_people d.2)
  ∧ (∀ q, q ≠ p → tour_packages outcome.2 !! q = tour_packages w !! q)
  ∧ run (update_booking_status booking_id CANCELLED) outcome.2
    = (inl (InvalidTransition CANCELLED CANCELLED), outcome.2)
  ∧ ∀ w0 any_id new_status,
      new_status ≠ CANCELLED →
      tour_packages (run (update_booking_status any_id new_status) w0).2
      = tour_packages w0.
Proof.
  intros Hid Hf Hp Hpkg Hst outcome.
  assert (Hd : d.1 = i) by apply (find_one_by_id_fst _ _ _ Hf).
  destruct d as [i' b]. cbn [fst snd] in *. subst i'.
  assert (Hv : CANCELLED ∈ valid_transitions (Booking.status b)).
  { destruct Hst as [-> | ->]; cbn; [by right; left | by right; left]. }
  assert (Hout : outcome
    = (inr (Some (BookingInDB.build i (Booking.set_status CANCELLED b))),
       with_tour_packages
         (alter (TourPackage.inc_current_participants (- Booking.number_of_people b)) p (tour_packages w))
         (with_bookings (update_one (by_id i) (Booking.set_status CANCELLED) (bookings w)) w))).
  { subst outcome. rewrite run_update_booking_status, Hid, Hf.
    rewrite bool_decide_eq_true_2 by done. cbn zeta.
    rewrite bool_decide_eq_true_2 by done. by rewrite Hp. }
  rewrite Hout. cbn [fst snd with_tour_packages tour_packages].
  split_and!.
  - done.
  - rewrite lookup_inc_current_participants, Hpkg, bool_decide_eq_true_2 by done.
    done.
  - intros q Hq. rewrite lookup_inc_current_participants, bool_decide_eq_false_2 by done.
    by destruct (tour_packages w !! q).
  - rewrite run_update_booking_status, Hid.
    cbn [with_tour_packages with_bookings bookings].
    rewrite find_one_update_one, Hf. cbn [fmap option_fmap option_map fst snd].
    rewrite (bool_decide_eq_true_2 (i = i)) by done.
    cbn. rewrite bool_decide_eq_false_2; [done|]. intros H. by apply elem_of_nil in H.
  - intros w0 any_id new_status. apply update_booking_status_keeps_packages.
Qed.

Lemma cancellation_releases_slots_witness :
  let outcome := run (update_booking_status Example.first_id CANCELLED) Example.booked in
  tour_packages Example.booked !! Example.package_oid
  = Some (Example.package 100 10 4)
  ∧ succeeded outcome.1 = true
  ∧ TourPackage.current_participants
      <$> tour_packages outcome.2 !! Example.package_oid
    = Some (4 - 4)
  ∧ run (update_booking_status Example.first_id CANCELLED) outcome.2
    = (inl (InvalidTransition CANCELLED CANCELLED), outcome.2).
Proof.
  intros outcome.
  assert (H1 : ObjectId_of_str Example.first_id = Some 1%N)
    by (vm_compute; reflexivity).
  assert (H2 : find_one (by_id 1%N) (bookings Example.booked)
               = Some (1%N, Example.first_booking)) by (vm_compute; reflexivity).
  assert (H3 : package_of (1%N, Example.first_booking).2 = Some Example.package_oid)
    by reflexivity.
  assert (H4 : tour_packages Example.booked !! Example.package_oid
               = Some (Example.package 100 10 4)) by (vm_compute; reflexivity).
  assert (H5 : Booking.status (1%N, Example.first_booking).2 = PENDING
               ∨ Booking.status (1%N, Example.first_booking).2 = CONFIRMED)
    by (left; reflexivity).
  pose proof (cancellation_releases_slots Example.booked Example.first_id 1%N
                (1%N, Example.first_booking) Example.package_oid
                (Example.package 100 10 4) H1 H2 H3 H4 H5)
    as (Ha & Hb & _ & Hc & _).
  split_and!; [exact H4|exact Ha|exact Hb|exact Hc].
Defined.

Lemma booked_people_cons i d c :
  booked_people i (d :: c)
  = (if holds_slots i d then Booking.number_of_people d.2 else 0)
    + booked_people i c.
Proof.
  unfold booked_people. cbn [List.filter]. by destruct (holds_slots i d).
Qed.

Lemma booked_people_app i c1 c2 :
  booked_people i (c1 ++ c2) = booked_people i c1 + booked_people i c2.
Proof.
  induction c1 as [|d c1 IH]; [done|].
  cbn [app]. rewrite !booked_people_cons, IH. lia.
Qed.

Lemma booked_people_nonneg i c :
  Forall (λ d, 0 ≤ Booking.number_of_people d.2) c → 0 ≤ booked_people i c.
Proof.
  induction 1 as [|d c Hd _ IH]; [done|].
  rewrite booked_people_cons. destruct (holds_slots i d); lia.
Qed.

Lemma booked_people_find_one i j c d :
  Forall (λ d, 0 ≤ Booking.number_of_people d.2) c →
  find_one (by_id j) c = Some d →
  holds_slots i d = true →
  Booking.number_of_people d.2 ≤ booked_people i c.
Proof.
  intros Hc Hf Hh. apply find_one_elem_of in Hf as [Hin _].
  induction Hc as [|d' c Hd' Hc IH]; [by apply elem_of_nil in Hin|].
  rewrite booked_people_cons.
  apply elem_of_cons in Hin as [<-|Hin].
  - rewrite Hh. pose proof (booked_people_nonneg i c Hc). lia.
  - specialize (IH Hin). destruct (holds_slots i d'); lia.
Qed.

(** C5, as amended.  A successful cancellation lowers [current_participants]
    by exactly [number_of_people], with no floor: the result is non-negative
    exactly when the counter was at least [number_of_people] before, which
    is the case whenever the counters account for the bookings. *)
Theorem cancellation_decrements_without_floor w booking_id i d p pkg :
  ObjectId_of_str booking_id = Some i →
  find_one (by_id i) (bookings w) = Some d →
  package_of d.2 = Some p →
  tour_packages w !! p = Some pkg →
  succeeded (run (update_booking_status booking_id CANCELLED) w).1 = true →
  ∃ pkg',
    tour_packages (run (update_booking_status booking_id CANCELLED) w).2 !! p
    = Some pkg'
    ∧ TourPackage.current_participants pkg'
      = TourPackage.current_participants pkg - Booking.number_of_people d.2
    ∧ (0 ≤ TourPackage.current_participants pkg'
       ↔ Booking.number_of_people d.2 ≤ TourPackage.current_participants pkg)
    ∧ (accounted w → 0 ≤ TourPackage.current_participants pkg').
Proof.
  intros Hid Hf Hp Hpkg. rewrite run_update_booking_status, Hid, Hf.
  assert (Hd : d.1 = i) by apply (find_one_by_id_fst _ _ _ Hf).
  destruct d as [i' b]. cbn [fst snd] in *. subst i'.
  case_bool_decide as Hv; [|done]. cbn zeta.
  rewrite bool_decide_eq_true_2, Hp by done. intros _.
  cbn [snd with_tour_packages tour_packages].
  rewrite lookup_alter_eq, Hpkg. cbn.
  eexists. split; [done|]. cbn. split_and!; [lia|lia|].
  intros [Hpos Hacc]. specialize (Hacc p pkg Hpkg). cbn beta in Hacc.
  assert (Hh : holds_slots p (i, b) = true).
  { unfold holds_slots. cbn [snd]. rewrite bool_decide_eq_true_2 by done.
    rewrite bool_decide_eq_false_2; [done|].
    intros E. rewrite E in Hv. by apply elem_of_nil in Hv. }
  pose proof (booked_people_find_one p i _ _ Hpos Hf Hh) as Hle. cbn [snd] in Hle.
  lia.
Qed.

Lemma cancellation_decrements_without_floor_witness :
  let outcome := run (update_booking_status Example.first_id CANCELLED) Example.booked in
  succeeded outcome.1 = true
  ∧ ∃ pkg',
      tour_packages outcome.2 !! Example.package_oid = Some pkg'
      ∧ TourPackage.current_participants pkg' = 4 - 4.
Proof.
  intros outcome.
  assert (H1 : ObjectId_of_str Example.first_id = Some 1%N)
    by (vm_compute; reflexivity).
  assert (H2 : find_one (by_id 1%N) (bookings Example.booked)
               = Some (1%N, Example.first_booking)) by (vm_compute; reflexivity).
  assert (H3 : package_of (1%N, Example.first_booking).2 = Some Example.package_oid)
    by reflexivity.
  assert (H4 : tour_packages Example.booked !! Example.package_oid
               = Some (Example.package 100 10 4)) by (vm_compute; reflexivity).
  assert (H5 : succeeded outcome.1 = true) by (vm_compute; reflexivity).
  destruct (cancellation_decrements_without_floor Example.booked Example.first_id
              1%N (1%N, Example.first_booking) Example.package_oid
              (Example.package 100 10 4) H1 H2 H3 H4 H5)
    as (pkg' & Ha & Hb & _).
  split; [exact H5|]. exists pkg'. split; [exact Ha|exact Hb].
Defined.

(** C5 as stated fails: a booking for 3, the counter edited back to 0 by
    a package update, then the cancellation: the counter is -3. *)
Lemma cancellation_goes_negative :
  let rs := [CreateBooking (Example.book 3) Example.alice;
             UpdateTourPackage Example.package_id
               (Example.set_current_participants 0);
             UpdateBookingStatus Example.first_id CANCELLED] in
  TourPackage.current_participants
    <$> tour_packages (serve_all rs Example.fresh) !! Example.package_oid
  = Some (-3).
Proof. vm_compute. reflexivity. Qed.

(** ** The capacity invariant *)

Lemma booked_people_update_one i j s c d :
  find_one (by_id i) c = Some d →
  booked_people j (update_one (by_id i) (Booking.set_status s) c)
  = booked_people j c
    - (if holds_slots j d then Booking.number_of_people d.2 else 0)
    + (if holds_slots j (d.1, Booking.set_status s d.2)
       then Booking.number_of_people d.2 else 0).
Proof.
  unfold find_one, by_id. induction c as [|d' c IH]; [done|].
  cbn [List.find update_one]. case_bool_decide as E.
  - intros [= ->]. rewrite !booked_people_cons. cbn [snd Booking.set_status Booking.number_of_people]. lia.
  - intros Hf. rewrite !booked_people_cons, (IH Hf). lia.
Qed.

Lemma update_one_set_status_nonneg i s c :
  Forall (λ d, 0 ≤ Booking.number_of_people d.2) c →
  Forall (λ d, 0 ≤ Booking.number_of_people d.2)
    (update_one (by_id i) (Booking.set_status s) c).
Proof.
  induction 1 as [|d c Hd Hc IH]; [done|]. cbn [update_one].
  destruct (by_id i d); constructor; done.
Qed.

Lemma accounted_capacity_invariant w : accounted w → capacity_invariant w.
Proof.
  intros [Hpos Hacc] i p Hp. specialize (Hacc i p Hp). cbn beta in *.
  pose proof (booked_people_nonneg i _ Hpos). lia.
Qed.

Lemma create_booking_accounted booking tourist_id w :
  0 ≤ BookingCreate.number_of_people booking →
  accounted w → accounted (run (create_booking booking tourist_id) w).2.
Proof.
  intros Hn Hacc. rewrite run_create_booking.
  destruct (ObjectId_of_str tourist_id) as [t|]; [|done].
  destruct (ObjectId_of_str _) as [i|]; [|done].
  destruct (tour_packages w !! i) as [p|] eqn:Hp; [|done].
  case_bool_decide; [|done]. cbn zeta.
  destruct (_ <? _) eqn:Hlt; [done|]. apply Z.ltb_ge in Hlt.
  destruct (insert_one _ _ _) as [c|] eqn:Hins; [|done].
  apply find_one_insert_one in Hins as (-> & _ & _).
  destruct Hacc as [Hpos Hacc]. split; cbn [snd bookings tour_packages].
  - apply Forall_app. split; [done|]. by repeat constructor.
  - assert (Hnew : ∀ j, booked_people j (bookings w ++ [(next_oid w, new_booking booking t i p (random_choices (ascii_uppercase +:+ digits) 8 (rng w)).1)])
                     = booked_people j (bookings w)
                       + if bool_decide (i = j) then BookingCreate.number_of_people booking else 0).
    { intros j. rewrite booked_people_app, booked_people_cons. unfold holds_slots.
      cbn [snd new_booking package_of Booking.tour_package_id Booking.status Booking.number_of_people].
      rewrite (bool_decide_eq_false_2 (PENDING = CANCELLED)) by done.
      change (booked_people j []) with 0.
      repeat case_bool_decide; cbn; try lia; congruence. }
    intros j q. rewrite Hnew, lookup_alter. case_decide as Hij.
    + subst j. rewrite Hp, bool_decide_eq_true_2 by done. cbn. intros [= <-].
      specialize (Hacc i p Hp). cbn in *. lia.
    + rewrite bool_decide_eq_false_2 by done.
      intros Hq. specialize (Hacc j q Hq). cbn in *. lia.
Qed.

Lemma update_booking_status_accounted booking_id new_status w :
  accounted w → accounted (run (update_booking_status booking_id new_status) w).2.
Proof.
  intros [Hpos Hacc]. rewrite run_update_booking_status.
  destruct (ObjectId_of_str booking_id) as [i|]; [|done].
  destruct (find_one _ _) as [[i' b]|] eqn:Hf; [|done].
  case_bool_decide as Hv; [|done]. cbn zeta.
  assert (Hb : Booking.status b ≠ CANCELLED).
  { intros E. rewrite E in Hv. by apply elem_of_nil in Hv. }
  assert (Hpos' := update_one_set_status_nonneg i new_status _ Hpos).
  assert (Hold : ∀ j, holds_slots j (i', b) = bool_decide (package_of b = Some j)).
  { intros j. unfold holds_slots. cbn [snd]. rewrite (bool_decide_eq_false_2 (_ = CANCELLED)) by done.
    by rewrite andb_true_r. }
  pose proof (λ j, booked_people_update_one i j new_status _ _ Hf) as Hbp.
  cbn [fst snd] in Hbp. setoid_rewrite Hold in Hbp.
  assert (Hn : 0 ≤ Booking.number_of_people b).
  { apply find_one_elem_of in Hf as [Hin _].
    rewrite Forall_forall in Hpos. apply (Hpos _ Hin). }
  case_bool_decide as Hc.
  - subst new_status.
    assert (Hnew : ∀ j, holds_slots j (i', Booking.set_status CANCELLED b) = false).
    { intros j. unfold holds_slots. cbn. by rewrite andb_false_r. }
    setoid_rewrite Hnew in Hbp.
    destruct (package_of b) as [p|] eqn:Hp.
    + split; cbn [snd with_tour_packages with_bookings bookings tour_packages]; [done|].
      intros j q. rewrite (Hbp j), lookup_alter. case_decide as Hpj.
      * subst j. rewrite bool_decide_eq_true_2 by done.
        destruct (tour_packages w !! p) as [pkg|] eqn:Hpkg; [|done].
        cbn. intros [= <-]. specialize (Hacc p pkg Hpkg). cbn in *. lia.
      * rewrite bool_decide_eq_false_2 by congruence.
        intros Hq. specialize (Hacc j q Hq). cbn in *. lia.
    + split; cbn [snd with_tour_packages with_bookings bookings tour_packages]; [done|].
      intros j q Hq. rewrite (Hbp j). rewrite bool_decide_eq_false_2 by done.
      specialize (Hacc j q Hq). cbn in *. lia.
  - assert (Hnew : ∀ j, holds_slots j (i', Booking.set_status new_status b)
                       = bool_decide (package_of b = Some j)).
    { intros j. unfold holds_slots. cbn [snd Booking.set_status Booking.status].
      rewrite (bool_decide_eq_false_2 (_ = CANCELLED)) by done.
      by rewrite andb_true_r. }
    setoid_rewrite Hnew in Hbp.
    split; cbn [snd with_tour_packages with_bookings bookings tour_packages]; [done|].
    intros j q Hq. rewrite (Hbp j). specialize (Hacc j q Hq). cbn in *.
    destruct (bool_decide _); lia.
Qed.

Lemma update_tour_package_accounted package_id u w :
  TourPackageUpdate.max_participants u = None →
  TourPackageUpdate.current_participants u = None →
  accounted w → accounted (run (update_tour_package package_id u) w).2.
Proof.
  intros Hmax Hcur [Hpos Hacc]. rewrite run_update_tour_package.
  destruct (TourPackageUpdate.is_empty u); [done|].
  destruct (ObjectId_of_str package_id) as [i|]; [|done].
  cbn zeta. destruct (tour_packages w !! i) as [p|] eqn:Hp; [|done].
  destruct (TourPackage.eqb _ _); [done|].
  split; cbn [snd with_tour_packages bookings tour_packages]; [done|].
  intros j q. rewrite lookup_insert. case_decide as Hij.
  - subst j. intros [= <-]. specialize (Hacc i p Hp).
    cbn. by rewrite Hmax, Hcur.
  - apply Hacc.
Qed.

Lemma create_rating_with_accounted rating query w :
  accounted w → accounted (run (create_rating_with rating query) w).2.
Proof.
  intros [Hpos Hacc]. rewrite run_create_rating_with.
  destruct (find_one query _) as [[booking_oid b]|]; [|done].
  destruct (find_one _ (ratings w)); [done|].
  destruct (_ && _); [|done]. cbn zeta.
  destruct (insert_one _ _ _) as [c|]; [|done].
  split; cbn [snd bookings tour_packages]; [done|].
  destruct (ObjectId_of_str _) as [i|]; [|done].
  intros j q. rewrite lookup_alter. case_decide as Hij; [|apply Hacc].
  subst j. destruct (tour_packages w !! i) as [p|] eqn:Hp; [|done].
  cbn. intros [= <-]. apply (Hacc i p Hp).
Qed.

Lemma create_rating_accounted rating w :
  accounted w → accounted (run (create_rating rating) w).2.
Proof.
  intros Hacc. unfold create_rating.
  destruct (ObjectId_of_str _); [|done].
  destruct (truthy _); [|by apply create_rating_with_accounted].
  destruct (ObjectId_of_str _); [|done].
  by apply create_rating_with_accounted.
Qed.

Lemma serve_accounted r w : keeps_counters r → accounted w → accounted (serve r w).
Proof.
  destruct r; cbn [keeps_counters serve].
  - apply create_booking_accounted.
  - intros _. apply update_booking_status_accounted.
  - intros [??]. by apply update_tour_package_accounted.
  - intros _. apply create_rating_accounted.
Qed.

(** C1, as amended.  From a world whose counters account for its bookings,
    any sequence of booking creations for a number of people that is not
    negative, status changes, ratings, and package updates that write
    neither [max_participants] nor [current_participants] leaves every
    package with [0 ≤ current_participants ≤ max_participants]. *)
Theorem capacity_invariant_of_accounted_requests w rs :
  accounted w →
  Forall keeps_counters rs →
  capacity_invariant (serve_all rs w).
Proof.
  intros Hacc Hrs. apply accounted_capacity_invariant.
  revert w Hacc. induction Hrs as [|r rs Hr _ IH]; intros w Hacc; [done|].
  cbn. apply IH. by apply serve_accounted.
Qed.

Lemma capacity_invariant_of_accounted_requests_witness :
  let rs := [CreateBooking (Example.book 4) Example.alice;
             UpdateBookingStatus Example.first_id CONFIRMED;
             UpdateTourPackage Example.package_id (Example.set_price 120);
             CreateBooking (Example.book 6) Example.bob;
             UpdateBookingStatus Example.first_id CANCELLED] in
  accounted Example.fresh ∧ Forall keeps_counters rs
  ∧ capacity_invariant (serve_all rs Example.fresh).
Proof.
  intros rs.
  assert (H1 : accounted Example.fresh).
  { split; [constructor|]. apply map_Forall_singleton. vm_compute.
    split; discriminate. }
  assert (H2 : Forall keeps_counters rs).
  { repeat constructor; cbn; discriminate. }
  split_and!; [exact H1|exact H2|].
  exact (capacity_invariant_of_accounted_requests Example.fresh rs H1 H2).
Defined.

(** C1 as stated fails: after a booking for 4, a package update that sets
    [max_participants] to 3 is applied as it is, and the package holds
    4 participants of at most 3. *)
Lemma package_update_breaks_capacity_invariant :
  let rs := [CreateBooking (Example.book 4) Example.alice;
             UpdateTourPackage Example.package_id
               (Example.set_max_participants 3)] in
  capacity_invariant Example.fresh ∧ ¬ capacity_invariant (serve_all rs Example.fresh).
Proof.
  intros rs. split.
  - apply map_Forall_singleton. vm_compute. split; discriminate.
  - intros H.
    assert (Hl : tour_packages (serve_all rs Example.fresh) !! Example.package_oid
                 = Some (Example.package 100 3 4)) by (vm_compute; reflexivity).
    apply H in Hl. vm_compute in Hl. destruct Hl as [_ Hl]. by apply Hl.
Qed.

(** ** Two bookings for the same package *)

(** C2, as amended.  When two booking requests for the same package are
    served one after the other and together ask for more than the remaining
    capacity, they do not both succeed; and when the first succeeds, the
    second (its tourist identifier being in good form) fails with
    [InsufficientCapacity] for what the first left. *)
Theorem sequential_bookings_do_not_oversell w b1 t1 b2 t2 i p :
  ObjectId_of_str (BookingCreate.tour_package_id b1) = Some i →
  ObjectId_of_str (BookingCreate.tour_package_id b2) = Some i →
  tour_packages w !! i = Some p →
  BookingCreate.number_of_people b1 + BookingCreate.number_of_people b2
  > TourPackage.max_participants p - TourPackage.current_participants p →
  let first := run (create_booking b1 t1) w in
  let second := run (create_booking b2 t2) first.2 in
  ¬ (succeeded first.1 = true ∧ succeeded second.1 = true)
  ∧ (succeeded first.1 = true →
     is_Some (ObjectId_of_str t2) →
     second.1
     = inl (InsufficientCapacity
              (TourPackage.max_participants p
               - TourPackage.current_participants p
               - BookingCreate.number_of_people b1))).
Proof.
  intros H1 H2 Hp Hsum first second.
  assert (Hsecond : succeeded first.1 = true →
    second = match ObjectId_of_str t2 with
             | Some _ => (inl (InsufficientCapacity
                                (TourPackage.max_participants p
                                 - TourPackage.current_participants p
                                 - BookingCreate.number_of_people b1)), first.2)
             | None => (inl (HTTPException HTTP_400_BAD_REQUEST
                               "Invalid identifier provided"), first.2)
             end).
  { subst second first. rewrite (run_create_booking b1), H1, Hp.
    destruct (ObjectId_of_str t1) as [o1|]; [|done].
    case_bool_decide as Hact; [|done]. cbn zeta.
    destruct (_ <? _) eqn:Hlt; [done|]. apply Z.ltb_ge in Hlt.
    destruct (insert_one _ _ _) as [c|]; [|done]. intros _.
    rewrite run_create_booking, H2. cbn [fst snd tour_packages].
    destruct (ObjectId_of_str t2) as [o2|]; [|done].
    rewrite lookup_alter_eq, Hp. cbn [fmap option_fmap option_map].
    cbn [TourPackage.inc_current_participants TourPackage.status
         TourPackage.max_participants TourPackage.current_participants].
    rewrite bool_decide_eq_true_2 by done.
    destruct (_ <? _) eqn:Hlt2; [|apply Z.ltb_ge in Hlt2; lia].
    do 3 f_equal. lia. }
  split.
  - intros [Hf Hs]. rewrite (Hsecond Hf) in Hs. by destruct (ObjectId_of_str t2).
  - intros Hf [o2 Ho2]. rewrite (Hsecond Hf), Ho2. done.
Qed.

Lemma sequential_bookings_do_not_oversell_witness :
  let w := Example.world (Example.package 100 5 0) Example.tape in
  let first := run (create_booking (Example.book 3) Example.alice) w in
  let second := run (create_booking (Example.book 3) Example.bob) first.2 in
  3 + 3 > 5 - 0
  ∧ succeeded first.1 = true
  ∧ second.1 = inl (InsufficientCapacity (5 - 0 - 3)).
Proof.
  intros w first second.
  assert (H1 : ObjectId_of_str Example.package_id = Some Example.package_oid)
    by (vm_compute; reflexivity).
  assert (H2 : tour_packages w !! Example.package_oid
               = Some (Example.package 100 5 0)) by (vm_compute; reflexivity).
  assert (H3 : 3 + 3 > 5 - 0) by reflexivity.
  assert (H4 : succeeded first.1 = true) by (vm_compute; reflexivity).
  assert (H5 : is_Some (ObjectId_of_str Example.bob))
    by (eexists; vm_compute; reflexivity).
  split_and!; [exact H3|exact H4|].
  exact (proj2 (sequential_bookings_do_not_oversell w (Example.book 3)
                  Example.alice (Example.book 3) Example.bob
                  Example.package_oid (Example.package 100 5 0)
                  H1 H1 H2 H3) H4 H5).
Defined.

(** C2 as stated fails: with 5 free slots and two requests for 3, let the
    second coroutine read the package while the first awaits its own read.
    Both pass the availability check, both return a booking, and the
    package ends with 6 participants of at most 5. *)
Lemma concurrent_bookings_oversell :
  let w := Example.world (Example.package 100 5 0) [] in
  let '(first, second, w') :=
    interleave Example.oversell_schedule
      (create_booking (Example.book 3) Example.alice)
      (create_booking (Example.book 3) Example.bob) w in
  3 + 3 > 5 - 0
  ∧ returned first = true ∧ returned second = true
  ∧ TourPackage.current_participants <$> tour_packages w' !! Example.package_oid
    = Some 6
  ∧ ¬ capacity_invariant w'.
Proof.
  vm_compute. split_and!; try done.
  intros H. specialize (H Example.package_oid _ eq_refl). vm_compute in H. destruct H as [_ H]. by apply H.
Qed.

(** ** The booking reference *)

Lemma get_elem_of n s c :
  String.get n s = Some c → c ∈ list_ascii_of_string s.
Proof.
  revert n. induction s as [|a s IH]; intros n; [by destruct n|].
  destruct n as [|n]; cbn.
  - intros [= ->]. by left.
  - intros H. right. by eapply IH.
Qed.

Lemma get_is_Some n s : (n < String.length s)%nat → is_Some (String.get n s).
Proof.
  revert n. induction s as [|a s IH]; intros n; cbn; [lia|].
  destruct n as [|n]; [by eexists|]. intros H. apply IH. lia.
Qed.

Lemma choice_elem_of population r :
  population ≠ "" → choice population r ∈ list_ascii_of_string population.
Proof.
  intros Hne. unfold choice.
  destruct (get_is_Some (r mod String.length population) population) as [c Hc].
  { apply Nat.mod_upper_bound. by destruct population. }
  rewrite Hc. cbn. by eapply get_elem_of.
Qed.

Lemma random_choices_spec population k tape :
  population ≠ "" →
  String.length (random_choices population k tape).1 = k
  ∧ Forall (λ c, c ∈ list_ascii_of_string population)
      (list_ascii_of_string (random_choices population k tape).1).
Proof.
  intros Hne. revert tape. induction k as [|k IH]; intros tape; [by split|].
  cbn [random_choices]. specialize (IH (tl tape)).
  destruct (random_choices population k (tl tape)) as [s tape'].
  cbn [fst String.length list_ascii_of_string] in *. destruct IH as [-> IH].
  split; [done|]. constructor; [|done]. by apply choice_elem_of.
Qed.

(** C6, as amended.  A successful [create_booking] appends one booking whose
    [booking_reference] has exactly 8 characters, each an upper-case letter
    or a digit.  (No lookup of the reference precedes the insertion.) *)
Theorem booking_reference_format booking tourist_id w r w' :
  run (create_booking booking tourist_id) w = (inr r, w') →
  ∃ i b,
    r = Some (BookingInDB.build i b)
    ∧ bookings w' = bookings w ++ [(i, b)]
    ∧ String.length (Booking.booking_reference b) = 8%nat
    ∧ Forall (λ c, c ∈ list_ascii_of_string (ascii_uppercase +:+ digits))
        (list_ascii_of_string (Booking.booking_reference b)).
Proof.
  intros (t & i & p & _ & _ & _ & _ & _ & -> & -> & _)%create_booking_succeeded.
  eexists _, _. split; [done|]. split; [done|].
  apply (random_choices_spec (ascii_uppercase +:+ digits) 8 (rng w)). done.
Qed.

Lemma booking_reference_format_witness :
  run (create_booking (Example.book 4) Example.alice) Example.fresh
  = (inr (Some (BookingInDB.build 1%N Example.first_booking)), Example.booked)
  ∧ ∃ i b,
      Some (BookingInDB.build 1%N Example.first_booking)
      = Some (BookingInDB.build i b)
      ∧ bookings Example.booked = bookings Example.fresh ++ [(i, b)]
      ∧ String.length (Booking.booking_reference b) = 8%nat
      ∧ Forall (λ c, c ∈ list_ascii_of_string (ascii_uppercase +:+ digits))
          (list_ascii_of_string (Booking.booking_reference b)).
Proof.
  assert (H : run (create_booking (Example.book 4) Example.alice) Example.fresh
              = (inr (Some (BookingInDB.build 1%N Example.first_booking)), Example.booked))
    by (vm_compute; reflexivity).
  split; [exact H|].
  exact (booking_reference_format _ _ _ _ _ H).
Defined.

(** C6 as stated fails: when the generator repeats its eight draws, the
    second booking is stored under the reference of the first. *)
Lemma booking_references_repeat :
  let rs := [CreateBooking (Example.book 4) Example.alice;
             CreateBooking (Example.book 2) Example.bob] in
  (λ d, (d.1, Booking.booking_reference d.2))
    <$> bookings (serve_all rs Example.fresh)
  = [(1%N, "TRIP2024"); (2%N, "TRIP2024")].
Proof. vm_compute. reflexivity. Qed.

(** ** The total price *)

Lemma prices_update_one i s (c : list (ObjectId * Booking.doc)) :
  (λ d, (d.1, Booking.total_price d.2))
    <$> update_one (by_id i) (Booking.set_status s) c
  = (λ d, (d.1, Booking.total_price d.2)) <$> c.
Proof.
  induction c as [|d c IH]; [done|]. cbn [update_one].
  destruct (by_id i d); cbn; [done|]. by rewrite <- IH.
Qed.

Lemma serve_prices r w : prices w `prefix_of` prices (serve r w).
Proof.
  unfold prices. destruct r as [booking t|booking_id s|package_id u|rating];
    cbn [serve].
  - rewrite run_create_booking.
    destruct (ObjectId_of_str t); [|done].
    destruct (ObjectId_of_str _); [|done].
    destruct (tour_packages w !! _); [|done].
    case_bool_decide; [|done]. cbn zeta. destruct (_ <? _); [done|].
    destruct (insert_one _ _ _) as [c|] eqn:Hins; [|done].
    apply find_one_insert_one in Hins as (-> & _ & _).
    cbn [snd bookings]. rewrite fmap_app. by apply prefix_app_r.
  - rewrite run_update_booking_status.
    destruct (ObjectId_of_str booking_id) as [i|]; [|done].
    destruct (find_one _ _) as [[]|]; [|done].
    destruct (bool_decide (_ ∈ _)); [|done]. cbn zeta.
    assert (E := prices_update_one i s (bookings w)).
    destruct (bool_decide _); [destruct (package_of _)|];
      cbn [snd with_tour_packages with_bookings bookings]; by rewrite E.
  - rewrite run_update_tour_package.
    destruct (TourPackageUpdate.is_empty u); [done|].
    destruct (ObjectId_of_str package_id); [|done]. cbn zeta.
    destruct (tour_packages w !! _); [|done].
    by destruct (TourPackage.eqb _ _).
  - by rewrite create_rating_bookings.
Qed.

Lemma serve_all_prices rs w : prices w `prefix_of` prices (serve_all rs w).
Proof.
  revert w. induction rs as [|r rs IH]; intros w; [done|].
  cbn. etrans; [apply (serve_prices r)|apply IH].
Qed.

(** C7.  A successful [create_booking] stores a booking whose [total_price]
    is the price the package has at that moment times [number_of_people];
    and after any later sequence of requests (package updates, status
    changes, bookings, ratings) the same booking is stored at the same place
    with the same [total_price]. *)
Theorem total_price_frozen booking tourist_id w r w' :
  run (create_booking booking tourist_id) w = (inr r, w') →
  ∃ i j p b,
    ObjectId_of_str (BookingCreate.tour_package_id booking) = Some i
    ∧ tour_packages w !! i = Some p
    ∧ bookings w' = bookings w ++ [(j, b)]
    ∧ Booking.total_price b
      = (TourPackage.price p
         * inject_Z (BookingCreate.number_of_people booking))%Q
    ∧ ∀ rs, ∃ b',
        bookings (serve_all rs w') !! length (bookings w) = Some (j, b')
        ∧ Booking.total_price b' = Booking.total_price b.
Proof.
  intros (t & i & p & _ & Hi & Hp & _ & _ & _ & Hb & _)%create_booking_succeeded.
  eexists i, _, p, _. split_and!; [done..|].
  intros rs. destruct (serve_all_prices rs w') as [k Hk].
  assert (Hl : prices (serve_all rs w') !! length (bookings w)
               = Some (next_oid w,
                       Booking.total_price
                         (new_booking booking t i p
                            (random_choices (ascii_uppercase +:+ digits) 8
                               (rng w)).1))).
  { rewrite Hk. unfold prices at 1. rewrite Hb.
    rewrite fmap_app, <- app_assoc, lookup_app_r by (by rewrite length_fmap).
    by rewrite length_fmap, Nat.sub_diag. }
  unfold prices in Hl. rewrite list_lookup_fmap in Hl.
  destruct (bookings (serve_all rs w') !! _) as [[j b']|]; [|done].
  cbn in Hl. injection Hl as -> Hb'. by eexists.
Qed.

Lemma total_price_frozen_witness :
  let later := [UpdateTourPackage Example.package_id (Example.set_price 250);
                UpdateBookingStatus Example.first_id CONFIRMED;
                UpdateBookingStatus Example.first_id COMPLETED] in
  run (create_booking (Example.book 4) Example.alice) Example.fresh
  = (inr (Some (BookingInDB.build 1%N Example.first_booking)), Example.booked)
  ∧ ∃ j b,
      bookings Example.booked = bookings Example.fresh ++ [(j, b)]
      ∧ ∃ b',
          bookings (serve_all later Example.booked) !! length (bookings Example.fresh)
          = Some (j, b')
          ∧ Booking.total_price b' = Booking.total_price b.
Proof.
  intros later.
  assert (H : run (create_booking (Example.book 4) Example.alice) Example.fresh
              = (inr (Some (BookingInDB.build 1%N Example.first_booking)), Example.booked))
    by (vm_compute; reflexivity).
  split; [exact H|].
  destruct (total_price_frozen _ _ _ _ _ H)
    as (i & j & p & b & _ & _ & Hb & _ & Hlater).
  exists j, b. split; [exact Hb|]. exact (Hlater later).
Defined.

(** ** The rating aggregate *)

Lemma round1_tenth x : ∃ z, round1 x = (z # 10)%Q.
Proof. unfold round1. by eexists. Qed.

Lemma tenth_inject_Z z : (z # 10 == inject_Z z * (1 # 10))%Q.
Proof. unfold Qeq. cbn. lia. Qed.

Lemma round1_close x : (Qabs (round1 x - x) <= 1 # 20)%Q.
Proof.
  unfold round1. set (t := (x * 10)%Q). set (f := Qfloor t).
  assert (Hlo : (inject_Z f <= t)%Q) by apply Qfloor_le.
  assert (Hhi : (t < inject_Z (f + 1))%Q) by apply Qlt_floor.
  rewrite inject_Z_plus in Hhi. change (inject_Z 1) with 1%Q in Hhi.
  assert (Hx : (x == t * (1 # 10))%Q) by (unfold t; field).
  apply Qabs_Qle_condition. rewrite tenth_inject_Z.
  destruct (Qcompare_spec (t - inject_Z f) (1 # 2)) as [Hc|Hc|Hc];
    [destruct (Z.even f)| |];
    rewrite ?inject_Z_plus; change (inject_Z 1) with 1%Q;
    split; lra.
Qed.

(** C8, as amended.  After a successful [create_rating] for a stored
    package, the package's [average_rating] is the arithmetic mean of the
    rating values stored under the request's package identifier (the new
    one among them) rounded to one decimal place: a number of tenths within
    one twentieth of the mean. *)
Theorem average_rating_is_rounded_mean rating w r w' i p :
  run (create_rating rating) w = (inr r, w') →
  ObjectId_of_str (Rating.tour_package_id rating) = Some i →
  tour_packages w !! i = Some p →
  let values := rating_values (Rating.tour_package_id rating) (ratings w') in
  ∃ p' z,
    tour_packages w' !! i = Some p'
    ∧ Rating.rating rating ∈ values
    ∧ TourPackage.average_rating p' = (z # 10)%Q
    ∧ (Qabs (TourPackage.average_rating p' - mean values) <= 1 # 20)%Q.
Proof.
  intros (i' & o & Hi' & _ & _ & Hr & _ & Hp')%create_rating_succeeded Hi Hp values.
  assert (i' = i) as -> by congruence.
  assert (Hin : Rating.rating rating ∈ values).
  { subst values. rewrite Hr. unfold rating_values.
    rewrite List.filter_app, fmap_app. apply elem_of_app. right.
    cbn. rewrite bool_decide_eq_true_2 by done. cbn. by left. }
  assert (Hne : values ≠ []).
  { intros E. rewrite E in Hin. by apply elem_of_nil in Hin. }
  rewrite (package_rating_mean _ _ Hne) in Hp'. cbn [fst snd] in Hp'.
  destruct (round1_tenth (mean values)) as [z Hz].
  exists (TourPackage.set_rating (round1 (mean values)) (Z.of_nat (length values)) p), z.
  split_and!; [|done|done|apply round1_close].
  by rewrite Hp', lookup_alter_eq, Hp.
Qed.

Lemma average_rating_is_rounded_mean_witness :
  let rating := Example.rate Example.bob 2 in
  let values := rating_values (Rating.tour_package_id rating) (ratings Example.rated) in
  succeeded (run (create_rating rating) Example.rated_world).1 = true
  ∧ ∃ p' z,
      tour_packages Example.rated !! Example.package_oid = Some p'
      ∧ Rating.rating rating ∈ values
      ∧ TourPackage.average_rating p' = (z # 10)%Q
      ∧ (Qabs (TourPackage.average_rating p' - mean values) <= 1 # 20)%Q.
Proof.
  intros rating values.
  assert (H1 : run (create_rating rating) Example.rated_world
               = (inr (Some (ObjectId_str 4%N, rating_payload rating 1%N)),
                  Example.rated)) by (vm_compute; reflexivity).
  assert (H2 : ObjectId_of_str (Rating.tour_package_id rating)
               = Some Example.package_oid) by (vm_compute; reflexivity).
  assert (H3 : tour_packages Example.rated_world !! Example.package_oid
               = Some (Example.package 100 10 2)) by (vm_compute; reflexivity).
  split; [by rewrite H1|].
  exact (average_rating_is_rounded_mean _ _ _ _ _ _ H1 H2 H3).
Defined.

(** C8 as stated fails: with ratings 1 and 1 stored, a rating of 2 makes the
    mean 4/3; the package receives 1.3, and the count 3 goes to the field
    [rating_count] while [total_ratings] stays 0. *)
Lemma average_rating_is_not_the_mean :
  let outcome :=
    run (create_rating (Example.rate Example.bob 2)) Example.rated_world in
  let values := rating_values Example.package_id (ratings outcome.2) in
  succeeded outcome.1 = true
  ∧ values = [1; 1; 2]
  ∧ ∃ p',
      tour_packages outcome.2 !! Example.package_oid = Some p'
      ∧ TourPackage.average_rating p' = (13 # 10)%Q
      ∧ ¬ (TourPackage.average_rating p' == mean values)%Q
      ∧ TourPackage.total_ratings p' = 0
      ∧ Z.of_nat (length values) = 3.
Proof.
  vm_compute. split_and!; try done. eexists. split_and!; try done.
Qed.

(** ** Who may rate *)

Lemma eligibility_query_spec rating i d :
  ObjectId_of_str (Rating.tour_package_id rating) = Some i →
  well_formed_ids rating →
  eligibility_query rating d = true
  ↔ completed_booking_of i (Rating.tourist_id rating) d ∧ named_by rating d.
Proof.
  unfold eligibility_query, booking_query, completed_booking_of, named_by.
  intros -> [_ Hb]. cbn [default]. rewrite !andb_true_iff.
  rewrite !bool_decide_eq_true.
  destruct (truthy (Rating.booking_id rating)).
  - destruct (Hb eq_refl) as [b ->]. rewrite bool_decide_eq_true.
    split.
    + intros [[[H1 H2] H3] ->]. done.
    + intros [(H1 & H2 & H3) H4]. by specialize (H4 eq_refl) as [= ->].
  - split; [by intros [[[H1 H2] H3] _]|by intros [(H1 & H2 & H3) _]].
Qed.

(** C9, as stated, fails.  In [Example.rated] the ledger holds a completed
    booking of the package by [bob] and a rating of the package by [bob].
    - A request by [bob] that names another booking is answered
      [NotEligible], not [DuplicateRating]: the eligibility lookup comes
      first and is narrowed to the booking the request names.
    - A request by [bob] that spells the package identifier in upper case,
      the same ObjectId, is not refused at all: the duplicate lookup
      compares the identifier strings, finds none, and a second rating by
      [bob] is stored and the aggregates of the package are rewritten.
    - A request under an identifier that is no ObjectId has no completed
      booking, and is answered with the invalid-identifier error, not
      [NotEligible]. *)
Lemma prior_rating_is_not_always_refused :
  let booking :=
    (1%N, {| Booking.tour_package_id := IdOid Example.package_oid;
             Booking.tourist_id := IdStr Example.bob;
             Booking.number_of_people := 2;
             Booking.total_price := 200;
             Booking.status := COMPLETED;
             Booking.booking_reference := "K3X9PLQ2" |}) in
  let prior := (4%N, rating_payload (Example.rate Example.bob 2) 1%N) in
  let w := Example.rated in
  let aggregates p :=
    (TourPackage.average_rating p, TourPackage.rating_count p) in
  (booking ∈ bookings w
   ∧ completed_booking_of Example.package_oid Example.bob booking
   ∧ prior ∈ ratings w
   ∧ rating_by Example.package_id Example.bob prior)
  ∧ run (create_rating
           (Sample.rate_naming Sample.missing_id Example.bob 5)) w
    = (inl NotEligible, w)
  ∧ (ObjectId_of_str Sample.package_id_upper = Some Example.package_oid
     ∧ let outcome :=
         run (create_rating (Sample.rate_upper Example.bob 5)) w in
       succeeded outcome.1 = true
       ∧ ratings outcome.2
         = ratings w
           ++ [(5%N, rating_payload (Sample.rate_upper Example.bob 5) 1%N)]
       ∧ aggregates <$> tour_packages w !! Example.package_oid
         = Some ((13 # 10)%Q, Some 3)
       ∧ aggregates <$> tour_packages outcome.2 !! Example.package_oid
         = Some ((50 # 10)%Q, Some 1))
  ∧ run (create_rating (Sample.rate_malformed Example.bob 5)) w
    = (inl (HTTPException HTTP_400_BAD_REQUEST
              "Invalid tour package identifier provided"), w).
Proof.
  vm_compute. split_and!; try done.
  - left.
  - do 2 right. left.
Qed.

(** C9, amended.  For a rating request whose identifiers parse:
    - when no completed booking of the package by the tourist is stored,
      or none that is the booking the request names, [create_rating] fails
      with [NotEligible];
    - when there is such a booking, and a rating is stored under the same
      package identifier string and the same tourist identifier, it fails
      with [DuplicateRating];
    and in each case the world is left as it was: no rating is inserted and
    no aggregate is written. *)
Theorem create_rating_rejects_in_order rating w i :
  ObjectId_of_str (Rating.tour_package_id rating) = Some i →
  well_formed_ids rating →
  let eligible d :=
    completed_booking_of i (Rating.tourist_id rating) d ∧ named_by rating d in
  ((∀ d, d ∈ bookings w → ¬ eligible d) →
   run (create_rating rating) w = (inl NotEligible, w))
  ∧ ((∃ d, d ∈ bookings w ∧ eligible d) →
     (∃ d, d ∈ ratings w
           ∧ rating_by (Rating.tour_package_id rating)
               (Rating.tourist_id rating) d) →
     run (create_rating rating) w = (inl DuplicateRating, w)).
Proof.
  intros Hi Hwf eligible.
  rewrite (create_rating_well_formed _ Hwf), run_create_rating_with.
  split.
  - intros Hnone.
    destruct (find_one _ (bookings w)) as [d|] eqn:Hf; [|done].
    apply find_one_elem_of in Hf as [Hin Hq].
    destruct (Hnone d Hin). by apply (eligibility_query_spec _ _ _ Hi Hwf).
  - intros (b & Hb & Hel) (d & Hin & Hp & Ht).
    destruct (find_one (eligibility_query rating) (bookings w))
      as [[b' ?]|] eqn:Hf.
    + destruct (find_one _ (ratings w)) eqn:Hr; [done|].
      rewrite find_one_None in Hr. specialize (Hr d Hin).
      unfold rating_query in Hr. by rewrite !bool_decide_eq_true_2 in Hr.
    + rewrite find_one_None in Hf. specialize (Hf b Hb).
      apply (eligibility_query_spec _ _ _ Hi Hwf) in Hel. congruence.
Qed.

Lemma create_rating_rejects_in_order_witness :
  let rating := Example.rate Example.bob 5 in
  well_formed_ids rating
  ∧ run (create_rating rating) Example.booked = (inl NotEligible, Example.booked)
  ∧ run (create_rating rating) Example.rated = (inl DuplicateRating, Example.rated).
Proof.
  intros rating.
  assert (H1 : ObjectId_of_str (Rating.tour_package_id rating)
               = Some Example.package_oid) by (vm_compute; reflexivity).
  assert (H2 : well_formed_ids rating).
  { split; [by eexists|]. intros H. discriminate H. }
  split_and!; [exact H2| |].
  - apply (create_rating_rejects_in_order rating Example.booked _ H1 H2).
    intros d Hd [(_ & Ht & _) _].
    assert (Hb : bookings Example.booked = [(1%N, Example.first_booking)])
      by (vm_compute; reflexivity).
    rewrite Hb in Hd. apply list_elem_of_singleton in Hd. subst d.
    discriminate Ht.
  - apply (create_rating_rejects_in_order rating Example.rated _ H1 H2).
    + assert (Hb : ∃ b, bookings Example.rated = [(1%N, b)]
                        ∧ completed_booking_of Example.package_oid
                            Example.bob (1%N, b)).
      { eexists. split; [vm_compute; reflexivity|]. by split_and!. }
      destruct Hb as (b & Hb & Hc). exists (1%N, b).
      split; [rewrite Hb; left|]. split; [exact Hc|]. intros H. discriminate H.
    + exists (4%N, rating_payload (Example.rate Example.bob 2) 1%N).
      split; [|split; reflexivity].
      assert (Hr : ratings Example.rated
                   = ratings Example.rated_world
                     ++ [(4%N, rating_payload (Example.rate Example.bob 2) 1%N)])
        by (vm_compute; reflexivity).
      rewrite Hr. apply elem_of_app. right. left.
Defined.

Lemma serve_foreign_keys r w :
  foreign_keys_are_ObjectIds w → foreign_keys_are_ObjectIds (serve r w).
Proof.
  unfold foreign_keys_are_ObjectIds. intros Hw.
  destruct r as [booking t|booking_id s|package_id u|rating]; cbn [serve].
  - destruct (run (create_booking booking t) w) as [[e|r] w'] eqn:Hrun.
    + revert Hrun. rewrite run_create_booking.
      destruct (ObjectId_of_str t); [|by intros [= _ <-]].
      destruct (ObjectId_of_str _); [|by intros [= _ <-]].
      destruct (tour_packages w !! _); [|by intros [= _ <-]].
      case_bool_decide; [|by intros [= _ <-]]. cbn zeta.
      destruct (_ <? _); [by intros [= _ <-]|].
      destruct (insert_one _ _ _); [done|]. by intros [= _ <-].
    + apply create_booking_succeeded in Hrun
        as (o & i & p & _ & _ & _ & _ & _ & _ & Hb & _).
      cbn [snd]. rewrite Hb. apply Forall_app. split; [done|].
      repeat constructor. by eexists _, _.
  - rewrite run_update_booking_status.
    destruct (ObjectId_of_str booking_id) as [i|]; [|done].
    destruct (find_one _ _) as [[]|]; [|done].
    destruct (bool_decide (_ ∈ _)); [|done]. cbn zeta.
    assert (E : Forall (λ d, ∃ tourist package,
                          Booking.tourist_id d.2 = IdOid tourist
                          ∧ Booking.tour_package_id d.2 = IdOid package)
                  (update_one (by_id i) (Booking.set_status s) (bookings w))).
    { induction Hw as [|x c Hx Hc IH]; [done|]. cbn [update_one].
      destruct (by_id i x); constructor; done. }
    destruct (bool_decide _); [destruct (package_of _)|]; done.
  - rewrite run_update_tour_package.
    destruct (TourPackageUpdate.is_empty u); [done|].
    destruct (ObjectId_of_str package_id); [|done]. cbn zeta.
    destruct (tour_packages w !! _); [|done].
    by destruct (TourPackage.eqb _ _).
  - by rewrite create_rating_bookings.
Qed.

Lemma serve_all_foreign_keys rs w :
  foreign_keys_are_ObjectIds w → foreign_keys_are_ObjectIds (serve_all rs w).
Proof.
  revert w. induction rs as [|r rs IH]; intros w Hw; [done|].
  cbn. apply IH. by apply serve_foreign_keys.
Qed.

(** C10.  In a ledger filled by the services alone, every booking holds its
    tourist and its package as ObjectIds.  So for every completed booking, a
    rating request for its package whose [tourist_id] is the string form of
    the booking's tourist does not match the booking in the eligibility
    query, and [create_rating] rejects the request with [NotEligible]. *)
Theorem completed_booking_is_not_eligible w0 rs d :
  bookings w0 = [] →
  d ∈ bookings (serve_all rs w0) →
  Booking.status d.2 = COMPLETED →
  ∃ tourist package,
    Booking.tourist_id d.2 = IdOid tourist
    ∧ Booking.tour_package_id d.2 = IdOid package
    ∧ ∀ rating,
        ObjectId_of_str (Rating.tour_package_id rating) = Some package →
        Rating.tourist_id rating = ObjectId_str tourist →
        well_formed_ids rating →
        eligibility_query rating d = false
        ∧ run (create_rating rating) (serve_all rs w0)
          = (inl NotEligible, serve_all rs w0).
Proof.
  intros Hnil Hd Hst.
  assert (Hfk : foreign_keys_are_ObjectIds (serve_all rs w0)).
  { apply serve_all_foreign_keys. unfold foreign_keys_are_ObjectIds.
    rewrite Hnil. constructor. }
  unfold foreign_keys_are_ObjectIds in Hfk. rewrite Forall_forall in Hfk.
  destruct (Hfk d Hd) as (tourist & package & Ht & Hp).
  exists tourist, package. split_and!; [done..|].
  intros rating Hi Htourist Hwf.
  assert (Hq : ∀ d', d' ∈ bookings (serve_all rs w0) →
                     eligibility_query rating d' = false).
  { intros d' Hd'. destruct (Hfk d' Hd') as (t' & p' & Ht' & _).
    unfold eligibility_query, booking_query. rewrite Ht'.
    rewrite (bool_decide_eq_false_2 (IdOid t' = IdStr _)) by done.
    by rewrite andb_false_r. }
  split; [by apply Hq|].
  rewrite (create_rating_well_formed _ Hwf), run_create_rating_with.
  by rewrite (proj2 (find_one_None _ _) Hq).
Qed.

Lemma completed_booking_is_not_eligible_witness :
  let rs := [CreateBooking (Example.book 4) Example.alice;
             UpdateBookingStatus Example.first_id CONFIRMED;
             UpdateBookingStatus Example.first_id COMPLETED] in
  let d := (1%N, Booking.set_status COMPLETED Example.first_booking) in
  let rating := Example.rate Example.alice 5 in
  d ∈ bookings (serve_all rs Example.fresh)
  ∧ Booking.status d.2 = COMPLETED
  ∧ eligibility_query rating d = false
  ∧ run (create_rating rating) (serve_all rs Example.fresh)
    = (inl NotEligible, serve_all rs Example.fresh).
Proof.
  intros rs d rating.
  assert (H1 : bookings Example.fresh = []) by reflexivity.
  assert (H2 : d ∈ bookings (serve_all rs Example.fresh)).
  { assert (Hb : bookings (serve_all rs Example.fresh) = [d])
      by (vm_compute; reflexivity).
    rewrite Hb. left. }
  assert (H3 : Booking.status d.2 = COMPLETED) by reflexivity.
  destruct (completed_booking_is_not_eligible Example.fresh rs d H1 H2 H3)
    as (tourist & package & Ht & Hp & Hrating).
  injection Ht as <-. injection Hp as <-.
  assert (H4 : ObjectId_of_str (Rating.tour_package_id rating)
               = Some Example.package_oid) by (vm_compute; reflexivity).
  assert (H5 : Rating.tourist_id rating = ObjectId_str Example.alice_oid)
    by (vm_compute; reflexivity).
  assert (H6 : well_formed_ids rating).
  { split; [by eexists|]. intros H. discriminate H. }
  destruct (Hrating rating H4 H5 H6) as [Ha Hb].
  split_and!; [exact H2|exact H3|exact Ha|exact Hb].
Defined.

(** ** The scenario of the specification *)

(** A package of 10 slots at 100: booking 4 people costs 400 and takes 4
    slots; confirming keeps them; cancelling gives them back; confirming the
    cancelled booking is refused. *)
Example booking_scenario :
  let created := run (create_booking (Example.book 4) Example.alice)
                   Example.fresh in
  let confirmed := run (update_booking_status Example.first_id CONFIRMED)
                     created.2 in
  let cancelled := run (update_booking_status Example.first_id CANCELLED)
                     confirmed.2 in
  let again := run (update_booking_status Example.first_id CONFIRMED)
                 cancelled.2 in
  let slots (w : World) : option Z :=
    TourPackage.current_participants
      <$> tour_packages w !! Example.package_oid in
  let stored (s : BookingStatus) : exn + option BookingInDB.t :=
    inr (Some (BookingInDB.build 1%N
                 (Booking.set_status s Example.first_booking))) in
  created.1 = stored PENDING
  ∧ Booking.total_price Example.first_booking = (400 # 1)%Q
  ∧ slots created.2 = Some 4
  ∧ confirmed.1 = stored CONFIRMED
  ∧ slots confirmed.2 = Some 4
  ∧ cancelled.1 = stored CANCELLED
  ∧ slots cancelled.2 = Some 0
  ∧ again = (inl (InvalidTransition CANCELLED CONFIRMED), cancelled.2).
Proof. vm_compute. repeat split. Qed.

(** * More properties *)

(** ** Rejected and accepted bookings *)

(** X1.  With identifiers in good form, [create_booking] answers, in this
    order: [NotFound] when the package is not stored, [PackageInactive] when
    its status is not [active] (whatever the capacity), and
    [InsufficientCapacity], quoting the free slots, when more people are
    asked for than slots are free.  Each time the world is left as it
    was. *)
Theorem create_booking_rejections booking tourist_id w t i :
  ObjectId_of_str tourist_id = Some t →
  ObjectId_of_str (BookingCreate.tour_package_id booking) = Some i →
  let outcome := run (create_booking booking tourist_id) w in
  (tour_packages w !! i = None → outcome = (inl NotFound_package, w))
  ∧ (∀ p, tour_packages w !! i = Some p →
          TourPackage.status p ≠ ACTIVE →
          outcome = (inl PackageInactive, w))
  ∧ (∀ p, tour_packages w !! i = Some p →
          TourPackage.status p = ACTIVE →
          let available_slots :=
            TourPackage.max_participants p
            - TourPackage.current_participants p in
          BookingCreate.number_of_people booking > available_slots →
          outcome = (inl (InsufficientCapacity available_slots), w)).
Proof.
  intros Ht Hi outcome. subst outcome. rewrite run_create_booking, Ht, Hi.
  split_and!.
  - by intros ->.
  - intros p -> Hs. by rewrite bool_decide_eq_false_2.
  - intros p -> Hs available_slots Hn. rewrite bool_decide_eq_true_2 by done.
    cbn zeta. fold available_slots.
    destruct (available_slots <? _) eqn:E; [done|].
    apply Z.ltb_ge in E. lia.
Qed.

Lemma create_booking_rejections_witness :
  run (create_booking (Example.book 11) Example.alice) Example.fresh
  = (inl (InsufficientCapacity (10 - 0)), Example.fresh).
Proof.
  assert (H1 : ObjectId_of_str Example.alice = Some Example.alice_oid)
    by (vm_compute; reflexivity).
  assert (H2 : ObjectId_of_str (BookingCreate.tour_package_id (Example.book 11))
               = Some Example.package_oid) by (vm_compute; reflexivity).
  destruct (create_booking_rejections (Example.book 11) Example.alice
              Example.fresh _ _ H1 H2) as (_ & _ & H).
  apply (H (Example.package 100 10 0)).
  - vm_compute; reflexivity.
  - reflexivity.
  - reflexivity.
Defined.

Lemma create_booking_failed booking tourist_id w e w' :
  run (create_booking booking tourist_id) w = (inl e, w') →
  tour_packages w' = tour_packages w
  ∧ bookings w' = bookings w
  ∧ ratings w' = ratings w
  ∧ (e ≠ DuplicateKeyError → w' = w).
Proof.
  rewrite run_create_booking.
  destruct (ObjectId_of_str tourist_id); [|by intros [= <- <-]].
  destruct (ObjectId_of_str _); [|by intros [= <- <-]].
  destruct (tour_packages w !! _); [|by intros [= <- <-]].
  case_bool_decide; [|by intros [= <- <-]]. cbn zeta.
  destruct (_ <? _); [by intros [= <- <-]|].
  destruct (insert_one _ _ _); [done|]. by intros [= <- <-].
Qed.

(** X2.  A [create_booking] that raises has written nothing: the three
    collections are as before, and the whole world is, unless the failure
    is the duplicate key of the insertion (which still has drawn an
    identifier and a reference). *)
Theorem create_booking_failure_keeps_collections booking tourist_id w e w' :
  run (create_booking booking tourist_id) w = (inl e, w') →
  tour_packages w' = tour_packages w
  ∧ bookings w' = bookings w
  ∧ ratings w' = ratings w
  ∧ (e ≠ DuplicateKeyError → w' = w).
Proof. apply create_booking_failed. Qed.

Lemma create_booking_failure_keeps_collections_witness :
  run (create_booking (Example.book 11) Example.alice) Example.fresh
  = (inl (InsufficientCapacity 10), Example.fresh)
  ∧ bookings Example.fresh = bookings Example.fresh.
Proof.
  assert (H : run (create_booking (Example.book 11) Example.alice) Example.fresh
              = (inl (InsufficientCapacity 10), Example.fresh))
    by (vm_compute; reflexivity).
  split; [exact H|].
  exact (proj1 (proj2 (create_booking_failure_keeps_collections _ _ _ _ _ H))).
Defined.

Lemma create_booking_ratings booking tourist_id w :
  ratings (run (create_booking booking tourist_id) w).2 = ratings w.
Proof.
  rewrite run_create_booking.
  destruct (ObjectId_of_str tourist_id); [|done].
  destruct (ObjectId_of_str _); [|done].
  destruct (tour_packages w !! _); [|done].
  case_bool_decide; [|done]. cbn zeta. destruct (_ <? _); [done|].
  by destruct (insert_one _ _ _).
Qed.

(** X3.  A [create_booking] that returns has raised the counter of its
    package by exactly [number_of_people], to at most [max_participants],
    has left every other package and the ratings alone, and returns a
    booking in status [pending]. *)
Theorem create_booking_stays_within_capacity booking tourist_id w r w' :
  run (create_booking booking tourist_id) w = (inr r, w') →
  ∃ i p p',
    ObjectId_of_str (BookingCreate.tour_package_id booking) = Some i
    ∧ tour_packages w !! i = Some p
    ∧ tour_packages w' !! i = Some p'
    ∧ TourPackage.current_participants p'
      = TourPackage.current_participants p
        + BookingCreate.number_of_people booking
    ∧ TourPackage.current_participants p' ≤ TourPackage.max_participants p'
    ∧ TourPackage.max_participants p' = TourPackage.max_participants p
    ∧ (∀ j, j ≠ i → tour_packages w' !! j = tour_packages w !! j)
    ∧ ratings w' = ratings w
    ∧ (BookingInDB.status <$> r) = Some PENDING.
Proof.
  intros Hrun.
  assert (Hr : ratings w' = ratings w).
  { pose proof (create_booking_ratings booking tourist_id w) as H.
    by rewrite Hrun in H. }
  apply create_booking_succeeded in Hrun
    as (t & i & p & _ & Hi & Hp & _ & Hn & Hres & _ & Htp).
  exists i, p, (TourPackage.inc_current_participants
                  (BookingCreate.number_of_people booking) p).
  rewrite Htp. split_and!; try done.
  - by rewrite lookup_alter_eq, Hp.
  - cbn. lia.
  - intros j Hj. by rewrite lookup_alter_ne.
  - by rewrite Hres.
Qed.

Lemma create_booking_stays_within_capacity_witness :
  run (create_booking (Example.book 4) Example.alice) Example.fresh
  = (inr (Some (BookingInDB.build 1%N Example.first_booking)), Example.booked)
  ∧ ∃ i p p',
      tour_packages Example.fresh !! i = Some p
      ∧ tour_packages Example.booked !! i = Some p'
      ∧ TourPackage.current_participants p'
        = TourPackage.current_participants p + 4.
Proof.
  assert (H : run (create_booking (Example.book 4) Example.alice) Example.fresh
              = (inr (Some (BookingInDB.build 1%N Example.first_booking)),
                 Example.booked)) by (vm_compute; reflexivity).
  split; [exact H|].
  destruct (create_booking_stays_within_capacity _ _ _ _ _ H)
    as (i & p & p' & _ & Hp & Hp' & Hc & _).
  exists i, p, p'. split_and!; [exact Hp|exact Hp'|exact Hc].
Defined.

(** X4.  [create_booking] does not check that [number_of_people] is
    positive: on an active package whose counter is within its ceiling,
    a request for zero or a negative number of people that BSON can store
    (it and the counter it leads to fit 8 bytes) passes the availability
    check, is stored as asked, and moves the counter by that number. *)
Theorem create_booking_accepts_nonpositive booking tourist_id w t i p :
  ObjectId_of_str tourist_id = Some t →
  ObjectId_of_str (BookingCreate.tour_package_id booking) = Some i →
  tour_packages w !! i = Some p →
  TourPackage.status p = ACTIVE →
  TourPackage.current_participants p ≤ TourPackage.max_participants p →
  find_one (by_id (next_oid w)) (bookings w) = None →
  BookingCreate.number_of_people booking ≤ 0 →
  int64 (BookingCreate.number_of_people booking) →
  int64 (TourPackage.current_participants p
         + BookingCreate.number_of_people booking) →
  let outcome := run (create_booking booking tourist_id) w in
  succeeded outcome.1 = true
  ∧ TourPackage.current_participants <$> tour_packages outcome.2 !! i
    = Some (TourPackage.current_participants p
            + BookingCreate.number_of_people booking)
  ∧ ∃ d, bookings outcome.2 = bookings w ++ [d]
         ∧ Booking.number_of_people d.2 = BookingCreate.number_of_people booking.
Proof.
  intros Ht Hi Hp Hs Hinv Hfresh Hn _ _ outcome. subst outcome.
  rewrite run_create_booking, Ht, Hi, Hp.
  rewrite bool_decide_eq_true_2 by done. cbn zeta.
  destruct (_ <? _) eqn:E; [apply Z.ltb_lt in E; lia|].
  unfold insert_one. rewrite Hfresh. cbn [fst snd tour_packages bookings].
  split_and!; [done| |by eexists].
  by rewrite lookup_alter_eq, Hp.
Qed.

Lemma create_booking_accepts_nonpositive_witness :
  let outcome :=
    run (create_booking (Example.book (-2)) Example.alice) Example.fresh in
  succeeded outcome.1 = true
  ∧ TourPackage.current_participants
      <$> tour_packages outcome.2 !! Example.package_oid
    = Some (0 + -2).
Proof.
  intros outcome.
  assert (H1 : ObjectId_of_str Example.alice = Some Example.alice_oid)
    by (vm_compute; reflexivity).
  assert (H2 : ObjectId_of_str
                 (BookingCreate.tour_package_id (Example.book (-2)))
               = Some Example.package_oid) by (vm_compute; reflexivity).
  assert (H3 : tour_packages Example.fresh !! Example.package_oid
               = Some (Example.package 100 10 0)) by (vm_compute; reflexivity).
  assert (H4 : TourPackage.status (Example.package 100 10 0) = ACTIVE)
    by reflexivity.
  assert (H5 : TourPackage.current_participants (Example.package 100 10 0)
               ≤ TourPackage.max_participants (Example.package 100 10 0))
    by (vm_compute; discriminate).
  assert (H6 : find_one (by_id (next_oid Example.fresh))
                 (bookings Example.fresh) = None) by reflexivity.
  assert (H7 : BookingCreate.number_of_people (Example.book (-2)) ≤ 0)
    by (vm_compute; discriminate).
  assert (H8 : int64 (BookingCreate.number_of_people (Example.book (-2))))
    by (split; vm_compute; [discriminate|reflexivity]).
  assert (H9 : int64 (TourPackage.current_participants
                        (Example.package 100 10 0)
                      + BookingCreate.number_of_people (Example.book (-2))))
    by (split; vm_compute; [discriminate|reflexivity]).
  destruct (create_booking_accepts_nonpositive _ _ _ _ _ _
              H1 H2 H3 H4 H5 H6 H7 H8 H9) as (Ha & Hb & _).
  split; [exact Ha|exact Hb].
Defined.

(** ** Identifiers as strings *)

Lemma hex_value_hex_char d : (d < 16)%N → hex_value (hex_char d) = Some d.
Proof.
  intros Hd. destruct d as [|q]; [done|].
  do 4 (destruct q as [q|q|]; try done); lia.
Qed.

Lemma tohex_length k v acc :
  String.length (tohex k v acc) = (k + String.length acc)%nat.
Proof.
  revert v acc. induction k as [|k IH]; intros v acc; [done|].
  cbn [tohex]. rewrite IH. cbn. lia.
Qed.

Lemma fromhex_tohex k v acc a :
  fromhex (tohex k v acc) a
  = fromhex acc (a * 16 ^ N.of_nat k + v mod 16 ^ N.of_nat k)%N.
Proof.
  revert v acc a. induction k as [|k IH]; intros v acc a.
  - cbn [tohex]. f_equal. change (16 ^ N.of_nat 0)%N with 1%N.
    rewrite N.mod_1_r. lia.
  - cbn [tohex]. rewrite IH. cbn [fromhex].
    rewrite hex_value_hex_char by (apply N.mod_lt; lia).
    f_equal. rewrite Nat2N.inj_succ, N.pow_succ_r'.
    rewrite (N.Div0.mod_mul_r v 16 (16 ^ N.of_nat k)). lia.
Qed.

(** [ObjectId(str(oid)) == oid] *)
Lemma ObjectId_of_str_str o :
  (o < 2 ^ 96)%N → ObjectId_of_str (ObjectId_str o) = Some o.
Proof.
  intros Ho. unfold ObjectId_of_str, ObjectId_str.
  rewrite tohex_length. cbn [String.length Nat.add Nat.eqb].
  rewrite fromhex_tohex. cbn [fromhex]. f_equal.
  change (16 ^ N.of_nat 24)%N with (2 ^ 96)%N.
  rewrite N.mod_small by done. lia.
Qed.

(** What [ObjectId(s)] refuses for its length or for a character that is
    neither digit nor blank, [ObjectId_of_str] refuses. *)
Lemma has_stray_character_fromhex s acc :
  has_stray_character s = true → fromhex s acc = None.
Proof.
  revert acc. induction s as [|c s IH]; intros acc; [done|].
  cbn [has_stray_character fromhex]. intros [H|H]%orb_true_iff.
  - apply andb_true_iff in H as [H _]. apply bool_decide_eq_true_1 in H.
    by rewrite H.
  - destruct (hex_value c); [by apply IH|done].
Qed.

Lemma not_an_ObjectId_refused s :
  not_an_ObjectId s → ObjectId_of_str s = None.
Proof.
  unfold ObjectId_of_str. intros [H|H].
  - by apply Nat.eqb_neq in H as ->.
  - rewrite (has_stray_character_fromhex _ _ H). by destruct (Nat.eqb _ _).
Qed.

(** ** Reading a booking back *)

Lemma run_get_booking booking_id w :
  get_booking booking_id w
  = match ObjectId_of_str booking_id with
    | None => (inl InvalidId, w)
    | Some i =>
        match find_one (by_id i) (bookings w) with
        | None => (inl NotFound_booking, w)
        | Some d => (inr (Some (BookingInDB.build d.1 d.2)), w)
        end
    end.
Proof.
  unfold get_booking. destruct (ObjectId_of_str booking_id) as [i|]; [|done].
  unfold bind. cbn [exec].
  by destruct (find_one (by_id i) (bookings w)) as [[]|].
Qed.

(** X5.  [get_booking] never changes the world.  An identifier that is not
    24 characters long, or that holds a character that is neither a
    hexadecimal digit nor a blank, raises [InvalidId] as it is (no HTTP
    error is made of it), an identifier no booking has gives [NotFound],
    and a result is always a stored booking with that identifier. *)
Theorem get_booking_answers booking_id w :
  (get_booking booking_id w).2 = w
  ∧ (not_an_ObjectId booking_id →
     (get_booking booking_id w).1 = inl InvalidId)
  ∧ (∀ i, ObjectId_of_str booking_id = Some i →
          (∀ d, d ∈ bookings w → d.1 ≠ i) →
          (get_booking booking_id w).1 = inl NotFound_booking)
  ∧ (∀ r, (get_booking booking_id w).1 = inr r →
          ∃ i d, ObjectId_of_str booking_id = Some i
                 ∧ d ∈ bookings w ∧ d.1 = i
                 ∧ r = Some (BookingInDB.build i d.2)).
Proof.
  rewrite run_get_booking. split_and!.
  - destruct (ObjectId_of_str booking_id); [|done].
    by destruct (find_one _ _).
  - by intros ->%not_an_ObjectId_refused.
  - intros i -> Hnone.
    destruct (find_one (by_id i) (bookings w)) as [d|] eqn:Hf; [|done].
    pose proof (find_one_by_id_fst _ _ _ Hf).
    apply find_one_elem_of in Hf as [Hin _]. by destruct (Hnone d Hin).
  - intros r. destruct (ObjectId_of_str booking_id) as [i|]; [|done].
    destruct (find_one (by_id i) (bookings w)) as [d|] eqn:Hf; [|done].
    pose proof (find_one_by_id_fst _ _ _ Hf) as Hd.
    apply find_one_elem_of in Hf as [Hin _].
    cbn. intros [= <-]. exists i, d. by rewrite Hd.
Qed.

Lemma get_booking_answers_witness :
  (get_booking "no such id" Example.booked).1 = inl InvalidId
  ∧ (get_booking Sample.not_hexadecimal Example.booked).1 = inl InvalidId
  ∧ (get_booking Sample.missing_id Example.booked).1 = inl NotFound_booking.
Proof.
  split_and!.
  - apply (get_booking_answers "no such id" Example.booked).
    left. vm_compute. discriminate.
  - apply (get_booking_answers Sample.not_hexadecimal Example.booked).
    right. vm_compute. reflexivity.
  - destruct (get_booking_answers Sample.missing_id Example.booked)
      as (_ & _ & H & _).
    apply (H 99%N); [vm_compute; reflexivity|].
    assert (Hb : bookings Example.booked = [(1%N, Example.first_booking)])
      by (vm_compute; reflexivity).
    rewrite Hb. intros d Hd%list_elem_of_singleton. subst d. discriminate.
Defined.

(** X6.  Round trip: the [id] that [create_booking] returns, given to
    [get_booking], gives back the very booking that was returned. *)
Theorem get_booking_after_create_booking booking tourist_id w r w' :
  run (create_booking booking tourist_id) w = (inr (Some r), w') →
  twelve_bytes (next_oid w) →
  get_booking (BookingInDB.id r) w' = (inr (Some r), w').
Proof.
  intros Hrun Hfit. rewrite run_get_booking.
  assert (Hfind : ∃ b, r = BookingInDB.build (next_oid w) b
                       ∧ find_one (by_id (next_oid w)) (bookings w')
                         = Some (next_oid w, b)).
  { revert Hrun. rewrite run_create_booking.
    destruct (ObjectId_of_str tourist_id); [|done].
    destruct (ObjectId_of_str _); [|done].
    destruct (tour_packages w !! _); [|done].
    case_bool_decide; [|done]. cbn zeta. destruct (_ <? _); [done|].
    destruct (insert_one _ _ _) as [c|] eqn:Hins; [|done].
    apply find_one_insert_one in Hins as (_ & _ & Hf).
    intros H'. injection H' as <- <-. by eexists. }
  destruct Hfind as (b & -> & Hf).
  cbn [BookingInDB.id BookingInDB.build].
  by rewrite (ObjectId_of_str_str _ Hfit), Hf.
Qed.

Lemma get_booking_after_create_booking_witness :
  twelve_bytes (next_oid Example.fresh)
  ∧ get_booking Example.first_id Example.booked
    = (inr (Some (BookingInDB.build 1%N Example.first_booking)),
       Example.booked).
Proof.
  assert (H : run (create_booking (Example.book 4) Example.alice) Example.fresh
              = (inr (Some (BookingInDB.build 1%N Example.first_booking)),
                 Example.booked)) by (vm_compute; reflexivity).
  assert (H2 : twelve_bytes (next_oid Example.fresh)) by reflexivity.
  split; [exact H2|].
  exact (get_booking_after_create_booking _ _ _ _ _ H H2).
Defined.

(** ** What requests do to the stored bookings *)

Lemma advances_trans b1 b2 b3 : advances b1 b2 → advances b2 b3 → advances b1 b3.
Proof.
  induction 1 as [|b s b' Hs _ IH]; [done|].
  intros H3. eapply advances_step; [done|]. by apply IH.
Qed.

Lemma advances_one b s :
  s ∈ valid_transitions (Booking.status b) → advances b (Booking.set_status s b).
Proof. intros Hs. eapply advances_step; [done|]. constructor. Qed.

Lemma advances_fields b b' :
  advances b b' →
  Booking.tour_package_id b' = Booking.tour_package_id b
  ∧ Booking.tourist_id b' = Booking.tourist_id b
  ∧ Booking.number_of_people b' = Booking.number_of_people b
  ∧ Booking.total_price b' = Booking.total_price b
  ∧ Booking.booking_reference b' = Booking.booking_reference b.
Proof. induction 1 as [|b s b' _ _ IH]; [done|]. apply IH. Qed.

Lemma advances_terminal b b' :
  advances b b' →
  Booking.status b = CANCELLED ∨ Booking.status b = COMPLETED →
  b' = b.
Proof.
  destruct 1 as [|b s b' Hs _]; [done|].
  intros [E|E]; rewrite E in Hs; by apply elem_of_nil in Hs.
Qed.

Lemma update_one_lookup i s (c : list (ObjectId * Booking.doc)) d k :
  find_one (by_id i) c = Some d →
  s ∈ valid_transitions (Booking.status d.2) →
  ∀ x, c !! k = Some x →
       ∃ b', update_one (by_id i) (Booking.set_status s) c !! k = Some (x.1, b')
             ∧ advances x.2 b'.
Proof.
  intros Hf Hs. revert k. unfold find_one in Hf.
  induction c as [|y c IH]; intros k x Hx; [done|].
  cbn [List.find update_one] in *. destruct (by_id i y) eqn:Hy.
  - injection Hf as ->. destruct k as [|k]; cbn in *.
    + injection Hx as <-. eexists. split; [done|]. by apply advances_one.
    + exists x.2. split; [by destruct x|constructor].
  - destruct k as [|k]; cbn in *.
    + injection Hx as <-. exists y.2. split; [by destruct y|constructor].
    + by apply IH.
Qed.

Lemma serve_advances r w k d :
  bookings w !! k = Some d →
  ∃ b', bookings (serve r w) !! k = Some (d.1, b') ∧ advances d.2 b'.
Proof.
  intros Hk.
  assert (Hsame : ∀ w', bookings w' = bookings w →
            ∃ b', bookings w' !! k = Some (d.1, b') ∧ advances d.2 b').
  { intros w' ->. exists d.2. split; [by destruct d|constructor]. }
  destruct r as [booking t|booking_id s|package_id u|rating]; cbn [serve].
  - destruct (run (create_booking booking t) w) as [[e|r] w'] eqn:Hrun.
    + apply create_booking_failed in Hrun as (_ & Hb & _).
      by apply Hsame.
    + apply create_booking_succeeded in Hrun
        as (? & ? & ? & _ & _ & _ & _ & _ & _ & Hb & _).
      cbn [snd]. rewrite Hb, lookup_app_l by (by eapply lookup_lt_Some).
      exists d.2. split; [by destruct d|constructor].
  - rewrite run_update_booking_status.
    destruct (ObjectId_of_str booking_id) as [i|]; [|by apply Hsame].
    destruct (find_one _ _) as [[i' b]|] eqn:Hf; [|by apply Hsame].
    case_bool_decide as Hv; [|by apply Hsame]. cbn zeta.
    pose proof (update_one_lookup i s _ _ k Hf Hv d Hk) as Hup.
    destruct (bool_decide _); [destruct (package_of _)|]; exact Hup.
  - apply Hsame. rewrite run_update_tour_package.
    destruct (TourPackageUpdate.is_empty u); [done|].
    destruct (ObjectId_of_str package_id); [|done]. cbn zeta.
    destruct (tour_packages w !! _); [|done].
    by destruct (TourPackage.eqb _ _).
  - apply Hsame. apply create_rating_bookings.
Qed.

Lemma serve_all_advances rs w k d :
  bookings w !! k = Some d →
  ∃ b', bookings (serve_all rs w) !! k = Some (d.1, b') ∧ advances d.2 b'.
Proof.
  revert w d. induction rs as [|r rs IH]; intros w d Hk.
  - exists d.2. split; [by destruct d|constructor].
  - cbn. destruct (serve_advances r w k d Hk) as (b1 & Hk1 & H1).
    destruct (IH _ _ Hk1) as (b2 & Hk2 & H2).
    exists b2. split; [done|]. by eapply advances_trans.
Qed.

(** X7.  No request removes or reorders a booking: after any sequence of
    requests a stored booking is still at its place, under its [_id], with
    its package, tourist, number of people and reference, and its status
    is the old one moved along the transition table some number of
    times. *)
Theorem bookings_are_kept_and_only_advance rs w k d :
  bookings w !! k = Some d →
  ∃ b',
    bookings (serve_all rs w) !! k = Some (d.1, b')
    ∧ advances d.2 b'
    ∧ Booking.tour_package_id b' = Booking.tour_package_id d.2
    ∧ Booking.tourist_id b' = Booking.tourist_id d.2
    ∧ Booking.number_of_people b' = Booking.number_of_people d.2
    ∧ Booking.booking_reference b' = Booking.booking_reference d.2.
Proof.
  intros Hk. destruct (serve_all_advances rs w k d Hk) as (b' & Hk' & Ha).
  exists b'. destruct (advances_fields _ _ Ha) as (? & ? & ? & ? & ?).
  by split_and!.
Qed.

Lemma bookings_are_kept_and_only_advance_witness :
  let rs := [UpdateBookingStatus Example.first_id CONFIRMED;
             UpdateTourPackage Example.package_id (Example.set_price 250);
             UpdateBookingStatus Example.first_id COMPLETED] in
  bookings Example.booked !! 0%nat = Some (1%N, Example.first_booking)
  ∧ ∃ b',
      bookings (serve_all rs Example.booked) !! 0%nat = Some (1%N, b')
      ∧ advances Example.first_booking b'.
Proof.
  intros rs.
  assert (H : bookings Example.booked !! 0%nat
              = Some (1%N, Example.first_booking)) by (vm_compute; reflexivity).
  split; [exact H|].
  destruct (bookings_are_kept_and_only_advance rs _ _ _ H)
    as (b' & Hk & Ha & _).
  exists b'. split; [exact Hk|exact Ha].
Defined.

(** X8.  A booking that is [cancelled] or [completed] is never changed again,
    whatever requests follow. *)
Theorem terminal_status_is_final rs w k d :
  bookings w !! k = Some d →
  Booking.status d.2 = CANCELLED ∨ Booking.status d.2 = COMPLETED →
  bookings (serve_all rs w) !! k = Some d.
Proof.
  intros Hk Hterm. destruct (serve_all_advances rs w k d Hk) as (b' & Hk' & Ha).
  rewrite Hk', (advances_terminal _ _ Ha Hterm). by destruct d.
Qed.

Lemma terminal_status_is_final_witness :
  let rs := [UpdateBookingStatus Example.first_id CONFIRMED;
             UpdateBookingStatus Example.first_id COMPLETED;
             UpdateBookingStatus Example.first_id CANCELLED] in
  let d := (1%N, Booking.set_status CANCELLED Example.first_booking) in
  bookings Sample.cancelled !! 0%nat = Some d
  ∧ bookings (serve_all rs Sample.cancelled) !! 0%nat = Some d.
Proof.
  intros rs d.
  assert (H : bookings Sample.cancelled !! 0%nat = Some d)
    by (vm_compute; reflexivity).
  split; [exact H|].
  apply (terminal_status_is_final rs _ _ _ H). left. reflexivity.
Defined.

(** ** Listing a tourist's bookings *)

Lemma run_list_user_bookings user_id status w :
  list_user_bookings user_id status w
  = match ObjectId_of_str user_id with
    | None => (inl AttributeError, w)
    | Some t =>
        (inr ((λ d, BookingInDB.build d.1 d.2)
                <$> List.filter (user_bookings_query t status) (bookings w)),
         w)
    end.
Proof.
  unfold list_user_bookings. by destruct (ObjectId_of_str user_id).
Qed.

(** X9.  A booking made by [create_booking] is listed by [list_user_bookings]
    for the same tourist identifier after any later sequence of requests,
    with the same [id], number of people, total price and reference. *)
Theorem created_booking_stays_listed booking tourist_id w r w' rs :
  run (create_booking booking tourist_id) w = (inr (Some r), w') →
  ∃ l r',
    list_user_bookings tourist_id None (serve_all rs w')
    = (inr l, serve_all rs w')
    ∧ r' ∈ l
    ∧ BookingInDB.id r' = BookingInDB.id r
    ∧ BookingInDB.tourist_id r' = BookingInDB.tourist_id r
    ∧ BookingInDB.number_of_people r' = BookingInDB.number_of_people r
    ∧ BookingInDB.total_price r' = BookingInDB.total_price r
    ∧ BookingInDB.booking_reference r' = BookingInDB.booking_reference r.
Proof.
  intros (t & i & p & Ht & _ & _ & _ & _ & Hr & Hb & _)%create_booking_succeeded.
  cbn zeta in Hr, Hb. set (b := new_booking _ _ _ _ _) in *.
  injection Hr as ->.
  assert (Hk : bookings w' !! length (bookings w) = Some (next_oid w, b)).
  { rewrite Hb. by apply list_lookup_middle. }
  destruct (serve_all_advances rs w' _ _ Hk) as (b' & Hk' & Ha).
  destruct (advances_fields _ _ Ha) as (H1 & H2 & H3 & H4 & H5).
  rewrite run_list_user_bookings, Ht.
  eexists _, (BookingInDB.build (next_oid w) b'). split; [done|].
  split_and!.
  - apply (list_elem_of_fmap_2 (λ d, BookingInDB.build d.1 d.2) _ (next_oid w, b')).
    apply list_elem_of_In, filter_In. split.
    + apply list_elem_of_In. by eapply list_elem_of_lookup_2.
    + unfold user_bookings_query. cbn [snd]. rewrite H2.
      cbn. by rewrite bool_decide_eq_true_2.
  - done.
  - cbn. by rewrite H2.
  - cbn. by rewrite H3.
  - cbn. by rewrite H4.
  - cbn. by rewrite H5.
Qed.

Lemma created_booking_stays_listed_witness :
  let rs := [UpdateBookingStatus Example.first_id CONFIRMED;
             CreateBooking (Example.book 2) Example.bob] in
  ∃ l r',
    list_user_bookings Example.alice None (serve_all rs Example.booked)
    = (inr l, serve_all rs Example.booked)
    ∧ r' ∈ l
    ∧ BookingInDB.id r' = Example.first_id.
Proof.
  intros rs.
  assert (H : run (create_booking (Example.book 4) Example.alice) Example.fresh
              = (inr (Some (BookingInDB.build 1%N Example.first_booking)),
                 Example.booked)) by (vm_compute; reflexivity).
  destruct (created_booking_stays_listed _ _ _ _ _ rs H)
    as (l & r' & Hl & Hin & Hid & _).
  exists l, r'. split_and!; [exact Hl|exact Hin|exact Hid].
Defined.

(** X29.  [list_user_bookings] never changes the world and never answers
    with an HTTP error.  On a user identifier that is not 24 characters
    long, or that holds a character that is neither a hexadecimal digit nor
    a blank, the handler that was to answer 400 "Invalid user identifier"
    raises [AttributeError] instead.  On an identifier that parses, the
    result holds exactly the stored bookings that have this ObjectId as
    their tourist, and the status asked for when one is asked for. *)
Theorem list_user_bookings_answers user_id status w :
  let outcome := list_user_bookings user_id status w in
  outcome.2 = w
  ∧ (∀ status_code detail,
       outcome.1 ≠ inl (HTTPException status_code detail))
  ∧ (not_an_ObjectId user_id → outcome.1 = inl AttributeError)
  ∧ (∀ t, ObjectId_of_str user_id = Some t →
          ∃ l, outcome.1 = inr l
               ∧ ∀ r, r ∈ l
                      ↔ ∃ d, d ∈ bookings w
                             ∧ Booking.tourist_id d.2 = IdOid t
                             ∧ (∀ s, status = Some s → Booking.status d.2 = s)
                             ∧ r = BookingInDB.build d.1 d.2).
Proof.
  intros outcome. subst outcome. rewrite run_list_user_bookings. split_and!.
  - by destruct (ObjectId_of_str user_id).
  - intros status_code detail. by destruct (ObjectId_of_str user_id).
  - by intros ->%not_an_ObjectId_refused.
  - intros t ->. eexists. split; [done|]. intros r.
    rewrite list_elem_of_fmap. split.
    + intros (d & -> & Hd). apply list_elem_of_In, filter_In in Hd as [Hd Hq].
      apply list_elem_of_In in Hd. exists d. split_and!; [done| | |done].
      * unfold user_bookings_query in Hq.
        apply andb_true_iff in Hq as [Hq _]. by apply bool_decide_eq_true_1 in Hq.
      * intros s ->. unfold user_bookings_query in Hq.
        apply andb_true_iff in Hq as [_ Hq]. by apply bool_decide_eq_true_1 in Hq.
    + intros (d & Hd & Ht & Hs & ->). exists d. split; [done|].
      apply list_elem_of_In, filter_In. split; [by apply list_elem_of_In|].
      unfold user_bookings_query. rewrite bool_decide_eq_true_2 by done.
      destruct status as [s|]; [|done].
      by rewrite bool_decide_eq_true_2 by (by apply Hs).
Qed.

Lemma list_user_bookings_answers_witness :
  (list_user_bookings "no such id" None Example.booked).1 = inl AttributeError
  ∧ (list_user_bookings Sample.not_hexadecimal (Some PENDING)
       Example.booked).1 = inl AttributeError
  ∧ ∃ l, (list_user_bookings Example.alice (Some PENDING) Example.booked).1
         = inr l
         ∧ BookingInDB.build 1%N Example.first_booking ∈ l.
Proof.
  split_and!.
  - apply (list_user_bookings_answers "no such id" None Example.booked).
    left. vm_compute. discriminate.
  - apply (list_user_bookings_answers Sample.not_hexadecimal (Some PENDING)
             Example.booked).
    right. vm_compute. reflexivity.
  - destruct (list_user_bookings_answers Example.alice (Some PENDING)
                Example.booked) as (_ & _ & _ & H).
    destruct (H Example.alice_oid) as (l & Hl & Hin);
      [vm_compute; reflexivity|].
    exists l. split; [exact Hl|]. apply Hin.
    exists (1%N, Example.first_booking).
    assert (Hb : bookings Example.booked = [(1%N, Example.first_booking)])
      by (vm_compute; reflexivity).
    rewrite Hb. split_and!; [left|reflexivity| |reflexivity].
    intros s [= <-]. reflexivity.
Defined.

(** ** Status changes that are refused at once *)

(** X10.  [update_booking_status] fails with its 400 on a booking identifier
    that is not 24 characters long or that holds a character that is
    neither a hexadecimal digit nor a blank, and with [NotFound] on an
    identifier no booking has; the world is left as it was. *)
Theorem update_booking_status_unknown_booking booking_id new_status w :
  (not_an_ObjectId booking_id →
   run (update_booking_status booking_id new_status) w
   = (inl (HTTPException HTTP_400_BAD_REQUEST "Invalid booking identifier"),
      w))
  ∧ (∀ i, ObjectId_of_str booking_id = Some i →
          (∀ d, d ∈ bookings w → d.1 ≠ i) →
          run (update_booking_status booking_id new_status) w
          = (inl NotFound_booking, w)).
Proof.
  rewrite run_update_booking_status. split.
  - by intros ->%not_an_ObjectId_refused.
  - intros i -> Hnone.
    destruct (find_one (by_id i) (bookings w)) as [d|] eqn:Hf; [|done].
    pose proof (find_one_by_id_fst _ _ _ Hf).
    apply find_one_elem_of in Hf as [Hin _]. by destruct (Hnone d Hin).
Qed.

Lemma update_booking_status_unknown_booking_witness :
  run (update_booking_status "no such id" CANCELLED) Example.booked
  = (inl (HTTPException HTTP_400_BAD_REQUEST "Invalid booking identifier"),
     Example.booked)
  ∧ run (update_booking_status Sample.missing_id CANCELLED) Example.booked
    = (inl NotFound_booking, Example.booked).
Proof.
  split.
  - apply (update_booking_status_unknown_booking "no such id").
    left. vm_compute. discriminate.
  - apply (proj2 (update_booking_status_unknown_booking Sample.missing_id
                    CANCELLED Example.booked) 99%N);
      [vm_compute; reflexivity|].
    assert (Hb : bookings Example.booked = [(1%N, Example.first_booking)])
      by (vm_compute; reflexivity).
    rewrite Hb. intros d Hd%list_elem_of_singleton. subst d. discriminate.
Defined.

(** ** Package updates *)

Lemma TourPackage_eqb_refl p : TourPackage.eqb p p = true.
Proof.
  unfold TourPackage.eqb.
  rewrite !bool_decide_eq_true_2 by done.
  by rewrite !(proj2 (Qeq_bool_iff _ _) (Qeq_refl _)).
Qed.

Lemma TourPackageUpdate_apply_twice u p :
  TourPackageUpdate.apply u (TourPackageUpdate.apply u p)
  = TourPackageUpdate.apply u p.
Proof.
  unfold TourPackageUpdate.apply. cbn.
  by destruct (TourPackageUpdate.name u), (TourPackageUpdate.price u),
       (TourPackageUpdate.max_participants u),
       (TourPackageUpdate.current_participants u),
       (TourPackageUpdate.status u), (TourPackageUpdate.average_rating u),
       (TourPackageUpdate.total_ratings u).
Qed.

Lemma update_tour_package_ratings package_id u w :
  ratings (run (update_tour_package package_id u) w).2 = ratings w.
Proof.
  rewrite run_update_tour_package.
  destruct (TourPackageUpdate.is_empty u); [done|].
  destruct (ObjectId_of_str package_id); [|done]. cbn zeta.
  destruct (tour_packages w !! _); [|done].
  by destruct (TourPackage.eqb _ _).
Qed.

(** X11.  An update that changes nothing counts as a failure: right after a
    successful [update_tour_package], the same update again is answered
    with the 404 "not found or no changes made", and changes nothing. *)
Theorem update_tour_package_twice package_id u w r w' :
  run (update_tour_package package_id u) w = (inr r, w') →
  run (update_tour_package package_id u) w'
  = (inl (HTTPException HTTP_404_NOT_FOUND
            "Tour package not found or no changes made"), w').
Proof.
  rewrite !run_update_tour_package.
  destruct (TourPackageUpdate.is_empty u); [done|].
  destruct (ObjectId_of_str package_id) as [i|]; [|done]. cbn zeta.
  destruct (tour_packages w !! i) as [p|]; [|done].
  destruct (TourPackage.eqb _ _); [done|].
  intros [= _ <-]. cbn [with_tour_packages tour_packages].
  rewrite lookup_insert_eq, TourPackageUpdate_apply_twice.
  by rewrite TourPackage_eqb_refl.
Qed.

Lemma update_tour_package_twice_witness :
  let w' := serve (UpdateTourPackage Example.package_id (Example.set_price 250))
              Example.fresh in
  succeeded (run (update_tour_package Example.package_id
                    (Example.set_price 250)) Example.fresh).1 = true
  ∧ run (update_tour_package Example.package_id (Example.set_price 250)) w'
    = (inl (HTTPException HTTP_404_NOT_FOUND
              "Tour package not found or no changes made"), w').
Proof.
  intros w'.
  assert (H : run (update_tour_package Example.package_id
                     (Example.set_price 250)) Example.fresh
              = (inr (Some (ObjectId_str Example.package_oid,
                            Example.package 250 10 0)), w'))
    by (vm_compute; reflexivity).
  split; [by rewrite H|].
  exact (update_tour_package_twice _ _ _ _ _ H).
Defined.



(** X13.  Once an update has asked for the status [inactive] on a stored
    package (whether it was a change or not), [create_booking] for that
    package fails with [PackageInactive]. *)
Theorem deactivated_package_takes_no_booking package_id u w i p booking t :
  ObjectId_of_str package_id = Some i →
  tour_packages w !! i = Some p →
  TourPackageUpdate.status u = Some INACTIVE →
  BookingCreate.tour_package_id booking = package_id →
  is_Some (ObjectId_of_str t) →
  let w' := (run (update_tour_package package_id u) w).2 in
  run (create_booking booking t) w' = (inl PackageInactive, w').
Proof.
  intros Hi Hp Hu Hb [o Ho] w'.
  assert (Hp' : ∃ p', tour_packages w' !! i = Some p'
                      ∧ TourPackage.status p' = INACTIVE).
  { subst w'. rewrite run_update_tour_package, Hi.
    destruct (TourPackageUpdate.is_empty u) eqn:He.
    { unfold TourPackageUpdate.is_empty in He. rewrite Hu in He.
      by destruct (TourPackageUpdate.name u), (TourPackageUpdate.price u),
           (TourPackageUpdate.max_participants u),
           (TourPackageUpdate.current_participants u). }
    cbn zeta. rewrite Hp.
    destruct (TourPackage.eqb _ _) eqn:Heq.
    - exists p. split; [done|]. unfold TourPackage.eqb in Heq.
      rewrite !andb_true_iff in Heq.
      destruct Heq as [[[[_ Hst] _] _] _].
      apply bool_decide_eq_true in Hst. rewrite Hst. cbn. by rewrite Hu.
    - cbn [snd with_tour_packages tour_packages]. rewrite lookup_insert_eq.
      eexists. split; [done|]. cbn. by rewrite Hu. }
  destruct Hp' as (p' & Hp' & Hs).
  rewrite run_create_booking, Ho, Hb, Hi, Hp'.
  rewrite bool_decide_eq_false_2; [done|]. by rewrite Hs.
Qed.

Lemma deactivated_package_takes_no_booking_witness :
  let w' := (run (update_tour_package Example.package_id
                    (Sample.set_status INACTIVE)) Example.fresh).2 in
  run (create_booking (Example.book 1) Example.alice) w'
  = (inl PackageInactive, w').
Proof.
  intros w'.
  apply (deactivated_package_takes_no_booking Example.package_id
           (Sample.set_status INACTIVE) Example.fresh Example.package_oid
           (Example.package 100 10 0) (Example.book 1) Example.alice).
  - vm_compute; reflexivity.
  - vm_compute; reflexivity.
  - reflexivity.
  - reflexivity.
  - eexists. vm_compute; reflexivity.
Defined.

(** ** Ratings *)

(** X14.  [create_rating] checks the value last: a request that is eligible
    and not a duplicate but whose rating is outside 1..5 is refused with a
    400, and nothing is stored. *)
Theorem create_rating_checks_range rating w :
  well_formed_ids rating →
  is_Some (find_one (eligibility_query rating) (bookings w)) →
  find_one (rating_query (Rating.tour_package_id rating)
              (Rating.tourist_id rating)) (ratings w) = None →
  ¬ (1 ≤ Rating.rating rating ≤ 5) →
  run (create_rating rating) w
  = (inl (HTTPException HTTP_400_BAD_REQUEST "Rating must be between 1 and 5"),
     w).
Proof.
  intros Hwf [[o b] Hb] Hr Hrange.
  rewrite (create_rating_well_formed _ Hwf), run_create_rating_with, Hb, Hr.
  destruct (_ && _) eqn:E; [|done].
  apply andb_true_iff in E as [E1 E2]. lia.
Qed.

Lemma create_rating_checks_range_witness :
  run (create_rating (Example.rate Example.bob 7)) Example.rated_world
  = (inl (HTTPException HTTP_400_BAD_REQUEST "Rating must be between 1 and 5"),
     Example.rated_world).
Proof.
  apply create_rating_checks_range.
  - split; [eexists; vm_compute; reflexivity|]. intros H. discriminate H.
  - eexists. vm_compute. reflexivity.
  - vm_compute. reflexivity.
  - vm_compute. intros [_ H]. by apply H.
Defined.

(** The ratings a request leaves: the ones it found, or one more, in range
    and for a pair that had none. *)
Lemma serve_ratings r w :
  ratings (serve r w) = ratings w
  ∨ ∃ rating o,
      r = CreateRating rating
      ∧ ratings (serve r w)
        = ratings w ++ [(next_oid w, rating_payload rating o)]
      ∧ 1 ≤ Rating.rating rating ≤ 5
      ∧ find_one (rating_query (Rating.tour_package_id rating)
                    (Rating.tourist_id rating)) (ratings w) = None.
Proof.
  destruct r as [booking t|booking_id s|package_id u|rating]; cbn [serve].
  - left. apply create_booking_ratings.
  - left. rewrite run_update_booking_status.
    destruct (ObjectId_of_str booking_id); [|done].
    destruct (find_one _ _) as [[]|]; [|done].
    destruct (bool_decide (_ ∈ _)); [|done]. cbn zeta.
    by destruct (bool_decide _); [destruct (package_of _)|].
  - left. apply update_tour_package_ratings.
  - assert (H : ∀ q,
      ratings (run (create_rating_with rating q) w).2 = ratings w
      ∨ ∃ o, ratings (run (create_rating_with rating q) w).2
             = ratings w ++ [(next_oid w, rating_payload rating o)]
             ∧ 1 ≤ Rating.rating rating ≤ 5
             ∧ find_one (rating_query (Rating.tour_package_id rating)
                           (Rating.tourist_id rating)) (ratings w) = None).
    { intros q. rewrite run_create_rating_with.
      destruct (find_one q _) as [[o b]|]; [|by left].
      destruct (find_one _ (ratings w)) eqn:Hf; [by left|].
      destruct (_ && _) eqn:E; [|by left]. cbn zeta.
      destruct (insert_one _ _ _) as [c|] eqn:Hins; [|by left].
      apply find_one_insert_one in Hins as (-> & _ & _).
      right. exists o. apply andb_true_iff in E as [E1 E2].
      split_and!; [done|lia|lia|done]. }
    unfold create_rating.
    destruct (ObjectId_of_str (Rating.tour_package_id rating)); [|by left].
    destruct (truthy _).
    + destruct (ObjectId_of_str (default "" _)); [|by left].
      destruct (H (booking_query o (Rating.tourist_id rating) (Some o0)))
        as [?|(o' & ?)]; [by left|]. right. by exists rating, o'.
    + destruct (H (booking_query o (Rating.tourist_id rating) None))
        as [?|(o' & ?)]; [by left|]. right. by exists rating, o'.
Qed.

Lemma serve_ratings_in_range r w :
  ratings_in_range w → ratings_in_range (serve r w).
Proof.
  unfold ratings_in_range. intros Hw.
  destruct (serve_ratings r w) as [->|(rating & o & _ & -> & Hr & _)]; [done|].
  apply Forall_app. split; [done|]. by apply Forall_singleton.
Qed.

(** X15.  When every stored rating is between 1 and 5, this is still so after
    any sequence of requests. *)
Theorem ratings_stay_in_range rs w :
  ratings_in_range w → ratings_in_range (serve_all rs w).
Proof.
  revert w. induction rs as [|r rs IH]; intros w Hw; [done|].
  cbn. apply IH. by apply serve_ratings_in_range.
Qed.

Lemma ratings_stay_in_range_witness :
  let rs := [CreateRating (Example.rate Example.bob 2);
             CreateRating (Example.rate Example.bob 9)] in
  ratings_in_range Example.rated_world
  ∧ ratings_in_range (serve_all rs Example.rated_world).
Proof.
  intros rs.
  assert (H : ratings_in_range Example.rated_world).
  { unfold ratings_in_range. repeat apply Forall_cons_2; [| |apply Forall_nil_2];
      vm_compute; split; discriminate. }
  split; [exact H|]. exact (ratings_stay_in_range rs _ H).
Defined.

Lemma serve_one_rating_each r w : one_rating_each w → one_rating_each (serve r w).
Proof.
  unfold one_rating_each. intros Hw.
  destruct (serve_ratings r w) as [->|(rating & o & _ & -> & _ & Hf)]; [done|].
  rewrite fmap_app. apply NoDup_app. split_and!; [done| |].
  - intros k Hk Hk'. cbn in Hk'. apply list_elem_of_singleton in Hk'. subst k.
    apply list_elem_of_fmap in Hk as (d & Hd & Hin).
    rewrite find_one_None in Hf. specialize (Hf d Hin).
    unfold rating_query in Hf. injection Hd as Hd1 Hd2.
    cbn in Hd1, Hd2.
    by rewrite !bool_decide_eq_true_2 in Hf.
  - apply NoDup_singleton.
Qed.

(** X16.  Served one after the other, requests never give a tourist a second
    rating under the same package identifier: a ledger without such
    duplicates stays without them. *)
Theorem one_rating_per_tourist_and_package rs w :
  one_rating_each w → one_rating_each (serve_all rs w).
Proof.
  revert w. induction rs as [|r rs IH]; intros w Hw; [done|].
  cbn. apply IH. by apply serve_one_rating_each.
Qed.

Lemma one_rating_per_tourist_and_package_witness :
  let rs := [CreateRating (Example.rate Example.bob 2);
             CreateRating (Example.rate Example.bob 3)] in
  one_rating_each Example.rated_world
  ∧ one_rating_each (serve_all rs Example.rated_world).
Proof.
  intros rs.
  assert (H : one_rating_each Example.rated_world).
  { unfold one_rating_each. refine (bool_decide_eq_true_1 _ _).
    vm_compute. reflexivity. }
  split; [exact H|]. exact (one_rating_per_tourist_and_package rs _ H).
Defined.

Lemma round1_between x : (1 <= x <= 5)%Q → (1 <= round1 x <= 5)%Q.
Proof.
  intros [Hlo Hhi]. unfold round1.
  set (t := (x * 10)%Q). set (f := Qfloor t).
  assert (Ht : (10 <= t <= 50)%Q) by (unfold t; split; lra).
  assert (Hf : 10 ≤ f ≤ 50).
  { split.
    - change 10 with (Qfloor 10). apply Qfloor_resp_le, Ht.
    - change 50 with (Qfloor 50). apply Qfloor_resp_le, Ht. }
  assert (Hz : ∀ z, 10 ≤ z ≤ 50 → (1 <= z # 10 <= 5)%Q).
  { intros z Hz. unfold Qle. cbn. lia. }
  destruct (Qcompare_spec (t - inject_Z f) (1 # 2)) as [Hc|Hc|Hc].
  - destruct (Z.even f); apply Hz; [lia|].
    assert (f ≠ 50); [|lia]. intros E. rewrite E in Hc.
    change (inject_Z 50) with 50%Q in Hc. lra.
  - apply Hz. lia.
  - apply Hz. assert (f ≠ 50); [|lia]. intros E. rewrite E in Hc.
    change (inject_Z 50) with 50%Q in Hc. lra.
Qed.

Lemma mean_between l :
  l ≠ [] → Forall (λ v, 1 ≤ v ≤ 5) l → (1 <= mean l <= 5)%Q.
Proof.
  intros Hne Hl. unfold mean.
  assert (Hsum : Z.of_nat (length l) ≤ foldr Z.add 0 l ≤ 5 * Z.of_nat (length l)).
  { induction Hl as [|v l Hv _ IH]; [done|]. cbn [foldr length].
    destruct l as [|v' l'].
    - cbn. lia.
    - assert (v' :: l' ≠ []) by done. specialize (IH H). lia. }
  assert (Hlen : 0 < Z.of_nat (length l)) by (destruct l; [done|cbn; lia]).
  set (s := foldr Z.add 0 l) in *. set (n := Z.of_nat (length l)) in *.
  assert (Hn : (0 < inject_Z n)%Q).
  { change 0%Q with (inject_Z 0). by rewrite <- Zlt_Qlt. }
  split.
  - apply Qle_shift_div_l; [done|]. rewrite Qmult_1_l, <- Zle_Qle. lia.
  - apply Qle_shift_div_r; [done|].
    change 5%Q with (inject_Z 5). rewrite <- inject_Z_mult, <- Zle_Qle. lia.
Qed.

(** X17.  A successful [create_rating] writes the number of ratings stored
    under the package identifier to [rating_count] and leaves
    [total_ratings], the counters, the price and the status of the package
    as they were, and the other packages too; when the stored ratings are
    between 1 and 5, so is the [average_rating] it writes. *)
Theorem stored_rating_aggregate rating w r w' i p :
  run (create_rating rating) w = (inr r, w') →
  ObjectId_of_str (Rating.tour_package_id rating) = Some i →
  tour_packages w !! i = Some p →
  let values := rating_values (Rating.tour_package_id rating) (ratings w') in
  ∃ p',
    tour_packages w' !! i = Some p'
    ∧ TourPackage.rating_count p' = Some (Z.of_nat (length values))
    ∧ TourPackage.total_ratings p' = TourPackage.total_ratings p
    ∧ TourPackage.current_participants p' = TourPackage.current_participants p
    ∧ TourPackage.max_participants p' = TourPackage.max_participants p
    ∧ TourPackage.price p' = TourPackage.price p
    ∧ TourPackage.status p' = TourPackage.status p
    ∧ (ratings_in_range w → (1 <= TourPackage.average_rating p' <= 5)%Q)
    ∧ (∀ j, j ≠ i → tour_packages w' !! j = tour_packages w !! j).
Proof.
  intros Hrun Hi Hp values.
  assert (Hrange : ratings_in_range w → ratings_in_range w').
  { intros Hw. apply (serve_ratings_in_range (CreateRating rating)) in Hw.
    cbn [serve] in Hw. by rewrite Hrun in Hw. }
  apply create_rating_succeeded in Hrun
    as (i' & o & Hi' & _ & _ & Hr & _ & Hp').
  assert (i' = i) as -> by congruence.
  assert (Hin : Rating.rating rating ∈ values).
  { subst values. rewrite Hr. unfold rating_values.
    rewrite List.filter_app, fmap_app. apply elem_of_app. right.
    cbn. rewrite bool_decide_eq_true_2 by done. cbn. by left. }
  assert (Hne : values ≠ []).
  { intros E. rewrite E in Hin. by apply elem_of_nil in Hin. }
  rewrite (package_rating_mean _ _ Hne) in Hp'. cbn [fst snd] in Hp'.
  eexists. rewrite Hp'. split; [by rewrite lookup_alter_eq, Hp|].
  cbn. split_and!; try done.
  - intros Hw. apply round1_between, mean_between; [done|].
    specialize (Hrange Hw). unfold ratings_in_range in Hrange.
    subst values. unfold rating_values.
    apply Forall_fmap. apply Forall_forall. intros d Hd.
    apply list_elem_of_In, filter_In in Hd as [Hd _].
    apply list_elem_of_In in Hd.
    rewrite Forall_forall in Hrange. by apply Hrange.
  - intros j Hj. by rewrite lookup_alter_ne.
Qed.

Lemma stored_rating_aggregate_witness :
  let rating := Example.rate Example.bob 2 in
  ratings_in_range Example.rated_world
  ∧ ∃ p',
      tour_packages Example.rated !! Example.package_oid = Some p'
      ∧ TourPackage.rating_count p' = Some 3
      ∧ TourPackage.total_ratings p' = 0
      ∧ (1 <= TourPackage.average_rating p' <= 5)%Q.
Proof.
  intros rating.
  assert (H1 : run (create_rating rating) Example.rated_world
               = (inr (Some (ObjectId_str 4%N, rating_payload rating 1%N)),
                  Example.rated)) by (vm_compute; reflexivity).
  assert (H2 : ObjectId_of_str (Rating.tour_package_id rating)
               = Some Example.package_oid) by (vm_compute; reflexivity).
  assert (H3 : tour_packages Example.rated_world !! Example.package_oid
               = Some (Example.package 100 10 2)) by (vm_compute; reflexivity).
  assert (H4 : ratings_in_range Example.rated_world).
  { unfold ratings_in_range. repeat apply Forall_cons_2; [| |apply Forall_nil_2];
      vm_compute; split; discriminate. }
  split; [exact H4|].
  destruct (stored_rating_aggregate _ _ _ _ _ _ H1 H2 H3)
    as (p' & Hp' & Hc & Ht & _ & _ & _ & _ & Havg & _).
  exists p'. split; [exact Hp'|]. split; [exact Hc|]. split; [exact Ht|].
  exact (Havg H4).
Defined.

(** X18.  [update_package_rating] on a malformed identifier does nothing; with
    no rating stored under the identifier it writes an average of 0 and a
    count of 0; it never touches bookings or ratings; and running it a
    second time changes nothing. *)
Theorem update_package_rating_edges package_id w :
  let w' := (run (update_package_rating package_id) w).2 in
  (ObjectId_of_str package_id = None → w' = w)
  ∧ bookings w' = bookings w ∧ ratings w' = ratings w
  ∧ (∀ i p, ObjectId_of_str package_id = Some i →
            tour_packages w !! i = Some p →
            rating_values package_id (ratings w) = [] →
            tour_packages w' !! i
            = Some (TourPackage.set_rating 0 0 p))
  ∧ (∀ i, ObjectId_of_str package_id = Some i →
          tour_packages w !! i = None →
          tour_packages w' = tour_packages w)
  ∧ run (update_package_rating package_id) w'
    = (inr tt, w').
Proof.
  intros w'. subst w'. rewrite !run_update_package_rating.
  destruct (ObjectId_of_str package_id) as [i|]; [|by split_and!].
  cbn zeta. cbn [snd with_tour_packages bookings ratings tour_packages].
  split_and!; try done.
  - intros i' p [= <-] Hp Hv. rewrite lookup_alter_eq, Hp.
    unfold package_rating, aggregate_ratings.
    unfold rating_values in Hv. apply fmap_nil_inv in Hv. by rewrite Hv.
  - intros i' [= <-] Hp. apply map_eq. intros j.
    rewrite lookup_alter. case_decide; [subst; by rewrite Hp|done].
  - f_equal. destruct w as [tp bs rs no rg]. unfold with_tour_packages. cbn.
    f_equal. apply map_eq. intros j.
    destruct (decide (i = j)) as [->|Hij].
    + rewrite !lookup_alter_eq. by destruct (tp !! j).
    + by rewrite !lookup_alter_ne.
Qed.

Lemma update_package_rating_edges_witness :
  tour_packages (run (update_package_rating Example.package_id) Example.booked).2
    !! Example.package_oid
  = Some (TourPackage.set_rating 0 0 (Example.package 100 10 4)).
Proof.
  apply (update_package_rating_edges Example.package_id Example.booked).
  - vm_compute; reflexivity.
  - vm_compute; reflexivity.
  - reflexivity.
Defined.

(** ** Deleting a package *)

Lemma run_delete_tour_package package_id w :
  delete_tour_package package_id w
  = if 0 <? Z.of_nat (length (List.filter (active_bookings_query package_id)
                                (bookings w)))
    then (inl (HTTPException HTTP_400_BAD_REQUEST
                 "Cannot delete package with active bookings"), w)
    else
      match ObjectId_of_str package_id with
      | None => (inl InvalidId, w)
      | Some i =>
          match tour_packages w !! i with
          | None => (inl NotFound_package, w)
          | Some _ =>
              (inr true, with_tour_packages (delete i (tour_packages w)) w)
          end
      end.
Proof.
  unfold delete_tour_package, bind, bookings_count_documents.
  destruct (0 <? _); [done|].
  destruct (ObjectId_of_str package_id) as [i|]; [|done].
  unfold tour_packages_delete_one. by destruct (tour_packages w !! i).
Qed.

Lemma no_active_bookings_by_string package_id w :
  foreign_keys_are_ObjectIds w →
  List.filter (active_bookings_query package_id) (bookings w) = [].
Proof.
  unfold foreign_keys_are_ObjectIds. induction 1 as [|d c Hd _ IH]; [done|].
  cbn [List.filter]. destruct Hd as (t & p & _ & Hp).
  unfold active_bookings_query at 1. rewrite Hp.
  by rewrite (bool_decide_eq_false_2 (IdOid p = IdStr _)).
Qed.

(** X19.  [delete_tour_package] looks for active bookings under the package
    identifier as a string, while the services store it as an ObjectId: in
    a ledger whose bookings hold ObjectIds the check finds nothing, and a
    stored package is deleted whatever bookings point at it.  The bookings
    stay. *)
Theorem delete_tour_package_ignores_service_bookings package_id w i p :
  foreign_keys_are_ObjectIds w →
  ObjectId_of_str package_id = Some i →
  tour_packages w !! i = Some p →
  let outcome := delete_tour_package package_id w in
  outcome.1 = inr true
  ∧ tour_packages outcome.2 = delete i (tour_packages w)
  ∧ bookings outcome.2 = bookings w
  ∧ ratings outcome.2 = ratings w.
Proof.
  intros Hfk Hi Hp outcome. subst outcome.
  rewrite run_delete_tour_package, (no_active_bookings_by_string _ _ Hfk).
  cbn [length Z.of_nat Z.ltb Z.compare]. by rewrite Hi, Hp.
Qed.

Lemma delete_tour_package_ignores_service_bookings_witness :
  booked_people Example.package_oid (bookings Example.booked) = 4
  ∧ (delete_tour_package Example.package_id Example.booked).1 = inr true
  ∧ tour_packages (delete_tour_package Example.package_id Example.booked).2
      !! Example.package_oid = None.
Proof.
  assert (H1 : foreign_keys_are_ObjectIds Example.booked).
  { unfold foreign_keys_are_ObjectIds.
    assert (Hb : bookings Example.booked = [(1%N, Example.first_booking)])
      by (vm_compute; reflexivity).
    rewrite Hb. apply Forall_cons_2; [|apply Forall_nil_2].
    eexists _, _. split; reflexivity. }
  assert (H2 : ObjectId_of_str Example.package_id = Some Example.package_oid)
    by (vm_compute; reflexivity).
  assert (H3 : tour_packages Example.booked !! Example.package_oid
               = Some (Example.package 100 10 4)) by (vm_compute; reflexivity).
  destruct (delete_tour_package_ignores_service_bookings _ _ _ _ H1 H2 H3)
    as (Ha & Hb & _).
  split_and!; [vm_compute; reflexivity|exact Ha|].
  rewrite Hb. apply lookup_delete_eq.
Defined.

(** X20.  [delete_tour_package] refuses with a 400 when a pending or confirmed
    booking holds the package identifier as that string; otherwise an
    identifier that is not 24 characters long, or that holds a character
    that is neither a hexadecimal digit nor a blank, raises [InvalidId] and
    an unknown one gives [NotFound]; a refusal never changes the world. *)
Theorem delete_tour_package_refusals package_id w :
  let outcome := delete_tour_package package_id w in
  ((∃ d, d ∈ bookings w
         ∧ Booking.tour_package_id d.2 = IdStr package_id
         ∧ (Booking.status d.2 = PENDING ∨ Booking.status d.2 = CONFIRMED)) →
   outcome = (inl (HTTPException HTTP_400_BAD_REQUEST
                     "Cannot delete package with active bookings"), w))
  ∧ (List.filter (active_bookings_query package_id) (bookings w) = [] →
     not_an_ObjectId package_id →
     outcome = (inl InvalidId, w))
  ∧ (List.filter (active_bookings_query package_id) (bookings w) = [] →
     ∀ i, ObjectId_of_str package_id = Some i →
          tour_packages w !! i = None →
          outcome = (inl NotFound_package, w))
  ∧ (∀ e w', outcome = (inl e, w') → w' = w).
Proof.
  intros outcome. subst outcome. rewrite run_delete_tour_package.
  split_and!.
  - intros (d & Hin & Hp & Hs).
    assert (Hd : d ∈ List.filter (active_bookings_query package_id) (bookings w)).
    { apply list_elem_of_In, filter_In. split; [by apply list_elem_of_In|].
      unfold active_bookings_query. rewrite Hp, bool_decide_eq_true_2 by done.
      apply bool_decide_eq_true_2.
      destruct Hs as [-> | ->]; [left|right; left]. }
    destruct (List.filter _ _) as [|x l]; [by apply elem_of_nil in Hd|].
    cbn [length]. destruct (0 <? _) eqn:E; [done|]. apply Z.ltb_ge in E. lia.
  - by intros -> ->%not_an_ObjectId_refused.
  - by intros -> i -> ->.
  - intros e w'. destruct (0 <? _); [by intros [= _ <-]|].
    destruct (ObjectId_of_str package_id) as [i|]; [|by intros [= _ <-]].
    destruct (tour_packages w !! i); [done|by intros [= _ <-]].
Qed.

Lemma delete_tour_package_refusals_witness :
  delete_tour_package Example.package_id Sample.legacy
  = (inl (HTTPException HTTP_400_BAD_REQUEST
            "Cannot delete package with active bookings"), Sample.legacy)
  ∧ delete_tour_package Sample.not_hexadecimal Example.booked
    = (inl InvalidId, Example.booked).
Proof.
  split.
  - apply (delete_tour_package_refusals Example.package_id Sample.legacy).
    eexists. split; [left|]. split; [reflexivity|left; reflexivity].
  - apply (delete_tour_package_refusals Sample.not_hexadecimal Example.booked).
    + vm_compute. reflexivity.
    + right. vm_compute. reflexivity.
Defined.

Lemma run_get_tour_package package_id w :
  get_tour_package package_id w
  = match ObjectId_of_str package_id with
    | None => (inl InvalidId, w)
    | Some i =>
        match tour_packages w !! i with
        | None => (inl NotFound_package, w)
        | Some p => (inr (ObjectId_str i, p), w)
        end
    end.
Proof.
  unfold get_tour_package. destruct (ObjectId_of_str package_id) as [i|]; [|done].
  unfold bind. cbn [exec]. by destruct (tour_packages w !! i).
Qed.

(** X21.  After a successful [delete_tour_package], [get_tour_package] and
    [create_booking] for that package answer [NotFound], and so does a
    second deletion. *)
Theorem deleted_package_is_gone package_id w w' booking t :
  delete_tour_package package_id w = (inr true, w') →
  BookingCreate.tour_package_id booking = package_id →
  is_Some (ObjectId_of_str t) →
  get_tour_package package_id w' = (inl NotFound_package, w')
  ∧ run (create_booking booking t) w' = (inl NotFound_package, w')
  ∧ delete_tour_package package_id w' = (inl NotFound_package, w').
Proof.
  rewrite run_delete_tour_package. intros Hdel Hb [o Ho].
  destruct (0 <? _) eqn:Hact; [done|].
  destruct (ObjectId_of_str package_id) as [i|] eqn:Hi; [|done].
  destruct (tour_packages w !! i); [|done]. injection Hdel as <-.
  assert (Hgone : tour_packages (with_tour_packages (delete i (tour_packages w)) w) !! i = None)
    by apply lookup_delete_eq.
  split_and!.
  - by rewrite run_get_tour_package, Hi, Hgone.
  - by rewrite run_create_booking, Ho, Hb, Hi, Hgone.
  - rewrite run_delete_tour_package. cbn [with_tour_packages bookings].
    by rewrite Hact, Hi, Hgone.
Qed.

Lemma deleted_package_is_gone_witness :
  delete_tour_package Example.package_id Example.booked
  = (inr true, Sample.deleted)
  ∧ run (create_booking (Example.book 1) Example.bob) Sample.deleted
    = (inl NotFound_package, Sample.deleted).
Proof.
  assert (H : delete_tour_package Example.package_id Example.booked
              = (inr true, Sample.deleted)) by (vm_compute; reflexivity).
  split; [exact H|].
  apply (deleted_package_is_gone _ _ _ (Example.book 1) Example.bob H).
  - reflexivity.
  - eexists. vm_compute; reflexivity.
Defined.

(** X22.  Cancelling a booking whose package has been deleted succeeds and
    marks the booking cancelled; no package is created or changed by the
    release of its slots. *)
Theorem cancellation_after_deletion_touches_no_package
    booking_id w i d p :
  ObjectId_of_str booking_id = Some i →
  find_one (by_id i) (bookings w) = Some d →
  package_of d.2 = Some p →
  tour_packages w !! p = None →
  Booking.status d.2 = PENDING ∨ Booking.status d.2 = CONFIRMED →
  let outcome := run (update_booking_status booking_id CANCELLED) w in
  succeeded outcome.1 = true
  ∧ tour_packages outcome.2 = tour_packages w
  ∧ find_one (by_id i) (bookings outcome.2)
    = Some (i, Booking.set_status CANCELLED d.2).
Proof.
  intros Hid Hf Hp Hgone Hst outcome. subst outcome.
  rewrite run_update_booking_status, Hid, Hf.
  assert (Hd : d.1 = i) by apply (find_one_by_id_fst _ _ _ Hf).
  destruct d as [i' b]. cbn [fst snd] in *. subst i'.
  rewrite bool_decide_eq_true_2; last first.
  { destruct Hst as [-> | ->]; cbn; by right; left. }
  cbn zeta. rewrite bool_decide_eq_true_2, Hp by done.
  cbn [fst snd with_tour_packages with_bookings tour_packages bookings].
  split_and!; [done| |].
  - apply map_eq. intros j. rewrite lookup_alter.
    case_decide; [subst; by rewrite Hgone|done].
  - rewrite find_one_update_one, Hf. cbn. by rewrite bool_decide_eq_true_2.
Qed.

Lemma cancellation_after_deletion_touches_no_package_witness :
  let outcome :=
    run (update_booking_status Example.first_id CANCELLED) Sample.deleted in
  succeeded outcome.1 = true
  ∧ tour_packages outcome.2 = tour_packages Sample.deleted.
Proof.
  intros outcome.
  assert (H1 : ObjectId_of_str Example.first_id = Some 1%N)
    by (vm_compute; reflexivity).
  assert (H2 : find_one (by_id 1%N) (bookings Sample.deleted)
               = Some (1%N, Example.first_booking)) by (vm_compute; reflexivity).
  assert (H3 : package_of (1%N, Example.first_booking).2
               = Some Example.package_oid) by reflexivity.
  assert (H4 : tour_packages Sample.deleted !! Example.package_oid = None)
    by (vm_compute; reflexivity).
  assert (H5 : Booking.status (1%N, Example.first_booking).2 = PENDING
               ∨ Booking.status (1%N, Example.first_booking).2 = CONFIRMED)
    by (left; reflexivity).
  destruct (cancellation_after_deletion_touches_no_package _ _ _ _ _
              H1 H2 H3 H4 H5) as (Ha & Hb & _).
  split; [exact Ha|exact Hb].
Defined.

(** ** The routes *)

(** X23.  The route [POST /bookings/] never answers 400 or 404: a caller who
    is not a tourist gets a 403 and nothing happens; for a tourist, whatever
    [create_booking] raises (not found, inactive, insufficient capacity,
    ...) comes out as a 500 whose detail quotes the original error. *)
Theorem create_new_booking_failures str booking current_user w e w' :
  create_new_booking str booking current_user w = (inl e, w') →
  (UserInDB.role current_user ≠ TOURIST
   ∧ e = HTTPException HTTP_403_FORBIDDEN "Only tourists can create bookings"
   ∧ w' = w)
  ∨ (UserInDB.role current_user = TOURIST
     ∧ ∃ e0,
         run (create_booking booking (UserInDB.id current_user)) w
         = (inl e0, w')
         ∧ e = HTTPException HTTP_500_INTERNAL_SERVER_ERROR
                 ("Failed to create booking: " +:+ str e0)).
Proof.
  unfold create_new_booking. case_bool_decide as Hrole; cbn [negb].
  - intros Hrun. right. split; [done|].
    unfold try_except, bind in Hrun.
    destruct (run (create_booking booking (UserInDB.id current_user)) w)
      as [[e0|r] w1] eqn:Hcb.
    + injection Hrun as <- <-. by exists e0.
    + apply create_booking_succeeded in Hcb
        as (? & ? & ? & _ & _ & _ & _ & _ & -> & _).
      done.
  - intros [= <- <-]. by left.
Qed.

Lemma create_new_booking_failures_witness :
  create_new_booking Sample.str (Example.book 11)
    (Sample.tourist Example.alice) Example.fresh
  = (inl (HTTPException HTTP_500_INTERNAL_SERVER_ERROR
            "Failed to create booking: 400: Only 10 slots available"),
     Example.fresh)
  ∧ ∃ e0,
      run (create_booking (Example.book 11) Example.alice) Example.fresh
      = (inl e0, Example.fresh).
Proof.
  assert (H : create_new_booking Sample.str (Example.book 11)
                (Sample.tourist Example.alice) Example.fresh
              = (inl (HTTPException HTTP_500_INTERNAL_SERVER_ERROR
                        "Failed to create booking: 400: Only 10 slots available"),
                 Example.fresh)) by (vm_compute; reflexivity).
  split; [exact H|].
  destruct (create_new_booking_failures _ _ _ _ _ _ H)
    as [(Hrole & _)|(_ & e0 & He0 & _)].
  - destruct Hrole. reflexivity.
  - exists e0. exact He0.
Defined.

(** X24.  The route [POST /ratings/] refuses, with a 403 and no effect, a
    caller who is not a tourist and a rating whose [tourist_id] is not the
    caller's; a rating it stores carries the caller's identifier. *)
Theorem create_new_rating_is_for_oneself rating current_user w :
  let outcome := create_new_rating rating current_user w in
  (UserInDB.role current_user ≠ TOURIST →
   outcome = (inl (HTTPException HTTP_403_FORBIDDEN
                     "Only tourists can create ratings"), w))
  ∧ (UserInDB.role current_user = TOURIST →
     Rating.tourist_id rating ≠ UserInDB.id current_user →
     outcome = (inl (HTTPException HTTP_403_FORBIDDEN
                       "You can only create ratings for yourself"), w))
  ∧ (∀ r, outcome.1 = inr r →
          UserInDB.role current_user = TOURIST
          ∧ ∃ i d, ratings outcome.2 = ratings w ++ [(i, d)]
                   ∧ Rating.tourist_id d = UserInDB.id current_user).
Proof.
  intros outcome. subst outcome. unfold create_new_rating. split_and!.
  - intros Hr. by rewrite bool_decide_eq_false_2.
  - intros Hr Ht. rewrite bool_decide_eq_true_2 by done. cbn [negb].
    by rewrite bool_decide_eq_false_2.
  - intros r. case_bool_decide as Hr; cbn [negb]; [|done].
    case_bool_decide as Ht; cbn [negb]; [|done].
    destruct (run (create_rating rating) w) as [[e|r'] w'] eqn:Hrun; [done|].
    intros _. split; [done|].
    apply create_rating_succeeded in Hrun
      as (i & o & _ & _ & _ & Hrs & _).
    cbn [snd]. rewrite Hrs. by eexists _, _.
Qed.

Lemma create_new_rating_is_for_oneself_witness :
  create_new_rating (Example.rate Example.bob 5)
    (Sample.tourist Example.alice) Example.rated_world
  = (inl (HTTPException HTTP_403_FORBIDDEN
            "You can only create ratings for yourself"), Example.rated_world).
Proof.
  apply (create_new_rating_is_for_oneself (Example.rate Example.bob 5)
           (Sample.tourist Example.alice) Example.rated_world).
  - reflexivity.
  - vm_compute. discriminate.
Defined.

Lemma run_update_booking_status_endpoint tc booking_id new_status current_user w :
  update_booking_status_endpoint tc booking_id new_status current_user w
  = match ObjectId_of_str booking_id with
    | None => (inl InvalidId, w)
    | Some i =>
        match find_one (by_id i) (bookings w) with
        | None => (inl NotFound_booking, w)
        | Some d =>
            match authorize_status_update tc (BookingInDB.build d.1 d.2)
                    new_status current_user w with
            | (inl e, w') => (inl e, w')
            | (inr _, w') =>
                run (update_booking_status booking_id new_status) w'
            end
        end
    end.
Proof.
  unfold update_booking_status_endpoint, bind at 1.
  rewrite run_get_booking.
  destruct (ObjectId_of_str booking_id) as [i|]; [|done].
  destruct (find_one (by_id i) (bookings w)) as [d|]; [|done].
  unfold bind. by destruct (authorize_status_update _ _ _ _ _) as [[|[]] ?].
Qed.

Lemma authorize_status_update_keeps_world tc booking new_status current_user w :
  (authorize_status_update tc booking new_status current_user w).2 = w.
Proof.
  unfold authorize_status_update. destruct (UserInDB.role current_user).
  - by destruct (_ || _).
  - unfold bind. rewrite run_get_tour_package.
    destruct (ObjectId_of_str _) as [i|]; [|done].
    destruct (tour_packages w !! i); [|done]. cbn [fst snd].
    destruct (negb _); [done|]. by destruct (negb _).
  - done.
Qed.

(** X25.  Through [PUT /bookings/{id}/status] a tourist can do one thing:
    ask for [cancelled] on a booking whose tourist is the caller, which is
    then handled by [update_booking_status].  Any other request on a stored
    booking is refused with a 403 and changes nothing. *)
Theorem tourist_may_only_cancel_own_booking tc booking_id new_status
    current_user w i d :
  UserInDB.role current_user = TOURIST →
  ObjectId_of_str booking_id = Some i →
  find_one (by_id i) (bookings w) = Some d →
  let outcome :=
    update_booking_status_endpoint tc booking_id new_status current_user w in
  let own := BookingInDB.str_of_id (Booking.tourist_id d.2)
             = UserInDB.id current_user in
  (own ∧ new_status = CANCELLED →
   outcome = run (update_booking_status booking_id CANCELLED) w)
  ∧ (¬ (own ∧ new_status = CANCELLED) →
     outcome = (inl (HTTPException HTTP_403_FORBIDDEN
                       "Not authorized to perform this action"), w)).
Proof.
  intros Hrole Hi Hf outcome own. subst outcome own.
  rewrite run_update_booking_status_endpoint, Hi, Hf.
  unfold authorize_status_update. rewrite Hrole.
  cbn [BookingInDB.tourist_id BookingInDB.build]. split.
  - intros [Hown ->]. by rewrite !bool_decide_eq_true_2.
  - intros Hnot. repeat case_bool_decide; cbn; try done. by destruct Hnot.
Qed.

Lemma tourist_may_only_cancel_own_booking_witness :
  update_booking_status_endpoint (Sample.owned_by Sample.owner)
    Example.first_id CONFIRMED (Sample.tourist Example.alice) Example.booked
  = (inl (HTTPException HTTP_403_FORBIDDEN
            "Not authorized to perform this action"), Example.booked)
  ∧ update_booking_status_endpoint (Sample.owned_by Sample.owner)
      Example.first_id CANCELLED (Sample.tourist Example.alice) Example.booked
    = run (update_booking_status Example.first_id CANCELLED) Example.booked.
Proof.
  assert (H1 : UserInDB.role (Sample.tourist Example.alice) = TOURIST)
    by reflexivity.
  assert (H2 : ObjectId_of_str Example.first_id = Some 1%N)
    by (vm_compute; reflexivity).
  assert (H3 : find_one (by_id 1%N) (bookings Example.booked)
               = Some (1%N, Example.first_booking)) by (vm_compute; reflexivity).
  split.
  - apply (tourist_may_only_cancel_own_booking (Sample.owned_by Sample.owner)
             Example.first_id CONFIRMED _ _ _ _ H1 H2 H3).
    intros [_ H]. discriminate H.
  - apply (tourist_may_only_cancel_own_booking (Sample.owned_by Sample.owner)
             Example.first_id CANCELLED _ _ _ _ H1 H2 H3).
    split; [vm_compute; reflexivity|reflexivity].
Defined.

(** X26.  Through [PUT /bookings/{id}/status] a travel company changes a
    booking only when the booking's package is stored and the package's
    [travel_company_id] is the caller; the request is then handled by
    [update_booking_status]. *)
Theorem company_may_only_change_own_bookings tc booking_id new_status
    current_user w :
  UserInDB.role current_user = TRAVEL_COMPANY →
  let outcome :=
    update_booking_status_endpoint tc booking_id new_status current_user w in
  succeeded outcome.1 = true ∨ outcome.2 ≠ w →
  ∃ i d p,
    ObjectId_of_str booking_id = Some i
    ∧ find_one (by_id i) (bookings w) = Some d
    ∧ ObjectId_of_str (BookingInDB.str_of_id (Booking.tour_package_id d.2))
      = Some p
    ∧ is_Some (tour_packages w !! p)
    ∧ tc (ObjectId_str p) = Some (UserInDB.id current_user)
    ∧ new_status ≠ PENDING
    ∧ outcome = run (update_booking_status booking_id new_status) w.
Proof.
  intros Hrole outcome. subst outcome.
  rewrite run_update_booking_status_endpoint.
  destruct (ObjectId_of_str booking_id) as [i|] eqn:Hi; [|by intros [[=]|[]]].
  destruct (find_one (by_id i) (bookings w)) as [d|] eqn:Hf;
    [|by intros [[=]|[]]].
  unfold authorize_status_update. rewrite Hrole.
  cbn [BookingInDB.tour_package_id BookingInDB.build].
  unfold bind. rewrite run_get_tour_package.
  destruct (ObjectId_of_str (BookingInDB.str_of_id _)) as [p|] eqn:Hp;
    [|by intros [[=]|[]]].
  destruct (tour_packages w !! p) as [pk|] eqn:Hpk; [|by intros [[=]|[]]].
  cbn [fst snd]. case_bool_decide as Hown; cbn [negb]; [|by intros [[=]|[]]].
  case_bool_decide as Hst; cbn [negb]; [|by intros [[=]|[]]].
  intros _. exists i, d, p. split_and!; try done.
  intros ->. repeat (apply elem_of_cons in Hst as [Hst|Hst]; [done|]).
  by apply elem_of_nil in Hst.
Qed.

Lemma company_may_only_change_own_bookings_witness :
  let outcome :=
    update_booking_status_endpoint (Sample.owned_by Sample.owner)
      Example.first_id CONFIRMED (Sample.company Sample.owner) Example.booked in
  succeeded outcome.1 = true
  ∧ outcome = run (update_booking_status Example.first_id CONFIRMED)
                Example.booked.
Proof.
  intros outcome.
  assert (H1 : UserInDB.role (Sample.company Sample.owner) = TRAVEL_COMPANY)
    by reflexivity.
  assert (H2 : succeeded outcome.1 = true) by (vm_compute; reflexivity).
  destruct (company_may_only_change_own_bookings (Sample.owned_by Sample.owner)
              Example.first_id CONFIRMED _ Example.booked H1 (or_introl H2))
    as (i & d & p & _ & _ & _ & _ & _ & _ & Hrun).
  split; [exact H2|exact Hrun].
Defined.

(** ** The repair of the counters *)

Lemma validate_data_integrity_lookup w i :
  tour_packages (validate_data_integrity w).2 !! i
  = set_current_participants (actual_participants i (bookings w))
      <$> tour_packages w !! i.
Proof.
  unfold validate_data_integrity. cbn [snd with_tour_packages tour_packages].
  rewrite map_lookup_imap. destruct (tour_packages w !! i) as [p|]; [|done].
  cbn. case_bool_decide as E; [done|]. f_equal.
  destruct p. cbn in *. by rewrite E.
Qed.

Lemma actual_participants_le_booked i c :
  Forall (λ d, 0 ≤ Booking.number_of_people d.2) c →
  0 ≤ actual_participants i c ≤ booked_people i c.
Proof.
  unfold actual_participants.
  induction 1 as [|d c Hd _ IH]; [done|].
  rewrite booked_people_cons. cbn [List.filter].
  assert (Himp : bool_decide (Booking.tour_package_id d.2 = IdOid i)
                 && bool_decide (Booking.status d.2 ∈ [CONFIRMED; PENDING])
                 = true → holds_slots i d = true).
  { rewrite andb_true_iff. intros [H1%bool_decide_eq_true H2%bool_decide_eq_true].
    unfold holds_slots, package_of. rewrite H1.
    rewrite bool_decide_eq_true_2 by done.
    rewrite bool_decide_eq_false_2; [done|]. intros E. rewrite E in H2.
    repeat (apply elem_of_cons in H2 as [H2|H2]; [done|]).
    by apply elem_of_nil in H2. }
  destruct (_ && _).
  - rewrite Himp by done. cbn [foldr]. lia.
  - destruct (holds_slots i d); lia.
Qed.

(** X27.  [validate_data_integrity] sets the counter of every package to the
    people of its pending and confirmed bookings (the ones holding the
    package as an ObjectId), changes nothing else of a package, leaves
    bookings and ratings alone, and changes nothing when run again. *)
Theorem validate_data_integrity_sets_counters w :
  let w' := (validate_data_integrity w).2 in
  bookings w' = bookings w
  ∧ ratings w' = ratings w
  ∧ (∀ i p, tour_packages w !! i = Some p →
            tour_packages w' !! i
            = Some (set_current_participants
                      (actual_participants i (bookings w)) p))
  ∧ (∀ i, tour_packages w !! i = None → tour_packages w' !! i = None)
  ∧ (validate_data_integrity w').2 = w'.
Proof.
  intros w'. split_and!; try done.
  - intros i p Hp. subst w'. by rewrite validate_data_integrity_lookup, Hp.
  - intros i Hp. subst w'. by rewrite validate_data_integrity_lookup, Hp.
  - unfold validate_data_integrity at 1. cbn [snd].
    assert (Hb : bookings w' = bookings w) by done.
    destruct w' as [tp bs rs no rg] eqn:Ew. unfold with_tour_packages.
    cbn [tour_packages bookings ratings next_oid rng] in *. f_equal.
    apply map_eq. intros j. rewrite map_lookup_imap.
    assert (Hj : tp !! j = tour_packages w' !! j) by (by rewrite Ew).
    rewrite Hj. subst w'. rewrite validate_data_integrity_lookup.
    destruct (tour_packages w !! j) as [p|]; [|done]. cbn.
    rewrite Hb. by rewrite bool_decide_eq_false_2 by (intros H; by apply H).
Qed.

Lemma validate_data_integrity_sets_counters_witness :
  tour_packages (validate_data_integrity Sample.drifted).2
    !! Example.package_oid
  = Some (set_current_participants
            (actual_participants Example.package_oid (bookings Sample.drifted))
            (Example.package 100 10 9))
  ∧ actual_participants Example.package_oid (bookings Sample.drifted) = 4.
Proof.
  split; [|vm_compute; reflexivity].
  apply (validate_data_integrity_sets_counters Sample.drifted).
  vm_compute; reflexivity.
Defined.

(** X28.  On a ledger whose counters account for its bookings,
    [validate_data_integrity] never raises a counter and leaves every
    package with [0 ≤ current_participants ≤ max_participants]. *)
Theorem validate_data_integrity_on_accounted w :
  accounted w →
  let w' := (validate_data_integrity w).2 in
  capacity_invariant w'
  ∧ ∀ i p p',
      tour_packages w !! i = Some p →
      tour_packages w' !! i = Some p' →
      TourPackage.current_participants p'
      ≤ TourPackage.current_participants p.
Proof.
  intros [Hpos Hacc] w'. split.
  - intros i p'. subst w'. rewrite validate_data_integrity_lookup.
    destruct (tour_packages w !! i) as [p|] eqn:Hp; [|done].
    cbn. intros [= <-]. cbn. specialize (Hacc i p Hp). cbn in Hacc.
    pose proof (actual_participants_le_booked i _ Hpos). lia.
  - intros i p p' Hp. subst w'. rewrite validate_data_integrity_lookup, Hp.
    cbn. intros [= <-]. cbn. specialize (Hacc i p Hp). cbn in Hacc.
    pose proof (actual_participants_le_booked i _ Hpos). lia.
Qed.

Lemma validate_data_integrity_on_accounted_witness :
  accounted Sample.drifted
  ∧ capacity_invariant (validate_data_integrity Sample.drifted).2.
Proof.
  assert (H : accounted Sample.drifted).
  { split.
    - assert (Hb : bookings Sample.drifted = [(1%N, Example.first_booking)])
        by (vm_compute; reflexivity).
      rewrite Hb. apply Forall_cons_2; [|apply Forall_nil_2].
      vm_compute. discriminate.
    - apply map_Forall_singleton. vm_compute. split; discriminate. }
  split; [exact H|].
  exact (proj1 (validate_data_integrity_on_accounted _ H)).
Defined.
